(** * CarryGreen dashboard: CSV ingestion, validation and aggregation

    A shallow embedding of the CSV pipeline of the dashboard
    ([lib/csv/validation.ts], the CSV parser module and
    [lib/csv/transformations.ts]) together with the properties its
    specification states about it.

    Conventions of the embedding.
    - A JavaScript string is a [string]; each [ascii] is read as the
      UTF-16 code unit of the same number (code units below 256).
    - A JavaScript number is an IEEE 754 binary64 value, represented by
      [spec_float] with precision 53 and maximal exponent 1024; the
      arithmetic is the one of [Stdlib.Floats.SpecFloat].
    - A row number is an integer ([Z]).
    - An object used as a dictionary is a [gmap string _]; an object whose
      iteration order matters is an association list in insertion order.
    - Host facilities that the code calls but does not define are the
      classes [NumberFormat] ([Number.prototype.toString]), [DateHost]
      (the [Date] object) and [Tokenizer] (Papa Parse). *)

From Stdlib Require Import ZArith String Ascii List Bool Lia.
From Stdlib Require Import Floats.SpecFloat DecimalString Sorting.Sorted.
From stdpp Require Import base option gmap strings.
Import ListNotations.

Local Open Scope string_scope.
Local Open Scope list_scope.
Local Open Scope Z_scope.

(** ** Strings *)

Module Str.

Definition code (c : ascii) : N := N_of_ascii c.

(** [WhiteSpace] and [LineTerminator] code units below 256: TAB, LF, VT,
    FF, CR, SP and NBSP. *)
Definition isWhiteSpace (c : ascii) : bool :=
  let n := code c in
  ((9 <=? n) && (n <=? 13))%N || (n =? 32)%N || (n =? 160)%N.

Definition isDigit (c : ascii) : bool :=
  let n := code c in ((48 <=? n) && (n <=? 57))%N.

Definition isHexDigit (c : ascii) : bool :=
  let n := code c in
  isDigit c || ((65 <=? n) && (n <=? 70))%N || ((97 <=? n) && (n <=? 102))%N.

Definition inRange (lo hi : ascii) (c : ascii) : bool :=
  ((code lo <=? code c) && (code c <=? code hi))%N.

Fixpoint dropWhile (p : ascii -> bool) (l : list ascii) : list ascii :=
  match l with
  | [] => []
  | c :: l' => if p c then dropWhile p l' else l
  end.

Definition trimStart (l : list ascii) : list ascii := dropWhile isWhiteSpace l.
Definition trimEnd (l : list ascii) : list ascii :=
  rev (dropWhile isWhiteSpace (rev l)).

(** [String.prototype.trim] *)
Definition trim (s : string) : string :=
  string_of_list_ascii (trimEnd (trimStart (list_ascii_of_string s))).

Definition lowerChar (c : ascii) : ascii :=
  let n := code c in
  if ((65 <=? n) && (n <=? 90))%N then ascii_of_N (n + 32) else c.

Definition upperChar (c : ascii) : ascii :=
  let n := code c in
  if ((97 <=? n) && (n <=? 122))%N then ascii_of_N (n - 32) else c.

Fixpoint mapChars (f : ascii -> ascii) (s : string) : string :=
  match s with
  | EmptyString => EmptyString
  | String c s' => String (f c) (mapChars f s')
  end.

(** [toLowerCase] and [toUpperCase] on the letters A-Z and a-z. *)
Definition toLowerCase (s : string) : string := mapChars lowerChar s.
Definition toUpperCase (s : string) : string := mapChars upperChar s.

(** Decimal rendering of an integer, as [String(n)] gives it. *)
Definition ofZ (z : Z) : string := NilZero.string_of_int (Z.to_int z).
Definition ofNat (n : nat) : string := ofZ (Z.of_nat n).

(** [s.padStart(2, '0')] *)
Definition padStart2 (s : string) : string :=
  match String.length s with
  | O => "00"
  | S O => "0" +:+ s
  | _ => s
  end.

Definition concat (l : list string) : string := String.concat "" l.

End Str.

(** ** Numbers *)

Module Num.

Definition prec : Z := 53.
Definition emax : Z := 1024.

Abbreviation number := spec_float.

Definition NaN : number := S754_nan.
Definition zero : number := S754_zero false.
Definition Infinity : number := S754_infinity false.
Definition one : number := S754_finite false 4503599627370496 (-52).

Definition ofZ (z : Z) : number := binary_normalize prec emax z 0 false.
Definition ofNat (n : nat) : number := ofZ (Z.of_nat n).

Definition isNaN (x : number) : bool :=
  match x with S754_nan => true | _ => false end.

(** [x < y], [x > y], [x <= y] and [x === y] on numbers. *)
Definition lt (x y : number) : bool := SFltb x y.
Definition gt (x y : number) : bool := SFltb y x.
Definition le (x y : number) : bool := SFleb x y.
Definition eq (x y : number) : bool := SFeqb x y.

Definition add (x y : number) : number := SFadd prec emax x y.
Definition div (x y : number) : number := SFdiv prec emax x y.

(** A number in the strict sense: one of the binary64 values. *)
Definition wf (x : number) : bool := valid_binary prec emax x.

(** *** [Number(string)]: the StringToNumber conversion *)

Definition digitVal (c : ascii) : Z :=
  let n := Z.of_N (Str.code c) in
  if Str.isDigit c then n - 48
  else if (97 <=? n) then n - 87
  else n - 55.

Definition digitsVal (base : Z) (ds : list ascii) : Z :=
  fold_left (fun acc c => acc * base + digitVal c) ds 0.

Fixpoint span (p : ascii -> bool) (l : list ascii) : list ascii * list ascii :=
  match l with
  | c :: l' =>
      if p c then let '(a, b) := span p l' in (c :: a, b) else ([], l)
  | [] => ([], [])
  end.

(** The value [m * 10^e] with sign [s], rounded to nearest, ties to even. *)
Definition ofDecimal (s : bool) (m : Z) (e : Z) : number :=
  match m with
  | Zpos p =>
      match e with
      | Zneg k => SFdiv prec emax (S754_finite s p 0)
                    (S754_finite false (Pos.pow 10 k) 0)
      | _ => binary_normalize prec emax
               ((if s then Z.opp else id) (m * 10 ^ e)) 0 false
      end
  | _ => S754_zero s
  end.

(** [ExponentPart_opt] followed by the end of the literal. *)
Definition parseExponent (l : list ascii) : option Z :=
  match l with
  | [] => Some 0
  | c :: l' =>
      if (Ascii.eqb c "e" || Ascii.eqb c "E")%bool then
        let '(neg, ds) :=
          match l' with
          | "+"%char :: r => (false, r)
          | "-"%char :: r => (true, r)
          | _ => (false, l')
          end in
        match ds with
        | [] => None
        | _ => if forallb Str.isDigit ds
               then Some ((if neg then Z.opp else id) (digitsVal 10 ds))
               else None
        end
      else None
  end.

(** [StrUnsignedDecimalLiteral] *)
Definition parseUnsigned (s : bool) (l : list ascii) : number :=
  if String.eqb (string_of_list_ascii l) "Infinity" then S754_infinity s
  else
    let '(ip, r1) := span Str.isDigit l in
    let '(fp, r2) :=
      match r1 with
      | "."%char :: r => span Str.isDigit r
      | _ => ([], r1)
      end in
    match ip, fp with
    | [], [] => NaN
    | _, _ =>
        match parseExponent r2 with
        | Some ex =>
            ofDecimal s (digitsVal 10 (ip ++ fp)) (ex - Z.of_nat (length fp))
        | None => NaN
        end
    end.

Definition isBinDigit (c : ascii) : bool := Str.inRange "0" "1" c.
Definition isOctDigit (c : ascii) : bool := Str.inRange "0" "7" c.

Definition parseRadix (base : Z) (p : ascii -> bool) (ds : list ascii) : number :=
  match ds with
  | [] => NaN
  | _ => if forallb p ds then ofZ (digitsVal base ds) else NaN
  end.

(** [Number(s)] for a string [s]. *)
Definition Number (s : string) : number :=
  match Str.trimEnd (Str.trimStart (list_ascii_of_string s)) with
  | [] => zero
  | "0"%char :: "x"%char :: ds | "0"%char :: "X"%char :: ds =>
      parseRadix 16 Str.isHexDigit ds
  | "0"%char :: "o"%char :: ds | "0"%char :: "O"%char :: ds =>
      parseRadix 8 isOctDigit ds
  | "0"%char :: "b"%char :: ds | "0"%char :: "B"%char :: ds =>
      parseRadix 2 isBinDigit ds
  | "+"%char :: l => parseUnsigned false l
  | "-"%char :: l => parseUnsigned true l
  | l => parseUnsigned false l
  end.

End Num.

Abbreviation number := spec_float.

(** ** Data model (the declarations of [types/inverter-data]) *)

Variant ErrorType := validation | conversion | missing | format.

Module ParseError.
Record t := mk {
  row : Z;
  field : string;
  value : string;
  message : string;
  type : ErrorType;
}.
End ParseError.

Module Timestamp.
Record t := mk {
  date : string;
  time : string;
  datetime : option string;
}.
End Timestamp.

Module UserRecord.
Record t := mk {
  id : string;
  name : string;
  timestamp : Timestamp.t;
  blackout : option bool;
}.
End UserRecord.

Module InverterSupply.
Record t := mk { totalKWh : number }.
End InverterSupply.

Module PVData.
Record t := mk {
  voltage : number;
  current : number;
  powerW : number;
  dailyWh : number;
  monthlyWd : number;
  yearlyWm : number;
  totalKWh : number;
}.
End PVData.

Module BatteryData.
Record t := mk {
  voltage : number;
  current : number;
  temperature : number;
  soc : number;
}.
End BatteryData.

Module InverterData.
Record t := mk {
  voltage : number;
  current : number;
  frequency : number;
}.
End InverterData.

Module GridData.
Record t := mk {
  voltage : number;
  current : number;
  frequency : number;
}.
End GridData.

Module SystemStatus.
Record t := mk {
  hex : string;
  flags : option (gmap string bool);
}.
End SystemStatus.

Module InverterRecord.
Record t := mk {
  userRecord : UserRecord.t;
  inverterSupply : InverterSupply.t;
  pv : PVData.t;
  battery : BatteryData.t;
  inverter : InverterData.t;
  grid : GridData.t;
  status : SystemStatus.t;
}.
End InverterRecord.

Module ParseResult.
Record t := mk {
  data : list InverterRecord.t;
  errors : list ParseError.t;
  totalRows : nat;
  successfulRows : nat;
}.
End ParseResult.

Variant Interval := minute | hour | day | month.
Variant Method := average | sum | min | max.

Module AggregationOptions.
Record t := mk {
  interval : Interval;
  fields : option (list string);
  method : Method;
}.
End AggregationOptions.

Module AggregatedData.
Record t := mk {
  period : string;
  values : gmap string number;
  count : nat;
}.
End AggregatedData.

(** ** The host: what the code calls and does not define *)

Module Papa.
(** A tokenized data row: the object Papa Parse builds under
    [header: true], column name to cell text. *)
Abbreviation Row := (gmap string string).

(** A tokenizer error; [row] is optional. *)
Record ParseError := mkError {
  row : option Z;
  message : string;
}.

Record ParseResult := mkResult {
  data : list Row;
  errors : list ParseError;
}.

(** What [Papa.parse] reports: it calls [complete] with the results or
    [error] with an error message. *)
Variant Outcome :=
  | complete (results : ParseResult)
  | error (message : string).
End Papa.

(** The decimal rendering of a number in a template literal
    ([Number.prototype.toString]). *)
Class NumberFormat := numberToString : number -> string.

(** The [Date] object. *)
Class DateHost := {
  (** [new Date(s).getTime()]; [None] is NaN, the time value of an
      invalid date *)
  Date_getTime : string -> option Z;
  (** [toISOString] of a valid date *)
  Date_toISOString : Z -> string;
  (** [getFullYear], [getMonth], [getDate], [getHours] and [getMinutes] of
      a valid date, in local time *)
  Date_getFullYear : Z -> Z;
  Date_getMonth : Z -> Z;
  Date_getDate : Z -> Z;
  Date_getHours : Z -> Z;
  Date_getMinutes : Z -> Z;
}.

(** [Papa.parse(text, config)] under [header], [skipEmptyLines],
    [trimHeaders], no [dynamicTyping], and the given [transformHeader]. *)
Class Tokenizer := Papa_parse : string -> (string -> string) -> Papa.Outcome.

(** ** Field Validator ([lib/csv/validation.ts]) *)

Module Validated.
(** The result of a validator: [{ value; error? }]. *)
Record t (T : Type) := mk {
  value : T;
  error : option ParseError.t;
}.
Arguments mk {T} _ _.
Arguments value {T} _.
Arguments error {T} _.
End Validated.

Definition ok {T} (v : T) : Validated.t T := Validated.mk v None.
Definition failed {T} (v : T) (e : ParseError.t) : Validated.t T :=
  Validated.mk v (Some e).

Definition quote : string := String (ascii_of_nat 34) EmptyString.

Module ValidationRules.
Record range := mk { min : number; max : number }.
Definition voltage := mk (Num.ofZ 0) (Num.ofZ 300).
Definition current := mk (Num.ofZ (-100)) (Num.ofZ 100).
Definition power := mk (Num.ofZ 0) (Num.ofZ 10000).
Definition energy := mk (Num.ofZ 0) (Num.ofZ 100000).
Definition temperature := mk (Num.ofZ (-40)) (Num.ofZ 80).
Definition soc := mk (Num.ofZ 0) (Num.ofZ 100).
Definition frequency := mk (Num.ofZ 45) (Num.ofZ 65).
End ValidationRules.

Section Validation.
Context {numberFormat : NumberFormat} {dateHost : DateHost}.

(** [validateNumber]. The parameter [value] is always a string here
    (every caller passes [x || '']), so the [null] and [undefined] tests
    of the guard never fire. *)
Definition validateNumber (value fieldName : string) (min max : number)
    (rowIndex : Z) : Validated.t number :=
  if (String.eqb value "" || String.eqb value "-")%bool then ok Num.zero
  else
    let numValue := Num.Number value in
    if Num.isNaN numValue then
      failed Num.zero
        (ParseError.mk rowIndex fieldName value
           ("Invalid number format: " +:+ quote +:+ value +:+ quote)
           conversion)
    else if (Num.lt numValue min || Num.gt numValue max)%bool then
      failed numValue
        (ParseError.mk rowIndex fieldName value
           ("Value " +:+ numberToString numValue
            +:+ " is outside valid range [" +:+ numberToString min +:+ ", "
            +:+ numberToString max +:+ "]")
           validation)
    else ok numValue.

Definition validateVoltage (value fieldName : string) (rowIndex : Z) :=
  validateNumber value fieldName
    (ValidationRules.min ValidationRules.voltage)
    (ValidationRules.max ValidationRules.voltage) rowIndex.

Definition validateCurrent (value fieldName : string) (rowIndex : Z) :=
  validateNumber value fieldName
    (ValidationRules.min ValidationRules.current)
    (ValidationRules.max ValidationRules.current) rowIndex.

Definition validatePower (value fieldName : string) (rowIndex : Z) :=
  validateNumber value fieldName
    (ValidationRules.min ValidationRules.power)
    (ValidationRules.max ValidationRules.power) rowIndex.

Definition validateEnergy (value fieldName : string) (rowIndex : Z) :=
  validateNumber value fieldName
    (ValidationRules.min ValidationRules.energy)
    (ValidationRules.max ValidationRules.energy) rowIndex.

Definition validateTemperature (value fieldName : string) (rowIndex : Z) :=
  validateNumber value fieldName
    (ValidationRules.min ValidationRules.temperature)
    (ValidationRules.max ValidationRules.temperature) rowIndex.

Definition validateSOC (value fieldName : string) (rowIndex : Z) :=
  validateNumber value fieldName
    (ValidationRules.min ValidationRules.soc)
    (ValidationRules.max ValidationRules.soc) rowIndex.

Definition validateFrequency (value fieldName : string) (rowIndex : Z) :=
  validateNumber value fieldName
    (ValidationRules.min ValidationRules.frequency)
    (ValidationRules.max ValidationRules.frequency) rowIndex.

(** [/^\d{4}-\d{2}-\d{2}$/] *)
Definition dateRegex (s : string) : bool :=
  match list_ascii_of_string s with
  | [y1; y2; y3; y4; d1; m1; m2; d2; a1; a2] =>
      forallb Str.isDigit [y1; y2; y3; y4; m1; m2; a1; a2]
      && Ascii.eqb d1 "-" && Ascii.eqb d2 "-"
  | _ => false
  end.

(** [/^([01]?[0-9]|2[0-3]):[0-5][0-9]$/] *)
Definition timeRegex (s : string) : bool :=
  let minutes (c m1 m2 : ascii) :=
    Ascii.eqb c ":" && Str.inRange "0" "5" m1 && Str.isDigit m2 in
  match list_ascii_of_string s with
  | [h; c; m1; m2] => Str.isDigit h && minutes c m1 m2
  | [h1; h2; c; m1; m2] =>
      ((Str.inRange "0" "1" h1 && Str.isDigit h2)
       || (Ascii.eqb h1 "2" && Str.inRange "0" "3" h2))
      && minutes c m1 m2
  | _ => false
  end.

(** [/^0x[0-9A-Fa-f]+$/] *)
Definition hexRegex (s : string) : bool :=
  match list_ascii_of_string s with
  | "0"%char :: "x"%char :: d :: ds => forallb Str.isHexDigit (d :: ds)
  | _ => false
  end.

Definition validateDate (value fieldName : string) (rowIndex : Z)
    : Validated.t string :=
  if String.eqb value "" then
    failed "" (ParseError.mk rowIndex fieldName value "Date is required" missing)
  else if negb (dateRegex value) then
    failed value
      (ParseError.mk rowIndex fieldName value
         "Date must be in YYYY-MM-DD format" format)
  else
    match Date_getTime value with
    | None =>
        failed value
          (ParseError.mk rowIndex fieldName value "Invalid date" validation)
    | Some _ => ok value
    end.

Definition validateTime (value fieldName : string) (rowIndex : Z)
    : Validated.t string :=
  if String.eqb value "" then
    failed "" (ParseError.mk rowIndex fieldName value "Time is required" missing)
  else if negb (timeRegex value) then
    failed value
      (ParseError.mk rowIndex fieldName value
         "Time must be in HH:MM format" format)
  else ok value.

Definition validateBlackout (value fieldName : string) (rowIndex : Z)
    : Validated.t (option bool) :=
  if (String.eqb value "" || String.eqb value "-")%bool then ok None
  else
    let lowerValue := Str.toLowerCase value in
    if (String.eqb lowerValue "true" || String.eqb lowerValue "1"
        || String.eqb lowerValue "yes")%bool then ok (Some true)
    else if (String.eqb lowerValue "false" || String.eqb lowerValue "0"
             || String.eqb lowerValue "no")%bool then ok (Some false)
    else
      failed None
        (ParseError.mk rowIndex fieldName value
           ("Invalid blackout status: " +:+ quote +:+ value +:+ quote)
           validation).

Definition validateHex (value fieldName : string) (rowIndex : Z)
    : Validated.t string :=
  if String.eqb value "" then ok "0x00"
  else if negb (hexRegex value) then
    failed value
      (ParseError.mk rowIndex fieldName value
         ("Invalid hex format: " +:+ quote +:+ value +:+ quote) format)
  else ok value.

End Validation.

(** ** Row Assembler and Parse Orchestrator (the CSV parser module) *)

(** [CSV_PARSE_CONFIG.transformHeader]. A [switch] runs the first clause
    that matches, so the clauses are tried from top to bottom. *)
Definition transformHeader (header : string) : string :=
  let cleanHeader := Str.trim header in
  if String.eqb cleanHeader "Total kWh" then "InvSupply_TotalKWh"
  else if String.eqb cleanHeader "Voltage" then "PV_Voltage"
  else if String.eqb cleanHeader "Current" then "PV_Current"
  else if String.eqb cleanHeader "Power W" then "PV_PowerW"
  else if String.eqb cleanHeader "Daily Wh" then "PV_DailyWh"
  else if String.eqb cleanHeader "Monthly Wd" then "PV_MonthlyWd"
  else if String.eqb cleanHeader "Yearly Wm" then "PV_YearlyWm"
  else if String.eqb cleanHeader "Total kWh" then "PV_TotalKWh"
  else cleanHeader.

(** [a || b] on cell texts: [a] when it is a non-empty string, else [b]. *)
Definition truthy (a : option string) : bool :=
  match a with
  | Some s => negb (String.eqb s "")
  | None => false
  end.

Definition orElse (a b : option string) : option string :=
  if truthy a then a else b.

(** [a || ''] *)
Definition orEmpty (a : option string) : string :=
  match orElse a (Some "") with
  | Some s => s
  | None => ""
  end.

(** [if (v.error) errors.push(v.error)] *)
Definition pushError {T} (errors : list ParseError.t) (v : Validated.t T)
    : list ParseError.t :=
  match Validated.error v with
  | Some e => errors ++ [e]
  | None => errors
  end.

Module RowResult.
(** [{ record?; errors }] *)
Record t := mk {
  record : option InverterRecord.t;
  errors : list ParseError.t;
}.
End RowResult.

Section Parser.
Context {numberFormat : NumberFormat} {dateHost : DateHost}
        {tokenizer : Tokenizer}.

Definition createTimestamp (date time : string) (rowIndex : Z)
    : Timestamp.t * list ParseError.t :=
  let errors : list ParseError.t := [] in
  let dateValidation := validateDate date "Date" rowIndex in
  let timeValidation := validateTime time "Time" rowIndex in
  let errors := pushError errors dateValidation in
  let errors := pushError errors timeValidation in
  let '(datetime, errors) :=
    match Validated.error dateValidation, Validated.error timeValidation with
    | None, None =>
        match Date_getTime (Validated.value dateValidation +:+ "T"
                            +:+ Validated.value timeValidation +:+ ":00") with
        | Some t => (Some (Date_toISOString t), errors)
        | None =>
            (None,
             errors ++ [ParseError.mk rowIndex "datetime" (date +:+ " " +:+ time)
                          "Failed to create valid datetime" conversion])
        end
    | _, _ => (None, errors)
    end in
  (Timestamp.mk (Validated.value dateValidation)
     (Validated.value timeValidation) datetime,
   errors).

(** The errors of all validators of a row, in the order the code pushes
    them, and the assembled record. *)
Definition assembleRow (row : Papa.Row) (rowIndex : Z)
    : InverterRecord.t * list ParseError.t :=
  let errors : list ParseError.t := [] in
  let timestampResult :=
    createTimestamp (orEmpty (row !! "Date")) (orEmpty (row !! "Time")) rowIndex in
  let errors := errors ++ snd timestampResult in
  let blackoutValidation :=
    validateBlackout (orEmpty (row !! "Blackout")) "Blackout" rowIndex in
  let errors := pushError errors blackoutValidation in
  let userRecord :=
    UserRecord.mk (orEmpty (row !! "ID")) (orEmpty (row !! "Name"))
      (fst timestampResult) (Validated.value blackoutValidation) in
  let invSupplyValidation :=
    validateEnergy
      (orEmpty (orElse (row !! "InvSupply_TotalKWh") (row !! "Total kWh")))
      "InvSupply_TotalKWh" rowIndex in
  let errors := pushError errors invSupplyValidation in
  let inverterSupply :=
    InverterSupply.mk (Validated.value invSupplyValidation) in
  let pvVoltageValidation :=
    validateVoltage (orEmpty (orElse (row !! "PV_Voltage") (row !! "Voltage")))
      "PV_Voltage" rowIndex in
  let pvCurrentValidation :=
    validateCurrent (orEmpty (orElse (row !! "PV_Current") (row !! "Current")))
      "PV_Current" rowIndex in
  let pvPowerValidation :=
    validatePower (orEmpty (orElse (row !! "PV_PowerW") (row !! "Power W")))
      "PV_PowerW" rowIndex in
  let pvDailyWhValidation :=
    validateEnergy (orEmpty (orElse (row !! "PV_DailyWh") (row !! "Daily Wh")))
      "PV_DailyWh" rowIndex in
  let pvMonthlyWdValidation :=
    validateEnergy
      (orEmpty (orElse (row !! "PV_MonthlyWd") (row !! "Monthly Wd")))
      "PV_MonthlyWd" rowIndex in
  let pvYearlyWmValidation :=
    validateEnergy
      (orEmpty (orElse (row !! "PV_YearlyWm") (row !! "Yearly Wm")))
      "PV_YearlyWm" rowIndex in
  let pvTotalKWhValidation :=
    validateEnergy
      (orEmpty (orElse (row !! "PV_TotalKWh") (row !! "Total kWh")))
      "PV_TotalKWh" rowIndex in
  let errors :=
    fold_left pushError
      [pvVoltageValidation; pvCurrentValidation; pvPowerValidation;
       pvDailyWhValidation; pvMonthlyWdValidation; pvYearlyWmValidation;
       pvTotalKWhValidation] errors in
  let pv :=
    PVData.mk (Validated.value pvVoltageValidation)
      (Validated.value pvCurrentValidation)
      (Validated.value pvPowerValidation)
      (Validated.value pvDailyWhValidation)
      (Validated.value pvMonthlyWdValidation)
      (Validated.value pvYearlyWmValidation)
      (Validated.value pvTotalKWhValidation) in
  let batteryVoltageValidation :=
    validateVoltage (orEmpty (row !! "Voltage_1")) "Battery_Voltage" rowIndex in
  let batteryCurrentValidation :=
    validateCurrent (orEmpty (row !! "Current_1")) "Battery_Current" rowIndex in
  let batteryTempValidation :=
    validateTemperature (orEmpty (row !! "Temp")) "Battery_Temp" rowIndex in
  let batterySOCValidation :=
    validateSOC (orEmpty (row !! "SOC")) "Battery_SOC" rowIndex in
  let errors :=
    fold_left pushError
      [batteryVoltageValidation; batteryCurrentValidation;
       batteryTempValidation; batterySOCValidation] errors in
  let battery :=
    BatteryData.mk (Validated.value batteryVoltageValidation)
      (Validated.value batteryCurrentValidation)
      (Validated.value batteryTempValidation)
      (Validated.value batterySOCValidation) in
  let inverterVoltageValidation :=
    validateVoltage (orEmpty (row !! "Voltage_2")) "Inverter_Voltage" rowIndex in
  let inverterCurrentValidation :=
    validateCurrent (orEmpty (row !! "Current_2")) "Inverter_Current" rowIndex in
  let inverterFreqValidation :=
    validateFrequency (orEmpty (row !! "Hz")) "Inverter_Frequency" rowIndex in
  let errors :=
    fold_left pushError
      [inverterVoltageValidation; inverterCurrentValidation;
       inverterFreqValidation] errors in
  let inverter :=
    InverterData.mk (Validated.value inverterVoltageValidation)
      (Validated.value inverterCurrentValidation)
      (Validated.value inverterFreqValidation) in
  let gridVoltageValidation :=
    validateVoltage (orEmpty (row !! "Voltage_3")) "Grid_Voltage" rowIndex in
  let gridCurrentValidation :=
    validateCurrent (orEmpty (row !! "Current_3")) "Grid_Current" rowIndex in
  let gridFreqValidation :=
    validateFrequency (orEmpty (row !! "Hz_1")) "Grid_Frequency" rowIndex in
  let errors :=
    fold_left pushError
      [gridVoltageValidation; gridCurrentValidation; gridFreqValidation]
      errors in
  let grid :=
    GridData.mk (Validated.value gridVoltageValidation)
      (Validated.value gridCurrentValidation)
      (Validated.value gridFreqValidation) in
  let hexValidation :=
    validateHex (orEmpty (row !! "Hex")) "Status_Hex" rowIndex in
  let errors := pushError errors hexValidation in
  let status := SystemStatus.mk (Validated.value hexValidation) None in
  (InverterRecord.mk userRecord inverterSupply pv battery inverter grid status,
   errors).

Definition incomplete (rowIndex : Z) : ParseError.t :=
  ParseError.mk rowIndex "record" "incomplete"
    "Row missing required ID or date information" validation.

(** [parseRow]: the validators run first ([assembleRow]), then the
    acceptance test on the id and the resolved date. *)
Definition parseRow (row : Papa.Row) (rowIndex : Z) : RowResult.t :=
  let '(record, errors) := assembleRow row rowIndex in
  let userRecord := InverterRecord.userRecord record in
  if (String.eqb (UserRecord.id userRecord) ""
      && String.eqb (Timestamp.date (UserRecord.timestamp userRecord)) "")%bool
  then RowResult.mk None (errors ++ [incomplete rowIndex])
  else RowResult.mk (Some record) errors.

(** The body of [results.data.forEach((row, index) => ...)], from
    position [index] on. *)
Fixpoint parseRows (rows : list Papa.Row) (index : nat)
    (records : list InverterRecord.t) (allErrors : list ParseError.t)
    : list InverterRecord.t * list ParseError.t :=
  match rows with
  | [] => (records, allErrors)
  | row :: rows' =>
      let rowIndex := Z.of_nat index + 2 in
      let parseResult := parseRow row rowIndex in
      let records :=
        match RowResult.record parseResult with
        | Some record => records ++ [record]
        | None => records
        end in
      parseRows rows' (S index) records (allErrors ++ RowResult.errors parseResult)
  end.

(** [error.row ? error.row + 1 : 0] and the rest of the synthetic error *)
Definition papaError (e : Papa.ParseError) : ParseError.t :=
  ParseError.mk
    (match Papa.row e with
     | Some r => if r =? 0 then 0 else r + 1
     | None => 0
     end)
    "parsing" "" (Papa.message e) format.

(** [parseCSV]: the value its promise resolves to. *)
Definition parseCSV (csvContent : string) : ParseResult.t :=
  match Papa_parse csvContent transformHeader with
  | Papa.complete results =>
      let totalRows := length (Papa.data results) in
      let '(records, allErrors) := parseRows (Papa.data results) 0 [] [] in
      let allErrors := allErrors ++ map papaError (Papa.errors results) in
      ParseResult.mk records allErrors totalRows (length records)
  | Papa.error message =>
      ParseResult.mk [] [ParseError.mk 0 "file" "" message format] 0 0
  end.

End Parser.

(** ** Error Formatter *)

Definition newline : string := String (ascii_of_nat 10) EmptyString.

Definition typeName (t : ErrorType) : string :=
  match t with
  | validation => "validation"
  | conversion => "conversion"
  | missing => "missing"
  | format => "format"
  end.

Definition ErrorType_eqb (a b : ErrorType) : bool :=
  match a, b with
  | validation, validation | conversion, conversion
  | missing, missing | format, format => true
  | _, _ => false
  end.

(** The reducer of [errorsByType]: the object is kept as the list of its
    entries in insertion order, which is the order [Object.entries] gives
    for these keys. *)
Definition groupError (acc : list (ErrorType * list ParseError.t))
    (error : ParseError.t) : list (ErrorType * list ParseError.t) :=
  let acc :=
    if existsb (fun g => ErrorType_eqb (fst g) (ParseError.type error)) acc
    then acc else acc ++ [(ParseError.type error, [])] in
  map (fun g =>
         if ErrorType_eqb (fst g) (ParseError.type error)
         then (fst g, snd g ++ [error]) else g) acc.

Definition errorLine (error : ParseError.t) : string :=
  "  Row " +:+ Str.ofZ (ParseError.row error) +:+ ", " +:+ ParseError.field error
  +:+ ": " +:+ ParseError.message error +:+ newline.

Definition formatGroup (g : ErrorType * list ParseError.t) : string :=
  let '(type, typeErrors) := g in
  newline +:+ Str.toUpperCase (typeName type) +:+ " errors ("
  +:+ Str.ofNat (length typeErrors) +:+ "):" +:+ newline
  +:+ Str.concat (map errorLine (firstn 5 typeErrors))
  +:+ (if (5 <? length typeErrors)%nat
      then "  ... and " +:+ Str.ofNat (length typeErrors - 5) +:+ " more" +:+ newline
      else "").

Definition formatParseErrors (errors : list ParseError.t) : string :=
  match errors with
  | [] => "No errors"
  | _ =>
      let errorsByType := fold_left groupError errors [] in
      let message := "Found " +:+ Str.ofNat (length errors) +:+ " error(s):" +:+ newline in
      fold_left (fun message g => message +:+ formatGroup g) errorsByType message
  end.

(** ** Aggregation Engine ([lib/csv/transformations.ts]) *)

(** The values a field path can meet while it walks into a record. *)
#[warnings="-register-all"]
Inductive JsValue :=
  | JNumber (n : number)
  | JString (s : string)
  | JBoolean (b : bool)
  | JNull
  | JUndefined
  | JObject (props : list (string * JsValue)).

Definition jsBlackout (b : option bool) : JsValue :=
  match b with
  | Some b => JBoolean b
  | None => JNull
  end.

Definition jsDatetime (d : option string) : JsValue :=
  match d with
  | Some s => JString s
  | None => JUndefined
  end.

(** A record as the object it is, with its own properties. Properties
    inherited from [Object.prototype] are left out: none of them is a
    number or leads to one, and none carries the name of a fallback field,
    so a path through one of them ends in [0] as a path through a missing
    property does. *)
Definition jsRecord (record : InverterRecord.t) : JsValue :=
  let u := InverterRecord.userRecord record in
  let t := UserRecord.timestamp u in
  let pv := InverterRecord.pv record in
  let battery := InverterRecord.battery record in
  let inverter := InverterRecord.inverter record in
  let grid := InverterRecord.grid record in
  let status := InverterRecord.status record in
  JObject
    [("userRecord",
      JObject
        [("id", JString (UserRecord.id u));
         ("name", JString (UserRecord.name u));
         ("timestamp",
          JObject
            [("date", JString (Timestamp.date t));
             ("time", JString (Timestamp.time t));
             ("datetime", jsDatetime (Timestamp.datetime t))]);
         ("blackout", jsBlackout (UserRecord.blackout u))]);
     ("inverterSupply",
      JObject
        [("totalKWh",
          JNumber (InverterSupply.totalKWh (InverterRecord.inverterSupply record)))]);
     ("pv",
      JObject
        [("voltage", JNumber (PVData.voltage pv));
         ("current", JNumber (PVData.current pv));
         ("powerW", JNumber (PVData.powerW pv));
         ("dailyWh", JNumber (PVData.dailyWh pv));
         ("monthlyWd", JNumber (PVData.monthlyWd pv));
         ("yearlyWm", JNumber (PVData.yearlyWm pv));
         ("totalKWh", JNumber (PVData.totalKWh pv))]);
     ("battery",
      JObject
        [("voltage", JNumber (BatteryData.voltage battery));
         ("current", JNumber (BatteryData.current battery));
         ("temperature", JNumber (BatteryData.temperature battery));
         ("soc", JNumber (BatteryData.soc battery))]);
     ("inverter",
      JObject
        [("voltage", JNumber (InverterData.voltage inverter));
         ("current", JNumber (InverterData.current inverter));
         ("frequency", JNumber (InverterData.frequency inverter))]);
     ("grid",
      JObject
        [("voltage", JNumber (GridData.voltage grid));
         ("current", JNumber (GridData.current grid));
         ("frequency", JNumber (GridData.frequency grid))]);
     ("status",
      JObject
        (("hex", JString (SystemStatus.hex status))
         :: match SystemStatus.flags status with
            | Some flags =>
                [("flags",
                  JObject (map (fun kv => (fst kv, JBoolean (snd kv)))
                             (map_to_list flags)))]
            | None => []
            end))].

(** [value[part]] when [part in value], for an object [value] *)
Fixpoint getProp (part : string) (props : list (string * JsValue))
    : option JsValue :=
  match props with
  | [] => None
  | (k, v) :: props' => if String.eqb k part then Some v else getProp part props'
  end.

(** [s.split('.')] *)
Fixpoint splitDots (s : string) : list string :=
  match s with
  | EmptyString => [EmptyString]
  | String c s' =>
      if Ascii.eqb c "." then EmptyString :: splitDots s'
      else
        match splitDots s' with
        | part :: parts => String c part :: parts
        | [] => [String c EmptyString]
        end
  end.

(** How the [for] loop over the parts of a path ends: with [return 0], or
    with a final [value] (at the end of the parts or at a [break]). *)
Variant PathEnd :=
  | Returned (n : number)
  | Value (value : JsValue).

Definition directAccess (record : InverterRecord.t) (fieldPath : string)
    : PathEnd :=
  if String.eqb fieldPath "powerW" then
    Value (JNumber (PVData.powerW (InverterRecord.pv record)))
  else if String.eqb fieldPath "voltage" then
    Value (JNumber (BatteryData.voltage (InverterRecord.battery record)))
  else if String.eqb fieldPath "soc" then
    Value (JNumber (BatteryData.soc (InverterRecord.battery record)))
  else Returned Num.zero.

Fixpoint walkPath (record : InverterRecord.t) (fieldPath : string)
    (parts : list string) (value : JsValue) : PathEnd :=
  match parts with
  | [] => Value value
  | part :: parts' =>
      match value with
      | JObject props =>
          match getProp part props with
          | Some v => walkPath record fieldPath parts' v
          | None => directAccess record fieldPath
          end
      | _ => directAccess record fieldPath
      end
  end.

(** The callback of [records.map] in [extractFieldValues]. *)
Definition fieldValue (fieldPath : string) (record : InverterRecord.t) : number :=
  match walkPath record fieldPath (splitDots fieldPath) (jsRecord record) with
  | Returned n => n
  | Value (JNumber n) => n
  | Value _ => Num.zero
  end.

Definition extractFieldValues (records : list InverterRecord.t)
    (fieldPath : string) : list number :=
  List.filter (fun val => negb (Num.isNaN val)) (map (fieldValue fieldPath) records).

(** [Math.min] and [Math.max] of two numbers: NaN if either is NaN, and
    [-0] below [+0]. *)
Definition min2 (a b : number) : number :=
  if (Num.isNaN a || Num.isNaN b)%bool then Num.NaN
  else if Num.lt b a then b
  else if Num.lt a b then a
  else match a, b with
       | S754_zero false, S754_zero true => b
       | _, _ => a
       end.

Definition max2 (a b : number) : number :=
  if (Num.isNaN a || Num.isNaN b)%bool then Num.NaN
  else if Num.lt a b then b
  else if Num.lt b a then a
  else match a, b with
       | S754_zero true, S754_zero false => b
       | _, _ => a
       end.

Definition calculateAggregation (values : list number) (method : Method)
    : number :=
  match values with
  | [] => Num.zero
  | _ =>
      match method with
      | sum => fold_left Num.add values Num.zero
      | average =>
          Num.div (fold_left Num.add values Num.zero) (Num.ofNat (length values))
      | min => fold_left min2 values Num.Infinity
      | max => fold_left max2 values (S754_infinity true)
      end
  end.

(** [if (!groups[key]) groups[key] = []; groups[key].push(record)], the
    object [groups] kept as the list of its entries in insertion order.
    Every key holds a [-], so none is an array index and
    [Object.entries] gives the entries in this order. *)
Definition pushGroup (key : string) (record : InverterRecord.t)
    (groups : list (string * list InverterRecord.t))
    : list (string * list InverterRecord.t) :=
  let groups :=
    if existsb (fun g => String.eqb (fst g) key) groups
    then groups else groups ++ [(key, [])] in
  map (fun g => if String.eqb (fst g) key then (fst g, snd g ++ [record]) else g)
    groups.

(** [values[field] = n] on an object literal. The one name that is not
    stored is [__proto__]: assigning a number to it changes nothing. *)
Definition setValue (field : string) (n : number) (values : gmap string number)
    : gmap string number :=
  if String.eqb field "__proto__" then values else <[field := n]> values.

Definition defaultFields : list string :=
  ["powerW"; "voltage"; "soc"; "voltage"; "voltage"].

Section Aggregation.
Context {dateHost : DateHost}.

(** [String(getter(date) + offset)], which is the text NaN for an
    invalid date *)
Definition dateText (date : option Z) (getter : Z -> Z) (offset : Z) : string :=
  match date with
  | Some t => Str.ofZ (getter t + offset)
  | None => "NaN"
  end.

Definition intervalKey (interval : Interval) (datetime : string) : string :=
  let date := Date_getTime datetime in
  let year := dateText date Date_getFullYear 0 in
  let month := Str.padStart2 (dateText date Date_getMonth 1) in
  let day := Str.padStart2 (dateText date Date_getDate 0) in
  let hours := Str.padStart2 (dateText date Date_getHours 0) in
  let minutes := Str.padStart2 (dateText date Date_getMinutes 0) in
  match interval with
  | minute => year +:+ "-" +:+ month +:+ "-" +:+ day +:+ " " +:+ hours +:+ ":" +:+ minutes
  | hour => year +:+ "-" +:+ month +:+ "-" +:+ day +:+ " " +:+ hours +:+ ":00"
  | day => year +:+ "-" +:+ month +:+ "-" +:+ day
  | month => year +:+ "-" +:+ month
  end.

Definition groupByTimeInterval (records : list InverterRecord.t)
    (interval : Interval) : list (string * list InverterRecord.t) :=
  fold_left
    (fun groups record =>
       match Timestamp.datetime
               (UserRecord.timestamp (InverterRecord.userRecord record)) with
       | Some datetime =>
           if String.eqb datetime "" then groups
           else pushGroup (intervalKey interval datetime) record groups
       | None => groups
       end)
    records [].

Definition aggregateGroup (options : AggregationOptions.t)
    (g : string * list InverterRecord.t) : AggregatedData.t :=
  let '(period, groupRecords) := g in
  let fieldsToAggregate :=
    match AggregationOptions.fields options with
    | Some fields => fields
    | None => defaultFields
    end in
  let values :=
    fold_left
      (fun (values : gmap string number) field =>
         setValue field
           (calculateAggregation (extractFieldValues groupRecords field)
              (AggregationOptions.method options))
           values)
      fieldsToAggregate ∅ in
  AggregatedData.mk period values (length groupRecords).

Definition aggregateData (records : list InverterRecord.t)
    (options : AggregationOptions.t) : list AggregatedData.t :=
  match records with
  | [] => []
  | _ =>
      map (aggregateGroup options)
        (groupByTimeInterval records (AggregationOptions.interval options))
  end.

End Aggregation.

(** ** Sets in insertion order *)

(** [Array.from(new Set(l))]: the elements of [l] without repeats, each at
    the place of its first occurrence. *)
Definition distinct {A : Type} (eqb : A -> A -> bool) (l : list A) : list A :=
  fold_left (fun seen x => if existsb (eqb x) seen then seen else seen ++ [x])
    l [].

(** ** Record selection ([lib/csv/transformations.ts]) *)

(** [a <= b] on two [Date] objects, each compared by its time value;
    false when either date is invalid. *)
Definition dateLe (a b : option Z) : bool :=
  match a, b with
  | Some x, Some y => (x <=? y)%Z
  | _, _ => false
  end.

Definition filterByDateRange `{DateHost} (records : list InverterRecord.t)
    (startDate endDate : string) : list InverterRecord.t :=
  let start := Date_getTime startDate in
  let end_ := Date_getTime endDate in
  List.filter
    (fun record =>
       match Timestamp.datetime
               (UserRecord.timestamp (InverterRecord.userRecord record)) with
       | Some datetime =>
           if String.eqb datetime "" then false
           else
             let recordDate := Date_getTime datetime in
             (dateLe start recordDate && dateLe recordDate end_)%bool
       | None => false
       end)
    records.

Definition filterByDeviceId (records : list InverterRecord.t)
    (deviceId : string) : list InverterRecord.t :=
  List.filter
    (fun record =>
       String.eqb (UserRecord.id (InverterRecord.userRecord record)) deviceId)
    records.

Definition getUniqueDeviceIds (records : list InverterRecord.t) : list string :=
  let ids :=
    distinct String.eqb
      (map (fun record => UserRecord.id (InverterRecord.userRecord record))
         records) in
  List.filter (fun id => negb (String.eqb id "")) ids.

(** ** Export ([recordsToCSV]) *)

(** The header line of the export. *)
Definition csvHeaders : list string :=
  ["ID"; "Date"; "Time"; "Name"; "Blackout"; "Inv_Total_kWh";
   "PV_Voltage"; "PV_Current"; "PV_Power_W"; "PV_Daily_Wh"; "PV_Monthly_Wd";
   "PV_Yearly_Wm"; "PV_Total_kWh";
   "Battery_Voltage"; "Battery_Current"; "Battery_Temp"; "Battery_SOC";
   "Inverter_Voltage"; "Inverter_Current"; "Inverter_Hz";
   "Grid_Voltage"; "Grid_Current"; "Grid_Hz"; "Status_Hex"].

(** [blackout?.toString() || ''] *)
Definition blackoutText (blackout : option bool) : string :=
  match blackout with
  | Some true => "true"
  | Some false => "false"
  | None => ""
  end.

(** The cells of a record, each as [join] renders it. *)
Definition csvCells `{NumberFormat} (record : InverterRecord.t) : list string :=
  let u := InverterRecord.userRecord record in
  let pv := InverterRecord.pv record in
  let battery := InverterRecord.battery record in
  let inverter := InverterRecord.inverter record in
  let grid := InverterRecord.grid record in
  [UserRecord.id u;
   Timestamp.date (UserRecord.timestamp u);
   Timestamp.time (UserRecord.timestamp u);
   UserRecord.name u;
   blackoutText (UserRecord.blackout u);
   numberToString
     (InverterSupply.totalKWh (InverterRecord.inverterSupply record));
   numberToString (PVData.voltage pv);
   numberToString (PVData.current pv);
   numberToString (PVData.powerW pv);
   numberToString (PVData.dailyWh pv);
   numberToString (PVData.monthlyWd pv);
   numberToString (PVData.yearlyWm pv);
   numberToString (PVData.totalKWh pv);
   numberToString (BatteryData.voltage battery);
   numberToString (BatteryData.current battery);
   numberToString (BatteryData.temperature battery);
   numberToString (BatteryData.soc battery);
   numberToString (InverterData.voltage inverter);
   numberToString (InverterData.current inverter);
   numberToString (InverterData.frequency inverter);
   numberToString (GridData.voltage grid);
   numberToString (GridData.current grid);
   numberToString (GridData.frequency grid);
   SystemStatus.hex (InverterRecord.status record)].

Definition recordsToCSV `{NumberFormat} (records : list InverterRecord.t)
    : string :=
  match records with
  | [] => ""
  | _ =>
      let rows := map csvCells records in
      String.concat newline
        (String.concat "," csvHeaders :: map (String.concat ",") rows)
  end.

(** ** Date range and statistics ([lib/csv/transformations.ts]) *)

(** What a call comes to: a returned value, or nothing that the language
    fixes. [getDateRange] sorts its dates by the difference of their time
    values; with an invalid date among them the difference is NaN, the
    order of the sorted array is left to the implementation, and
    [toISOString] throws on an invalid date. *)
Variant Outcome (A : Type) :=
  | Returns (a : A)
  | Unspecified.
Arguments Returns {A} a.
Arguments Unspecified {A}.

(** [times.sort((a, b) => a - b)] on time values *)
Fixpoint insertTime (t : Z) (sorted : list Z) : list Z :=
  match sorted with
  | [] => [t]
  | x :: rest => if (t <? x)%Z then t :: sorted else x :: insertTime t rest
  end.

Definition sortTimes (times : list Z) : list Z :=
  fold_left (fun sorted t => insertTime t sorted) times [].

(** [all valid]: the time values of the dates when none is invalid *)
Fixpoint timeValues (dates : list (option Z)) : option (list Z) :=
  match dates with
  | [] => Some []
  | Some t :: dates' => option_map (cons t) (timeValues dates')
  | None :: _ => None
  end.

(** [records.map(record => record.userRecord.timestamp.datetime)
    .filter(Boolean)] *)
Definition datetimes (records : list InverterRecord.t) : list string :=
  omap
    (fun record =>
       match Timestamp.datetime
               (UserRecord.timestamp (InverterRecord.userRecord record)) with
       | Some datetime =>
           if String.eqb datetime "" then None else Some datetime
       | None => None
       end)
    records.

Definition getDateRange `{DateHost} (records : list InverterRecord.t)
    : Outcome (option string * option string) :=
  match records with
  | [] => Returns (None, None)
  | _ =>
      let dates := map Date_getTime (datetimes records) in
      match dates with
      | [] => Returns (None, None)
      | _ =>
          match timeValues dates with
          | Some times =>
              match sortTimes times with
              | [] => Returns (None, None)
              | (first :: _) as sorted =>
                  Returns
                    (Some (Date_toISOString first),
                     Some (Date_toISOString (List.last sorted first)))
              end
          | None => Unspecified
          end
      end
  end.

Module Statistics.
Record t := mk {
  totalRecords : nat;
  dateRange : option string * option string;
  powerMax : number;
  powerAverage : number;
  totalEnergy : number;
  averageSOC : number;
  minSOC : number;
  maxSOC : number;
  averageTemp : number;
  devices : list string;
}.
End Statistics.

(** [values.reduce((a, b) => a + b) / values.length] when [values] is not
    empty, else [0] *)
Definition averageOf (values : list number) : number :=
  match values with
  | [] => Num.zero
  | v :: rest => Num.div (fold_left Num.add rest v) (Num.ofNat (length values))
  end.

(** [null] is [None]. *)
Definition calculateStatistics `{DateHost} (records : list InverterRecord.t)
    : Outcome (option Statistics.t) :=
  match records with
  | [] => Returns None
  | _ =>
      let powerValues :=
        List.filter (fun v => Num.gt v Num.zero)
          (map (fun r => PVData.powerW (InverterRecord.pv r)) records) in
      let batterySOC :=
        List.filter (fun v => Num.le Num.zero v)
          (map (fun r => BatteryData.soc (InverterRecord.battery r)) records) in
      let batteryTemp :=
        map (fun r => BatteryData.temperature (InverterRecord.battery r))
          records in
      match getDateRange records with
      | Returns dateRange =>
          Returns
            (Some
               (Statistics.mk (length records) dateRange
                  (match powerValues with
                   | [] => Num.zero
                   | _ => fold_left max2 powerValues (S754_infinity true)
                   end)
                  (averageOf powerValues)
                  (fold_left
                     (fun sum r =>
                        Num.add sum (PVData.totalKWh (InverterRecord.pv r)))
                     records Num.zero)
                  (averageOf batterySOC)
                  (match batterySOC with
                   | [] => Num.zero
                   | _ => fold_left min2 batterySOC Num.Infinity
                   end)
                  (match batterySOC with
                   | [] => Num.zero
                   | _ => fold_left max2 batterySOC (S754_infinity true)
                   end)
                  (averageOf batteryTemp)
                  (getUniqueDeviceIds records)))
      | Unspecified => Unspecified
      end
  end.

(** ** Live data: the cache of the service and the history of the page
    ([services/websocket-service.ts], [handleData]) *)

(** [l.slice(start)] for an integer [start]: from the index [start], or
    from [start] places before the end when [start] is negative. *)
Definition slice {A : Type} (start : Z) (l : list A) : list A :=
  let len := Z.of_nat (length l) in
  let k := if (start <? 0)%Z then Z.max (len + start) 0 else Z.min start len in
  skipn (Z.to_nat k) l.

Definition maxCacheSize : nat := 1000.

(** [dataCache.push(record)], then [dataCache.shift()] above the size *)
Definition addToCache {A : Type} (record : A) (dataCache : list A) : list A :=
  let dataCache := dataCache ++ [record] in
  if (maxCacheSize <? length dataCache)%nat then tl dataCache else dataCache.

(** [limit] is an integer or absent; [0] is falsy. *)
Definition getCachedData {A : Type} (limit : option Z) (dataCache : list A)
    : list A :=
  match limit with
  | Some limit =>
      if (limit =? 0)%Z then dataCache else slice (- limit) dataCache
  | None => dataCache
  end.

Definition getLatestData {A : Type} (dataCache : list A) : option A :=
  if (0 <? length dataCache)%nat
  then nth_error dataCache (length dataCache - 1)
  else None.

(** The updater of [setHistoricalData] in [handleData] *)
Definition handleData {A : Type} (data : A) (prev : list A) : list A :=
  let newData := prev ++ [data] in
  slice (-100) newData.

(** ** A host to run the model on examples *)

Module ExampleHost.

(** *** A calendar in UTC that reads [YYYY-MM-DD], [YYYY-MM-DDTHH:MM:00]
    and [YYYY-MM-DDTHH:MM:00.000Z] only *)

Definition daysFromCivil (y m d : Z) : Z :=
  let y := if m <=? 2 then y - 1 else y in
  let era := y / 400 in
  let yoe := y - era * 400 in
  let doy := (153 * (if 2 <? m then m - 3 else m + 9) + 2) / 5 + d - 1 in
  let doe := yoe * 365 + yoe / 4 - yoe / 100 + doy in
  era * 146097 + doe - 719468.

Definition civilFromDays (z : Z) : Z * Z * Z :=
  let z := z + 719468 in
  let era := z / 146097 in
  let doe := z - era * 146097 in
  let yoe := (doe - doe / 1460 + doe / 36524 - doe / 146096) / 365 in
  let doy := doe - (365 * yoe + yoe / 4 - yoe / 100) in
  let mp := (5 * doy + 2) / 153 in
  let d := doy - (153 * mp + 2) / 5 + 1 in
  let m := if mp <? 10 then mp + 3 else mp - 9 in
  (yoe + era * 400 + (if m <=? 2 then 1 else 0), m, d).

Definition msPerMinute : Z := 60000.
Definition msPerDay : Z := 86400000.

Definition num (ds : list ascii) : option Z :=
  if forallb Str.isDigit ds then Some (Num.digitsVal 10 ds) else None.

Definition civilTime (y m d hh mm : option Z) : option Z :=
  match y, m, d, hh, mm with
  | Some y, Some m, Some d, Some hh, Some mm =>
      let days := daysFromCivil y m d in
      if (1 <=? m) && (m <=? 12) && (1 <=? d) && (hh <=? 23) && (mm <=? 59)
         && (let '(y', m', d') := civilFromDays days in
             (y' =? y) && (m' =? m) && (d' =? d))
      then Some (days * msPerDay + (hh * 60 + mm) * msPerMinute)
      else None
  | _, _, _, _, _ => None
  end.

Definition getTime (s : string) : option Z :=
  match list_ascii_of_string s with
  | [y1; y2; y3; y4; "-"; m1; m2; "-"; d1; d2]%char =>
      civilTime (num [y1; y2; y3; y4]) (num [m1; m2]) (num [d1; d2])
        (Some 0) (Some 0)
  | [y1; y2; y3; y4; "-"; m1; m2; "-"; d1; d2; "T"; h1; h2; ":"; n1; n2;
     ":"; "0"; "0"]%char =>
      civilTime (num [y1; y2; y3; y4]) (num [m1; m2]) (num [d1; d2])
        (num [h1; h2]) (num [n1; n2])
  | [y1; y2; y3; y4; "-"; m1; m2; "-"; d1; d2; "T"; h1; h2; ":"; n1; n2;
     ":"; "0"; "0"; "."; "0"; "0"; "0"; "Z"]%char =>
      civilTime (num [y1; y2; y3; y4]) (num [m1; m2]) (num [d1; d2])
        (num [h1; h2]) (num [n1; n2])
  | _ => None
  end.

Definition getFullYear (t : Z) : Z := fst (fst (civilFromDays (t / msPerDay))).
Definition getMonth (t : Z) : Z := snd (fst (civilFromDays (t / msPerDay))) - 1.
Definition getDate (t : Z) : Z := snd (civilFromDays (t / msPerDay)).
Definition getHours (t : Z) : Z := (t mod msPerDay) / (60 * msPerMinute).
Definition getMinutes (t : Z) : Z := (t mod (60 * msPerMinute)) / msPerMinute.

Definition pad4 (s : string) : string :=
  string_of_list_ascii (repeat "0"%char (4 - String.length s)) +:+ s.

Definition toISOString (t : Z) : string :=
  pad4 (Str.ofZ (getFullYear t)) +:+ "-"
  +:+ Str.padStart2 (Str.ofZ (getMonth t + 1)) +:+ "-"
  +:+ Str.padStart2 (Str.ofZ (getDate t)) +:+ "T"
  +:+ Str.padStart2 (Str.ofZ (getHours t)) +:+ ":"
  +:+ Str.padStart2 (Str.ofZ (getMinutes t)) +:+ ":"
  +:+ Str.padStart2 (Str.ofZ ((t mod msPerMinute) / 1000)) +:+ ".000Z".

#[export] Instance dateHost : DateHost := {|
  Date_getTime := getTime;
  Date_toISOString := toISOString;
  Date_getFullYear := getFullYear;
  Date_getMonth := getMonth;
  Date_getDate := getDate;
  Date_getHours := getHours;
  Date_getMinutes := getMinutes;
|}.

(** *** Numbers rendered with the fewest decimals that read back as the
    same number *)

(** [m * 2^e * 10^d] rounded to the nearest integer *)
Definition scaled (m : positive) (e : Z) (d : nat) : Z :=
  let n := Zpos m * 10 ^ Z.of_nat d in
  match e with
  | Zneg k => (2 * n + Zpos (Pos.pow 2 k)) / (2 * Zpos (Pos.pow 2 k))
  | _ => n * 2 ^ e
  end.

Definition fixed (n : Z) (d : nat) : string :=
  let digits := Str.ofZ n in
  let digits :=
    string_of_list_ascii
      (repeat "0"%char (S d - String.length digits)) +:+ digits in
  let k := (String.length digits - d)%nat in
  match d with
  | O => digits
  | _ => substring 0 k digits +:+ "." +:+ substring k d digits
  end.

Fixpoint shortest (m : positive) (e : Z) (d fuel : nat) : string :=
  let n := scaled m e d in
  match fuel with
  | O => fixed n d
  | S fuel' =>
      if Num.eq (Num.ofDecimal false n (- Z.of_nat d)) (S754_finite false m e)
      then fixed n d
      else shortest m e (S d) fuel'
  end.

#[export] Instance numberFormat : NumberFormat := fun x =>
  match x with
  | S754_nan => "NaN"
  | S754_infinity s => (if s then "-" else "") +:+ "Infinity"
  | S754_zero _ => "0"
  | S754_finite s m e => (if s then "-" else "") +:+ shortest m e 0 30
  end.

End ExampleHost.

(** ** Vocabulary of the specification *)

(** [n] lies within [[min, max]]. *)
Definition within (n min max : number) : bool :=
  (Num.le min n && Num.le n max)%bool.

(** An error that names a column, not the row as a whole. *)
Definition fieldLevel (e : ParseError.t) : Prop :=
  ParseError.field e <> "record".

(** A row with no device id and no date: the rows [parseRow] drops. *)
Definition dropped (row : Papa.Row) : bool :=
  (String.eqb (orEmpty (row !! "ID")) ""
   && String.eqb (orEmpty (row !! "Date")) "")%bool.

(** The legacy column names that the logger repeats across sections. *)
Definition legacyNames : list string :=
  ["Total kWh"; "Voltage"; "Current"; "Power W"; "Daily Wh"; "Monthly Wd";
   "Yearly Wm"].

(** The header line of the sample of the parser test page. *)
Definition sampleHeader : list string :=
  ["ID"; "Date"; "Time"; "Name"; "Blackout"; "Total kWh"; "Voltage"; "Current";
   "Power W"; "Daily Wh"; "Monthly Wd"; "Yearly Wm"; "Total kWh"; "Voltage";
   "Current"; "Temp"; "SOC"; "Voltage"; "Current"; "Hz"; "Voltage"; "Current";
   "Hz"; "Hex"].

(** The paths that name a number of a record, each with that number:
    the dotted paths into the nested record, and the three bare names the
    code resolves itself. *)
Definition numericFields (record : InverterRecord.t) : list (string * number) :=
  let pv := InverterRecord.pv record in
  let battery := InverterRecord.battery record in
  let inverter := InverterRecord.inverter record in
  let grid := InverterRecord.grid record in
  [("inverterSupply.totalKWh",
    InverterSupply.totalKWh (InverterRecord.inverterSupply record));
   ("pv.voltage", PVData.voltage pv);
   ("pv.current", PVData.current pv);
   ("pv.powerW", PVData.powerW pv);
   ("pv.dailyWh", PVData.dailyWh pv);
   ("pv.monthlyWd", PVData.monthlyWd pv);
   ("pv.yearlyWm", PVData.yearlyWm pv);
   ("pv.totalKWh", PVData.totalKWh pv);
   ("battery.voltage", BatteryData.voltage battery);
   ("battery.current", BatteryData.current battery);
   ("battery.temperature", BatteryData.temperature battery);
   ("battery.soc", BatteryData.soc battery);
   ("inverter.voltage", InverterData.voltage inverter);
   ("inverter.current", InverterData.current inverter);
   ("inverter.frequency", InverterData.frequency inverter);
   ("grid.voltage", GridData.voltage grid);
   ("grid.current", GridData.current grid);
   ("grid.frequency", GridData.frequency grid);
   ("powerW", PVData.powerW pv);
   ("voltage", BatteryData.voltage battery);
   ("soc", BatteryData.soc battery)].

(** The first data row of the sample of the parser test page, under the
    column names of [RawCSVRow], and the row below it, which has no id and
    no date. *)
Definition sampleRow : Papa.Row :=
  list_to_map
    [("ID", "HINV-80F3DA61D0"); ("Date", "2025-09-28"); ("Time", "21:05");
     ("Name", "TwinklePower"); ("Blackout", "-"); ("Total kWh", "1.85");
     ("Voltage", "0"); ("Current", "0"); ("Power W", "0"); ("Daily Wh", "0");
     ("Monthly Wd", "774.77"); ("Yearly Wm", "387.38"); ("Total kWh_1", "2.32");
     ("Voltage_1", "25.9"); ("Current_1", "0"); ("Temp", "27"); ("SOC", "98");
     ("Voltage_2", "208.35"); ("Current_2", "0"); ("Hz", "60");
     ("Voltage_3", "206.63"); ("Current_3", "0"); ("Hz_1", "60");
     ("Hex", "0x03")].

Definition sampleDroppedRow : Papa.Row :=
  list_to_map
    [("ID", ""); ("Date", ""); ("Time", "21:06"); ("Name", "");
     ("Blackout", "-"); ("Total kWh", ""); ("Voltage", "0"); ("Current", "0");
     ("Power W", "0"); ("Daily Wh", ""); ("Monthly Wd", ""); ("Yearly Wm", "");
     ("Total kWh_1", ""); ("Voltage_1", "25.9"); ("Current_1", "0");
     ("Temp", "27"); ("SOC", "98"); ("Voltage_2", "208.09"); ("Current_2", "0");
     ("Hz", "60"); ("Voltage_3", "206.63"); ("Current_3", "0"); ("Hz_1", "60");
     ("Hex", "0x03")].

(** The record of [sampleRow]. *)
Definition sampleRecord : InverterRecord.t :=
  InverterRecord.mk
    (UserRecord.mk "HINV-80F3DA61D0" "TwinklePower"
       (Timestamp.mk "2025-09-28" "21:05" (Some "2025-09-28T21:05:00.000Z"))
       None)
    (InverterSupply.mk (Num.Number "1.85"))
    (PVData.mk (Num.Number "0") (Num.Number "0") (Num.Number "0")
       (Num.Number "0") (Num.Number "774.77") (Num.Number "387.38")
       (Num.Number "1.85"))
    (BatteryData.mk (Num.Number "25.9") (Num.Number "0") (Num.Number "27")
       (Num.Number "98"))
    (InverterData.mk (Num.Number "208.35") (Num.Number "0") (Num.Number "60"))
    (GridData.mk (Num.Number "206.63") (Num.Number "0") (Num.Number "60"))
    (SystemStatus.mk "0x03" None).

(** The names of the declared type of [AggregationOptions.fields] (the
    keys of [PVData], [BatteryData], [InverterData] and [GridData]) that
    [extractFieldValues] does not resolve: all but [powerW], [voltage]
    and [soc]. *)
Definition missedFields : list string :=
  ["current"; "dailyWh"; "monthlyWd"; "yearlyWm"; "totalKWh"; "temperature";
   "frequency"].

(** Seven errors of one type: a missing date on the rows 2 to 8. *)
Definition sevenErrors : list ParseError.t :=
  map (fun r => ParseError.mk r "Date" "" "Date is required" missing)
    [2; 3; 4; 5; 6; 7; 8].

(** A tokenizer that gives the two rows of the sample for any text. *)
Definition sampleTokenizer : Tokenizer :=
  fun _ _ => Papa.complete (Papa.mkResult [sampleRow; sampleDroppedRow] []).

(** A time of day as [validateTime] accepts it: an hour of one or two
    digits that reads at most 23, a colon, and a minute of two digits that
    reads at most 59. *)
Definition timeShape (value : string) : Prop :=
  exists hs ms : list ascii,
    value = string_of_list_ascii (hs ++ ":"%char :: ms)
    /\ (length hs = 1 \/ length hs = 2)%nat /\ length ms = 2%nat
    /\ forallb Str.isDigit (hs ++ ms) = true
    /\ Num.digitsVal 10 hs <= 23 /\ Num.digitsVal 10 ms <= 59.

(** The words [validateBlackout] reads as true and as false. *)
Definition trueWords : list string := ["true"; "1"; "yes"].
Definition falseWords : list string := ["false"; "0"; "no"].

(** The tri-state a lower-cased blackout cell stands for. *)
Definition blackoutOf (lower : string) : option bool :=
  if existsb (String.eqb lower) trueWords then Some true
  else if existsb (String.eqb lower) falseWords then Some false
  else None.

(** A date as the pattern of [validateDate] accepts it: four digits, two
    digits and two digits, joined by dashes. *)
Definition dateShape (value : string) : Prop :=
  exists ys ms ds : list ascii,
    value = string_of_list_ascii (ys ++ "-"%char :: ms ++ "-"%char :: ds)
    /\ length ys = 4%nat /\ length ms = 2%nat /\ length ds = 2%nat
    /\ forallb Str.isDigit (ys ++ ms ++ ds) = true.

(** The numbers of a record, each with the range its validator checks. *)
Definition fieldRanges (record : InverterRecord.t)
    : list (number * ValidationRules.range) :=
  let pv := InverterRecord.pv record in
  let battery := InverterRecord.battery record in
  let inverter := InverterRecord.inverter record in
  let grid := InverterRecord.grid record in
  [(InverterSupply.totalKWh (InverterRecord.inverterSupply record),
    ValidationRules.energy);
   (PVData.voltage pv, ValidationRules.voltage);
   (PVData.current pv, ValidationRules.current);
   (PVData.powerW pv, ValidationRules.power);
   (PVData.dailyWh pv, ValidationRules.energy);
   (PVData.monthlyWd pv, ValidationRules.energy);
   (PVData.yearlyWm pv, ValidationRules.energy);
   (PVData.totalKWh pv, ValidationRules.energy);
   (BatteryData.voltage battery, ValidationRules.voltage);
   (BatteryData.current battery, ValidationRules.current);
   (BatteryData.temperature battery, ValidationRules.temperature);
   (BatteryData.soc battery, ValidationRules.soc);
   (InverterData.voltage inverter, ValidationRules.voltage);
   (InverterData.current inverter, ValidationRules.current);
   (InverterData.frequency inverter, ValidationRules.frequency);
   (GridData.voltage grid, ValidationRules.voltage);
   (GridData.current grid, ValidationRules.current);
   (GridData.frequency grid, ValidationRules.frequency)].

(** A number that is 0 (the reading of a blank cell) or within its
    range. *)
Definition zeroOrWithin (vr : number * ValidationRules.range) : Prop :=
  fst vr = Num.zero
  \/ within (fst vr) (ValidationRules.min (snd vr)) (ValidationRules.max (snd vr))
     = true.

(** A row whose every cell is rejected, with no id and no date. *)
Definition worstRow : Papa.Row :=
  list_to_map
    [("Time", "noon"); ("Blackout", "maybe"); ("Total kWh", "x");
     ("Voltage", "x"); ("Current", "x"); ("Power W", "x"); ("Daily Wh", "x");
     ("Monthly Wd", "x"); ("Yearly Wm", "x"); ("Voltage_1", "x");
     ("Current_1", "x"); ("Temp", "x"); ("SOC", "x"); ("Voltage_2", "x");
     ("Current_2", "x"); ("Hz", "x"); ("Voltage_3", "x"); ("Current_3", "x");
     ("Hz_1", "x"); ("Hex", "x")].

(** The sum of a list of sizes. *)
Fixpoint total (sizes : list nat) : nat :=
  match sizes with
  | [] => 0
  | n :: sizes' => n + total sizes'
  end.

(** Grouping by a key, as the reducer of [errorsByType] and the loop of
    [groupByTimeInterval] do it: the entry of the key is created at the end
    when it is missing, and the element is pushed on it. *)
Definition pushBy {A B : Type} (key : B -> A) (eqb : A -> A -> bool)
    (groups : list (A * list B)) (b : B) : list (A * list B) :=
  let groups :=
    if existsb (fun g => eqb (fst g) (key b)) groups
    then groups else groups ++ [(key b, [])] in
  map (fun g => if eqb (fst g) (key b) then (fst g, snd g ++ [b]) else g) groups.

(** The groups of [l] by key, in closed form: one group for each key, in
    the order the keys first occur, holding the elements of that key in
    the order of [l]. *)
Definition groupsOf {A B : Type} (key : B -> A) (eqb : A -> A -> bool)
    (l : list B) : list (A * list B) :=
  map (fun a => (a, List.filter (fun b => eqb a (key b)) l))
    (distinct eqb (map key l)).

(** The results of the rows, each parsed under its row number. *)
Definition rowResults `{NumberFormat} `{DateHost} (rows : list Papa.Row)
    : list RowResult.t :=
  imap (fun index row => parseRow row (Z.of_nat index + 2)) rows.

(** A record that has a combined instant: [groupByTimeInterval] skips the
    others. *)
Definition dated (record : InverterRecord.t) : bool :=
  match Timestamp.datetime
          (UserRecord.timestamp (InverterRecord.userRecord record)) with
  | Some datetime => negb (String.eqb datetime "")
  | None => false
  end.

(** The bucket key of a record. *)
Definition periodOf `{DateHost} (interval : Interval)
    (record : InverterRecord.t) : string :=
  match Timestamp.datetime
          (UserRecord.timestamp (InverterRecord.userRecord record)) with
  | Some datetime => intervalKey interval datetime
  | None => ""
  end.

(** The fields [aggregateData] reduces under the given options. *)
Definition fieldsOf (options : AggregationOptions.t) : list string :=
  match AggregationOptions.fields options with
  | Some fields => fields
  | None => defaultFields
  end.

(** Where a number stands in the order of the comparisons: the negative
    infinity, the negative finite numbers, the zeros, the positive finite
    numbers, the positive infinity. *)
Definition rank (x : number) : Z * Z * Z :=
  match x with
  | S754_zero _ => (0, 0, 0)
  | S754_infinity false => (2, 0, 0)
  | S754_infinity true => (-2, 0, 0)
  | S754_nan => (3, 0, 0)
  | S754_finite false m e => (1, e, Zpos m)
  | S754_finite true m e => (-1, - e, Zneg m)
  end.

(** The order of the ranks, first component first. *)
Definition lexle (p q : Z * Z * Z) : Prop :=
  let '(a, b, c) := p in
  let '(a', b', c') := q in
  (a < a' \/ (a = a' /\ (b < b' \/ (b = b' /\ c <= c'))))%Z.

Definition lexlt (p q : Z * Z * Z) : Prop :=
  let '(a, b, c) := p in
  let '(a', b', c') := q in
  (a < a' \/ (a = a' /\ (b < b' \/ (b = b' /\ c < c'))))%Z.

(** The numbers that a value holds, at any depth. *)
Fixpoint numbersIn (value : JsValue) : list number :=
  match value with
  | JNumber n => [n]
  | JObject props =>
      (fix go (props : list (string * JsValue)) : list number :=
         match props with
         | [] => []
         | (_, v) :: props' => numbersIn v ++ go props'
         end) props
  | _ => []
  end.

(** The column names of a tokenized export: the header line of
    [recordsToCSV] under [transformHeader]. *)
Definition exportColumns : gset string :=
  list_to_set (map transformHeader csvHeaders).

(** The fields whose errors a re-read export can report. *)
Definition reimportedFields : list string :=
  ["Date"; "Time"; "datetime"; "Blackout"; "PV_Voltage"; "PV_Current";
   "record"].

(** The cache after the records of a run, from the empty cache, and the
    history of a page that saw the same records. *)
Definition cacheAfter {A : Type} (records : list A) : list A :=
  fold_left (fun dataCache record => addToCache record dataCache) records [].

Definition historyAfter {A : Type} (records : list A) : list A :=
  fold_left (fun prev data => handleData data prev) records [].

(** The last [n] elements. *)
Definition lastN {A : Type} (n : nat) (l : list A) : list A :=
  skipn (length l - n) l.

(** Whether a character occurs in a text, and the text before its last
    occurrence (the whole text when it does not occur). *)
Fixpoint occurs (c : ascii) (s : string) : bool :=
  match s with
  | EmptyString => false
  | String a s' => (Ascii.eqb a c || occurs c s')%bool
  end.

Fixpoint beforeLast (c : ascii) (s : string) : string :=
  match s with
  | EmptyString => EmptyString
  | String a s' =>
      if occurs c s' then String a (beforeLast c s')
      else if Ascii.eqb a c then EmptyString else s
  end.

(** A character of the decimal rendering of an integer, or of the text
    [NaN]. *)
Definition numeral (c : ascii) : bool :=
  (Str.isDigit c || Ascii.eqb c "-" || Ascii.eqb c "N" || Ascii.eqb c "a")%bool.

(** A row of an export, under the column names [recordsToCSV] writes. *)
Definition exportedRow : Papa.Row :=
  list_to_map
    [("ID", "HINV-80F3DA61D0"); ("Date", "2025-09-28"); ("Time", "21:05");
     ("Name", "TwinklePower"); ("Blackout", ""); ("Inv_Total_kWh", "1.85");
     ("PV_Voltage", "0"); ("PV_Current", "0"); ("PV_Power_W", "0");
     ("Battery_Voltage", "25.9"); ("Battery_SOC", "98");
     ("Inverter_Hz", "60"); ("Grid_Hz", "60"); ("Status_Hex", "0x03")].

(** * Properties *)

(** ** Numbers: comparison, sum with zero, quotient by one *)

Module NumFacts.

Lemma SFcompare_antisym (x y : number) :
  SFcompare x y = option_map CompOpp (SFcompare y x).
Proof.
  destruct x as [sx|sx| |sx mx ex], y as [sy|sy| |sy my ey]; simpl;
    try reflexivity; try (destruct sx; reflexivity);
    try (destruct sy; reflexivity); try (destruct sx, sy; reflexivity).
  destruct sx, sy; simpl; try reflexivity;
    rewrite (Z.compare_antisym ey ex); destruct (ey ?= ex); simpl;
    try reflexivity;
    rewrite Pos.compare_cont_antisym; simpl;
    try rewrite CompOpp_involutive; reflexivity.
Qed.

Lemma lt_not_le (x y : number) :
  Num.isNaN x = false -> Num.isNaN y = false ->
  Num.lt x y = negb (Num.le y x).
Proof.
  intros Hx Hy. unfold Num.lt, Num.le, SFltb, SFleb.
  rewrite (SFcompare_antisym y x).
  destruct x, y; try discriminate; simpl;
    repeat match goal with
      | |- context [match ?c with _ => _ end] => destruct c; simpl
      end; reflexivity.
Qed.

Lemma le_not_NaN (x y : number) :
  Num.le x y = true -> Num.isNaN x = false /\ Num.isNaN y = false.
Proof. destruct x, y; simpl; (discriminate || (split; reflexivity)). Qed.

(** [x === x] for every number but NaN *)
Lemma eq_self (x : number) : Num.isNaN x = false -> Num.eq x x = true.
Proof.
  destruct x as [s|s| |s m e]; try discriminate; intros _;
    unfold Num.eq, SFeqb; simpl.
  - reflexivity.
  - destruct s; reflexivity.
  - destruct s; rewrite Z.compare_refl, Pos.compare_cont_refl; reflexivity.
Qed.

(** [0 + v] is [v], except that [0 + -0] is [+0] *)
Lemma add_zero_l (v : number) :
  v <> S754_zero true -> Num.add Num.zero v = v.
Proof.
  destruct v as [s|s| |s m e]; intros H; try reflexivity.
  destruct s; [congruence | reflexivity].
Qed.

Lemma add_zero_l_eq (v : number) :
  Num.isNaN v = false -> Num.eq (Num.add Num.zero v) v = true.
Proof.
  intros H. destruct v as [[]|s| |s m e]; try discriminate; try reflexivity.
  - destruct s; reflexivity.
  - rewrite add_zero_l by discriminate. apply eq_self; reflexivity.
Qed.

Lemma add_zero_l_wf (v : number) :
  Num.wf v = true -> Num.wf (Num.add Num.zero v) = true.
Proof. destruct v as [[]|s| |s m e]; intros H; try reflexivity. exact H. Qed.

Lemma ofNat_one : Num.ofNat 1 = Num.one.
Proof. vm_compute. reflexivity. Qed.

Lemma div_eucl_exact (a b : Z) :
  0 < b -> IntDef.Z.div_eucl (a * b) b = (a, 0).
Proof.
  intros Hb. change (Z.div_eucl (a * b) b = (a, 0)).
  pose proof (Z.div_eucl_eq (a * b) b ltac:(lia)) as H.
  pose proof (Z.mod_pos_bound (a * b) b Hb) as Hm.
  unfold Z.modulo in Hm.
  destruct (Z.div_eucl (a * b) b) as [q r].
  assert (q = a) by nia. subst q. f_equal. lia.
Qed.

(** Rounding an exact mantissa that is already canonical changes
    nothing, ... *)
Lemma binary_round_aux_canonical (s : bool) (m : positive) (e : Z) :
  bounded Num.prec Num.emax m e = true ->
  binary_round_aux Num.prec Num.emax s (Zpos m) e loc_Exact
  = S754_finite s m e.
Proof.
  unfold bounded, canonical_mantissa. intros H.
  apply andb_prop in H as [Hc He]. apply Z.eqb_eq in Hc.
  unfold binary_round_aux, shr_fexp.
  change (Zdigits2 (Zpos m)) with (Zpos (digits2_pos m)).
  rewrite Hc, Z.sub_diag. simpl shr. cbv beta iota. simpl.
  change (Zdigits2 (Zpos m)) with (Zpos (digits2_pos m)).
  rewrite Hc, Z.sub_diag. simpl. rewrite He. reflexivity.
Qed.

(** ... and rounding its double at the exponent below gives it back. *)
Lemma binary_round_aux_double (s : bool) (m : positive) (e : Z) :
  bounded Num.prec Num.emax m e = true ->
  binary_round_aux Num.prec Num.emax s (Zpos m~0) (e - 1) loc_Exact
  = S754_finite s m e.
Proof.
  intros Hb. pose proof Hb as H.
  unfold bounded, canonical_mantissa in H.
  apply andb_prop in H as [Hc He]. apply Z.eqb_eq in Hc.
  unfold binary_round_aux at 1. unfold shr_fexp at 1.
  change (Zdigits2 (Zpos m~0)) with (Zpos (Pos.succ (digits2_pos m))).
  rewrite Pos2Z.inj_succ.
  replace (Z.succ (Zpos (digits2_pos m)) + (e - 1))
    with (Zpos (digits2_pos m) + e) by lia.
  rewrite Hc. replace (e - (e - 1)) with 1 by lia.
  simpl shr. replace (e - 1 + 1) with e by lia.
  cbv beta iota. simpl shr_m. simpl loc_of_shr_record.
  simpl round_nearest_even.
  unfold shr_fexp. change (Zdigits2 (Zpos m)) with (Zpos (digits2_pos m)).
  rewrite Hc, Z.sub_diag. simpl. rewrite He. reflexivity.
Qed.

Lemma div_one_finite (s : bool) (m : positive) (e : Z) :
  bounded Num.prec Num.emax m e = true ->
  Num.div (S754_finite s m e) Num.one = S754_finite s m e.
Proof.
  intros Hb. pose proof Hb as H.
  unfold bounded, canonical_mantissa in H.
  apply andb_prop in H as [Hc He].
  apply Z.eqb_eq in Hc. apply Z.leb_le in He.
  unfold Num.div, Num.one, SFdiv, SFdiv_core_binary.
  change (Zdigits2 (Zpos m)) with (Zpos (digits2_pos m)).
  change (Zdigits2 4503599627370496) with 53.
  set (D := Zpos (digits2_pos m)) in *.
  assert (HD : 0 < D) by (unfold D; lia).
  rewrite xorb_false_r.
  unfold fexp, emin, Num.prec, Num.emax in Hc, He.
  destruct (Z.eq_dec e (-1074)) as [He0 | He0].
  - replace (Z.min (fexp Num.prec Num.emax (D + e - (53 + -52))) (e - -52))
      with e by (unfold fexp, emin, Num.prec, Num.emax; lia).
    replace (e - -52 - e) with 52 by lia. cbv iota.
    rewrite Z.shiftl_mul_pow2 by lia.
    change (2 ^ 52) with 4503599627370496.
    rewrite div_eucl_exact by lia.
    change (new_location 4503599627370496 0) with loc_Exact.
    apply (binary_round_aux_canonical s m e Hb).
  - replace (Z.min (fexp Num.prec Num.emax (D + e - (53 + -52))) (e - -52))
      with (e - 1) by (unfold fexp, emin, Num.prec, Num.emax; lia).
    replace (e - -52 - (e - 1)) with 53 by lia. cbv iota.
    rewrite Z.shiftl_mul_pow2 by lia.
    replace (Zpos m * 2 ^ 53) with (Zpos m~0 * 4503599627370496) by lia.
    rewrite div_eucl_exact by lia.
    change (new_location 4503599627370496 0) with loc_Exact.
    apply (binary_round_aux_double s m e Hb).
Qed.

(** [v / 1] is [v] for every binary64 value [v] *)
Lemma div_one (v : number) : Num.wf v = true -> Num.div v (Num.ofNat 1) = v.
Proof.
  rewrite ofNat_one. destruct v as [s|s| |s m e]; intros H.
  - destruct s; reflexivity.
  - destruct s; reflexivity.
  - reflexivity.
  - apply div_one_finite, H.
Qed.

End NumFacts.

(** ** Field Validator *)

Section ValidatorFacts.
Context {numberFormat : NumberFormat} {dateHost : DateHost}.

Lemma outside_not_within (n min max : number) :
  Num.isNaN n = false -> Num.le min max = true ->
  (Num.lt n min || Num.gt n max)%bool = negb (within n min max).
Proof.
  intros Hn Hle. apply NumFacts.le_not_NaN in Hle as [Hmin Hmax].
  change (Num.gt n max) with (Num.lt max n). unfold within.
  rewrite (NumFacts.lt_not_le n min Hn Hmin), (NumFacts.lt_not_le max n Hmax Hn).
  symmetry. apply negb_andb.
Qed.

(** C3. [validateNumber], for bounds [min <= max]: the empty string and
    the dash give 0 and no error; any other text that does not read as a
    number gives 0 and a conversion error; a number outside
    [[min, max]] is returned as it was read, with a validation error;
    a number within the bounds is returned with no error. *)
Theorem validateNumber_spec (value fieldName : string) (min max : number)
    (rowIndex : Z) :
  Num.le min max = true ->
  let n := Num.Number value in
  let result := validateNumber value fieldName min max rowIndex in
  (value = "" \/ value = "-" -> result = ok Num.zero)
  /\ (value <> "" -> value <> "-" -> Num.isNaN n = true ->
      result
      = failed Num.zero
          (ParseError.mk rowIndex fieldName value
             ("Invalid number format: " +:+ quote +:+ value +:+ quote)
             conversion))
  /\ (value <> "" -> value <> "-" -> Num.isNaN n = false ->
      within n min max = false ->
      result
      = failed n
          (ParseError.mk rowIndex fieldName value
             ("Value " +:+ numberToString n +:+ " is outside valid range ["
              +:+ numberToString min +:+ ", " +:+ numberToString max +:+ "]")
             validation))
  /\ (value <> "" -> value <> "-" -> Num.isNaN n = false ->
      within n min max = true -> result = ok n).
Proof.
  intros Hle n result. subst result. unfold validateNumber. fold n.
  split; [| split; [| split]].
  - intros [-> | ->]; reflexivity.
  - intros H1 H2 Hnan.
    apply String.eqb_neq in H1, H2. rewrite H1, H2, Hnan. reflexivity.
  - intros H1 H2 Hnan Hout.
    apply String.eqb_neq in H1, H2. rewrite H1, H2, Hnan.
    rewrite (outside_not_within n min max Hnan Hle), Hout. reflexivity.
  - intros H1 H2 Hnan Hin.
    apply String.eqb_neq in H1, H2. rewrite H1, H2, Hnan.
    rewrite (outside_not_within n min max Hnan Hle), Hin. reflexivity.
Qed.

(** An error of a validator carries the field name the validator was
    given. *)
Lemma validateNumber_field value fieldName min max rowIndex e :
  Validated.error (validateNumber value fieldName min max rowIndex) = Some e ->
  ParseError.field e = fieldName.
Proof.
  unfold validateNumber.
  repeat match goal with
    | |- context [if ?c then _ else _] => destruct c
    end; simpl; intros H; inversion H; reflexivity.
Qed.

Lemma validateDate_field value fieldName rowIndex e :
  Validated.error (validateDate value fieldName rowIndex) = Some e ->
  ParseError.field e = fieldName.
Proof.
  unfold validateDate.
  repeat match goal with
    | |- context [if ?c then _ else _] => destruct c
    | |- context [match Date_getTime ?v with _ => _ end] =>
        destruct (Date_getTime v)
    end; simpl; intros H; inversion H; reflexivity.
Qed.

Lemma validateTime_field value fieldName rowIndex e :
  Validated.error (validateTime value fieldName rowIndex) = Some e ->
  ParseError.field e = fieldName.
Proof.
  unfold validateTime.
  repeat match goal with
    | |- context [if ?c then _ else _] => destruct c
    end; simpl; intros H; inversion H; reflexivity.
Qed.

Lemma validateBlackout_field value fieldName rowIndex e :
  Validated.error (validateBlackout value fieldName rowIndex) = Some e ->
  ParseError.field e = fieldName.
Proof.
  unfold validateBlackout.
  repeat match goal with
    | |- context [if ?c then _ else _] => destruct c
    end; simpl; intros H; inversion H; reflexivity.
Qed.

Lemma validateHex_field value fieldName rowIndex e :
  Validated.error (validateHex value fieldName rowIndex) = Some e ->
  ParseError.field e = fieldName.
Proof.
  unfold validateHex.
  repeat match goal with
    | |- context [if ?c then _ else _] => destruct c
    end; simpl; intros H; inversion H; reflexivity.
Qed.

(** The date a validation resolves to is empty exactly when the cell
    is. *)
Lemma validateDate_value_empty value fieldName rowIndex :
  Validated.value (validateDate value fieldName rowIndex) = "" <-> value = "".
Proof.
  unfold validateDate. destruct (String.eqb_spec value "") as [-> | Hne].
  - split; reflexivity.
  - destruct (negb (dateRegex value)); [| destruct (Date_getTime value)];
      simpl; split; intros H; congruence.
Qed.

Lemma validateHex_invalid value fieldName rowIndex :
  value <> "" -> hexRegex value = false ->
  validateHex value fieldName rowIndex
  = failed value
      (ParseError.mk rowIndex fieldName value
         ("Invalid hex format: " +:+ quote +:+ value +:+ quote) format).
Proof.
  intros Hne Hre. unfold validateHex.
  apply String.eqb_neq in Hne. rewrite Hne, Hre. reflexivity.
Qed.

End ValidatorFacts.

(** ** Row Assembler *)

Section RowFacts.
Context {numberFormat : NumberFormat} {dateHost : DateHost}.

Lemma pushError_fieldLevel {T} (errors : list ParseError.t)
    (v : Validated.t T) (fieldName : string) :
  fieldName <> "record" ->
  (forall e, Validated.error v = Some e -> ParseError.field e = fieldName) ->
  Forall fieldLevel errors -> Forall fieldLevel (pushError errors v).
Proof.
  intros Hname Hv Herrors. unfold pushError.
  destruct (Validated.error v) as [e |] eqn:He; [| exact Herrors].
  apply Forall_app. split; [exact Herrors |].
  constructor; [| constructor]. unfold fieldLevel.
  rewrite (Hv e eq_refl). exact Hname.
Qed.

Lemma createTimestamp_fieldLevel (date time : string) (rowIndex : Z) :
  Forall fieldLevel (snd (createTimestamp date time rowIndex)).
Proof.
  unfold createTimestamp.
  assert (Hpushed :
    Forall fieldLevel
      (pushError (pushError [] (validateDate date "Date" rowIndex))
         (validateTime time "Time" rowIndex))).
  { apply (pushError_fieldLevel _ _ "Time");
      [discriminate | apply validateTime_field |].
    apply (pushError_fieldLevel _ _ "Date");
      [discriminate | apply validateDate_field | constructor]. }
  destruct (Validated.error (validateDate date "Date" rowIndex));
    [exact Hpushed |].
  destruct (Validated.error (validateTime time "Time" rowIndex));
    [exact Hpushed |].
  destruct (Date_getTime _); [exact Hpushed |].
  simpl. apply Forall_app. split; [exact Hpushed |].
  constructor; [unfold fieldLevel; cbn; discriminate | constructor].
Qed.

Lemma createTimestamp_date (date time : string) (rowIndex : Z) :
  Timestamp.date (fst (createTimestamp date time rowIndex))
  = Validated.value (validateDate date "Date" rowIndex).
Proof.
  unfold createTimestamp.
  destruct (Validated.error (validateDate date "Date" rowIndex));
    [reflexivity |].
  destruct (Validated.error (validateTime time "Time" rowIndex));
    [reflexivity |].
  destruct (Date_getTime _); reflexivity.
Qed.

(** A missing date is always reported. *)
Lemma createTimestamp_missing_date (time : string) (rowIndex : Z) :
  snd (createTimestamp "" time rowIndex) <> [].
Proof.
  unfold createTimestamp.
  set (v := validateTime time "Time" rowIndex).
  cbn. unfold pushError. destruct (Validated.error v); discriminate.
Qed.

Ltac validator_field :=
  first [ apply validateNumber_field | apply validateDate_field
        | apply validateTime_field | apply validateBlackout_field
        | apply validateHex_field ].

Lemma assembleRow_fieldLevel (row : Papa.Row) (rowIndex : Z) :
  Forall fieldLevel (snd (assembleRow row rowIndex)).
Proof.
  unfold assembleRow. cbv zeta. cbn [snd fold_left app].
  repeat (eapply pushError_fieldLevel;
          [ | solve [validator_field] | ]; [discriminate |]).
  apply createTimestamp_fieldLevel.
Qed.

Lemma assembleRow_id (row : Papa.Row) (rowIndex : Z) :
  UserRecord.id (InverterRecord.userRecord (fst (assembleRow row rowIndex)))
  = orEmpty (row !! "ID").
Proof. reflexivity. Qed.

Lemma assembleRow_date (row : Papa.Row) (rowIndex : Z) :
  Timestamp.date
    (UserRecord.timestamp
       (InverterRecord.userRecord (fst (assembleRow row rowIndex))))
  = Timestamp.date
      (fst (createTimestamp (orEmpty (row !! "Date")) (orEmpty (row !! "Time"))
              rowIndex)).
Proof. reflexivity. Qed.

Lemma assembleRow_hex (row : Papa.Row) (rowIndex : Z) :
  SystemStatus.hex (InverterRecord.status (fst (assembleRow row rowIndex)))
  = Validated.value (validateHex (orEmpty (row !! "Hex")) "Status_Hex" rowIndex).
Proof. reflexivity. Qed.

Lemma assembleRow_errors_timestamp (row : Papa.Row) (rowIndex : Z) :
  snd (createTimestamp (orEmpty (row !! "Date")) (orEmpty (row !! "Time"))
         rowIndex) <> [] ->
  snd (assembleRow row rowIndex) <> [].
Proof.
  intros Hts. unfold assembleRow. cbv zeta. cbn [snd fold_left app].
  assert (Hpush : forall T (errors : list ParseError.t) (v : Validated.t T),
             errors <> [] -> pushError errors v <> []).
  { intros T errors v He. unfold pushError.
    destruct (Validated.error v); [| exact He].
    destruct errors; [congruence | discriminate]. }
  repeat apply Hpush. exact Hts.
Qed.

Lemma parseRow_unfold (row : Papa.Row) (rowIndex : Z) :
  parseRow row rowIndex
  = if dropped row
    then RowResult.mk None
           (snd (assembleRow row rowIndex) ++ [incomplete rowIndex])
    else RowResult.mk (Some (fst (assembleRow row rowIndex)))
           (snd (assembleRow row rowIndex)).
Proof.
  unfold parseRow, dropped.
  pose proof (assembleRow_id row rowIndex) as Hid.
  pose proof (assembleRow_date row rowIndex) as Hdate.
  rewrite createTimestamp_date in Hdate.
  destruct (assembleRow row rowIndex) as [record errors].
  cbn [fst snd] in *. rewrite Hid, Hdate.
  destruct (String.eqb_spec (orEmpty (row !! "ID")) ""); [| reflexivity].
  cbn [andb].
  destruct (String.eqb_spec (orEmpty (row !! "Date")) "") as [He | Hne].
  - rewrite (proj2 (validateDate_value_empty _ _ _) He). reflexivity.
  - destruct (String.eqb_spec
                (Validated.value
                   (validateDate (orEmpty (row !! "Date")) "Date" rowIndex)) "")
      as [He' | ]; [| reflexivity].
    apply validateDate_value_empty in He'. contradiction.
Qed.

(** C1. A row whose device id or whose resolved date is not empty yields
    one record (whatever errors its fields raise); a row with both empty
    yields no record and at least one error. *)
Theorem parseRow_acceptance (row : Papa.Row) (rowIndex : Z) :
  let id := orEmpty (row !! "ID") in
  let date :=
    Timestamp.date
      (fst (createTimestamp (orEmpty (row !! "Date"))
              (orEmpty (row !! "Time")) rowIndex)) in
  let result := parseRow row rowIndex in
  (id <> "" \/ date <> "" ->
   exists record, RowResult.record result = Some record)
  /\ (id = "" /\ date = "" ->
      RowResult.record result = None /\ RowResult.errors result <> []).
Proof.
  intros id date result. subst id date result.
  rewrite createTimestamp_date, parseRow_unfold. unfold dropped.
  split.
  - intros [Hid | Hdate].
    + apply String.eqb_neq in Hid. rewrite Hid. eexists. reflexivity.
    + destruct (String.eqb_spec (orEmpty (row !! "Date")) "") as [He | Hne].
      * exfalso. apply Hdate. apply validateDate_value_empty. exact He.
      * rewrite andb_false_r. eexists. reflexivity.
  - intros [Hid Hdate]. apply validateDate_value_empty in Hdate.
    rewrite Hid, Hdate. cbn [String.eqb andb RowResult.record RowResult.errors].
    split; [reflexivity |].
    intros H. apply app_eq_nil in H as [_ H]. discriminate.
Qed.

(** C8. When a row is dropped, its errors are the errors of its fields
    followed by one more error, which names the field [record], carries
    the value [incomplete] and has type validation; no other error of
    the row names that field. A row is dropped only when its id and its
    date are both empty. *)
Theorem parseRow_drop_reports_incomplete (row : Papa.Row) (rowIndex : Z) :
  RowResult.record (parseRow row rowIndex) = None ->
  let fieldErrors := snd (assembleRow row rowIndex) in
  RowResult.errors (parseRow row rowIndex)
  = fieldErrors
    ++ [ParseError.mk rowIndex "record" "incomplete"
          "Row missing required ID or date information" validation]
  /\ Forall fieldLevel fieldErrors
  /\ length
       (List.filter (fun e => String.eqb (ParseError.field e) "record")
          (RowResult.errors (parseRow row rowIndex))) = 1%nat
  /\ orEmpty (row !! "ID") = "" /\ orEmpty (row !! "Date") = "".
Proof.
  rewrite parseRow_unfold. unfold dropped.
  destruct (String.eqb_spec (orEmpty (row !! "ID")) "") as [Hid | ];
    [| discriminate].
  destruct (String.eqb_spec (orEmpty (row !! "Date")) "") as [Hdate | ];
    [| discriminate].
  cbn [andb RowResult.record RowResult.errors]. intros _.
  pose proof (assembleRow_fieldLevel row rowIndex) as Hfields.
  set (fieldErrors := snd (assembleRow row rowIndex)) in *.
  repeat split; try assumption.
  rewrite List.filter_app, length_app. cbn.
  replace (List.filter _ fieldErrors) with (@nil ParseError.t); [reflexivity |].
  symmetry. clear - Hfields.
  induction Hfields as [| e errors He _ IH]; [reflexivity |].
  cbn. apply String.eqb_neq in He. rewrite He. exact IH.
Qed.

(** C9. Text that is not empty and does not match the hex pattern comes
    back from [validateHex] as it was given, next to a format error, and
    is the status code of the record assembled from the row. *)
Theorem validateHex_invalid_verbatim (value fieldName : string)
    (rowIndex : Z) :
  value <> "" -> hexRegex value = false ->
  validateHex value fieldName rowIndex
  = failed value
      (ParseError.mk rowIndex fieldName value
         ("Invalid hex format: " +:+ quote +:+ value +:+ quote) format)
  /\ forall (row : Papa.Row) (record : InverterRecord.t),
      row !! "Hex" = Some value ->
      RowResult.record (parseRow row rowIndex) = Some record ->
      SystemStatus.hex (InverterRecord.status record) = value.
Proof.
  intros Hne Hre. split; [apply validateHex_invalid; assumption |].
  intros row record Hrow. rewrite parseRow_unfold.
  destruct (dropped row); [discriminate |].
  cbn [RowResult.record]. intros Hrecord.
  assert (Hr : record = fst (assembleRow row rowIndex)) by congruence.
  rewrite Hr, assembleRow_hex.
  assert (Hcell : orEmpty (row !! "Hex") = value).
  { rewrite Hrow. unfold orEmpty, orElse, truthy.
    apply String.eqb_neq in Hne. rewrite Hne. reflexivity. }
  rewrite Hcell, validateHex_invalid by assumption. reflexivity.
Qed.

End RowFacts.

(** ** Parse Orchestrator *)

Section ParseFacts.
Context {numberFormat : NumberFormat} {dateHost : DateHost}
        {tokenizer : Tokenizer}.

Lemma parseRows_length (rows : list Papa.Row) :
  forall (index : nat) records allErrors,
    (length (fst (parseRows rows index records allErrors))
     <= length records + length rows)%nat.
Proof.
  induction rows as [| row rows IH]; intros index records allErrors.
  - cbn. lia.
  - cbn [parseRows]. cbv zeta.
    destruct (RowResult.record (parseRow row (Z.of_nat index + 2))).
    + etransitivity; [apply IH |]. rewrite length_app. cbn. lia.
    + etransitivity; [apply IH |]. cbn. lia.
Qed.

(** Each row adds one record when it is accepted and none when it is
    dropped. *)
Lemma parseRows_count (rows : list Papa.Row) :
  forall (index : nat) records allErrors,
    length (fst (parseRows rows index records allErrors))
    = (length records
       + length (List.filter (fun row => negb (dropped row)) rows))%nat.
Proof.
  induction rows as [| row rows IH]; intros index records allErrors.
  - cbn. lia.
  - cbn [parseRows List.filter]. cbv zeta.
    rewrite parseRow_unfold. destruct (dropped row); cbn [negb RowResult.record].
    + apply IH.
    + rewrite IH, length_app. cbn. lia.
Qed.

(** C2. In the result of [parseCSV], [successfulRows] is the number of
    records in [data], and it does not exceed [totalRows]. *)
Theorem parseCSV_counts (csvContent : string) :
  let result := parseCSV csvContent in
  ParseResult.successfulRows result = length (ParseResult.data result)
  /\ (ParseResult.successfulRows result <= ParseResult.totalRows result)%nat.
Proof.
  cbv zeta. unfold parseCSV.
  destruct (Papa_parse csvContent transformHeader) as [results | message].
  - pose proof (parseRows_length (Papa.data results) 0 [] []) as Hlen.
    destruct (parseRows (Papa.data results) 0 [] []) as [records allErrors].
    cbn in *. split; [reflexivity | lia].
  - cbn. split; [reflexivity | lia].
Qed.

Lemma parseCSV_data_count (csvContent : string) (results : Papa.ParseResult) :
  Papa_parse csvContent transformHeader = Papa.complete results ->
  length (ParseResult.data (parseCSV csvContent))
  = length (List.filter (fun row => negb (dropped row)) (Papa.data results)).
Proof.
  intros Hparse. unfold parseCSV. rewrite Hparse.
  pose proof (parseRows_count (Papa.data results) 0 [] []) as Hcount.
  destruct (parseRows (Papa.data results) 0 [] []) as [records allErrors].
  cbn in *. exact Hcount.
Qed.

End ParseFacts.

(** ** Header transform *)

(** The seven legacy names go to seven different canonical names. *)
Lemma transformHeader_legacy_distinct :
  NoDup (map transformHeader legacyNames).
Proof.
  apply (bool_decide_unpack _). vm_compute. exact I.
Qed.

(** The clause that returns [PV_TotalKWh] is never reached: only a header
    that is already [PV_TotalKWh] has [PV_TotalKWh] as its result. *)
Lemma transformHeader_PV_TotalKWh (header : string) :
  transformHeader header = "PV_TotalKWh" -> Str.trim header = "PV_TotalKWh".
Proof.
  unfold transformHeader.
  repeat match goal with
    | |- context [if String.eqb ?a ?b then _ else _] =>
        destruct (String.eqb a b); [discriminate |]
    end.
  intros H. exact H.
Qed.

(** C4. The header line of the logger (the sample of the parser test
    page) under the header transform: the column [Total kWh] of the
    inverter supply and the column [Total kWh] of the PV section both
    become [InvSupply_TotalKWh], and no column becomes [PV_TotalKWh]. *)
Theorem transformHeader_total_kwh_collides :
  transformHeader "Total kWh" = "InvSupply_TotalKWh"
  /\ map transformHeader sampleHeader
     = ["ID"; "Date"; "Time"; "Name"; "Blackout"; "InvSupply_TotalKWh";
        "PV_Voltage"; "PV_Current"; "PV_PowerW"; "PV_DailyWh"; "PV_MonthlyWd";
        "PV_YearlyWm"; "InvSupply_TotalKWh"; "PV_Voltage"; "PV_Current";
        "Temp"; "SOC"; "PV_Voltage"; "PV_Current"; "Hz"; "PV_Voltage";
        "PV_Current"; "Hz"; "Hex"]
  /\ nth_error (map transformHeader sampleHeader) 5
     = nth_error (map transformHeader sampleHeader) 12
  /\ existsb (String.eqb "PV_TotalKWh") (map transformHeader sampleHeader)
     = false.
Proof. repeat split; vm_compute; reflexivity. Qed.

(** ** Error Formatter *)

Lemma ErrorType_eqb_refl (t : ErrorType) : ErrorType_eqb t t = true.
Proof. destruct t; reflexivity. Qed.

Lemma groupError_step (t : ErrorType) (group : list ParseError.t)
    (e : ParseError.t) :
  ParseError.type e = t -> groupError [(t, group)] e = [(t, group ++ [e])].
Proof.
  intros He. unfold groupError. cbn. rewrite He, ErrorType_eqb_refl. cbn.
  rewrite ErrorType_eqb_refl. reflexivity.
Qed.

Lemma groupError_first (e : ParseError.t) :
  groupError [] e = [(ParseError.type e, [e])].
Proof. unfold groupError. cbn. rewrite ErrorType_eqb_refl. reflexivity. Qed.

Lemma groupError_same (t : ErrorType) (errors group : list ParseError.t) :
  Forall (fun e => ParseError.type e = t) errors ->
  fold_left groupError errors [(t, group)] = [(t, group ++ errors)].
Proof.
  intros Hall. revert group.
  induction Hall as [| e errors He _ IH]; intros group.
  - cbn. rewrite app_nil_r. reflexivity.
  - cbn [fold_left]. rewrite (groupError_step t group e He), IH, <- app_assoc.
    reflexivity.
Qed.

Lemma errorsByType_one_type (t : ErrorType) (e : ParseError.t)
    (errors : list ParseError.t) :
  Forall (fun e => ParseError.type e = t) (e :: errors) ->
  fold_left groupError (e :: errors) [] = [(t, e :: errors)].
Proof.
  intros Hall. inversion Hall as [| ? ? He Hrest]; subst.
  cbn [fold_left]. rewrite groupError_first.
  apply (groupError_same _ _ [e] Hrest).
Qed.

(** C7. The empty list is rendered as [No errors]; seven errors of one
    type are rendered as the total, the heading of the type with its
    count, the lines of the first five errors, and the line
    [... and 2 more]. *)
Theorem formatParseErrors_spec (errors : list ParseError.t) (t : ErrorType) :
  length errors = 7%nat ->
  Forall (fun e => ParseError.type e = t) errors ->
  formatParseErrors [] = "No errors"
  /\ formatParseErrors errors
     = ("Found 7 error(s):" +:+ newline)
       +:+ (newline +:+ Str.toUpperCase (typeName t) +:+ " errors (7):" +:+ newline
            +:+ Str.concat (map errorLine (firstn 5 errors))
            +:+ "  ... and 2 more" +:+ newline).
Proof.
  intros Hlen Hall. split; [reflexivity |].
  destruct errors as [| e errors]; [discriminate |].
  unfold formatParseErrors.
  rewrite (errorsByType_one_type t e errors Hall).
  cbn [fold_left]. unfold formatGroup. rewrite Hlen. reflexivity.
Qed.

(** ** Aggregation Engine *)

Section AggregationFacts.
Context {dateHost : DateHost}.

Lemma pushGroup_first (key : string) (record : InverterRecord.t) :
  pushGroup key record [] = [(key, [record])].
Proof. unfold pushGroup. cbn. rewrite String.eqb_refl. reflexivity. Qed.

(** One record with a combined instant makes one group. *)
Lemma groupByTimeInterval_single (record : InverterRecord.t)
    (datetime : string) (interval : Interval) :
  Timestamp.datetime
    (UserRecord.timestamp (InverterRecord.userRecord record)) = Some datetime ->
  datetime <> "" ->
  groupByTimeInterval [record] interval
  = [(intervalKey interval datetime, [record])].
Proof.
  intros Hdt Hne. unfold groupByTimeInterval. cbn [fold_left].
  rewrite Hdt. apply String.eqb_neq in Hne. rewrite Hne.
  apply pushGroup_first.
Qed.

Lemma aggregateData_single (record : InverterRecord.t) (datetime : string)
    (options : AggregationOptions.t) :
  Timestamp.datetime
    (UserRecord.timestamp (InverterRecord.userRecord record)) = Some datetime ->
  datetime <> "" ->
  aggregateData [record] options
  = [aggregateGroup options
       (intervalKey (AggregationOptions.interval options) datetime, [record])].
Proof.
  intros Hdt Hne. unfold aggregateData.
  rewrite (groupByTimeInterval_single record datetime _ Hdt Hne). reflexivity.
Qed.

Lemma fieldValue_numeric (record : InverterRecord.t) (field : string)
    (v : number) :
  In (field, v) (numericFields record) -> fieldValue field record = v.
Proof.
  intros H. cbn in H.
  repeat (destruct H as [H | H]; [inversion H; subst; reflexivity |]).
  contradiction.
Qed.

Lemma numericFields_stored (record : InverterRecord.t) (field : string)
    (v n : number) (values : gmap string number) :
  In (field, v) (numericFields record) ->
  setValue field n values = <[field := n]> values.
Proof.
  intros H. cbn in H.
  repeat (destruct H as [H | H]; [inversion H; subst; reflexivity |]).
  contradiction.
Qed.

Lemma extractFieldValues_single (record : InverterRecord.t) (field : string)
    (v : number) :
  In (field, v) (numericFields record) -> Num.isNaN v = false ->
  extractFieldValues [record] field = [v].
Proof.
  intros Hin Hnan. unfold extractFieldValues. cbn [map List.filter].
  rewrite (fieldValue_numeric record field v Hin), Hnan. reflexivity.
Qed.

(** The sum and the mean of one number [v]: [v] itself, but [+0] for
    [-0]. *)
Lemma calculateAggregation_single (v : number) (method : Method) :
  method = sum \/ method = average -> Num.wf v = true ->
  calculateAggregation [v] method = Num.add Num.zero v.
Proof.
  intros [-> | ->] Hwf; cbn; [reflexivity |].
  apply (NumFacts.div_one _ (NumFacts.add_zero_l_wf v Hwf)).
Qed.

(** X26. The round trip of a single record, where the code resolves the
    field. For one record with a combined instant, any interval, the
    method sum or average, and a field path that names a number [v] of
    the record other than NaN (a dotted path, or one of [powerW],
    [voltage], [soc]): there is one bucket, its count is 1, and its value
    for the field equals [v] (it is [v] itself, but [+0] when [v] is
    [-0]). *)
Theorem aggregate_single_record (record : InverterRecord.t)
    (datetime : string) (interval : Interval) (method : Method)
    (field : string) (v : number) :
  Timestamp.datetime
    (UserRecord.timestamp (InverterRecord.userRecord record)) = Some datetime ->
  datetime <> "" ->
  method = sum \/ method = average ->
  In (field, v) (numericFields record) ->
  Num.isNaN v = false -> Num.wf v = true ->
  exists (period : string) (values : gmap string number) (v' : number),
    aggregateData [record]
      (AggregationOptions.mk interval (Some [field]) method)
    = [AggregatedData.mk period values 1]
    /\ values !! field = Some v'
    /\ Num.eq v' v = true
    /\ (v <> S754_zero true -> v' = v).
Proof.
  intros Hdt Hne Hmethod Hin Hnan Hwf.
  exists (intervalKey interval datetime),
    {[field := Num.add Num.zero v]}, (Num.add Num.zero v).
  split; [| split; [| split]].
  - rewrite (aggregateData_single record datetime _ Hdt Hne).
    unfold aggregateGroup.
    cbn [AggregationOptions.fields AggregationOptions.method
         AggregationOptions.interval fold_left length].
    rewrite (extractFieldValues_single record field v Hin Hnan).
    rewrite (calculateAggregation_single v method Hmethod Hwf).
    rewrite (numericFields_stored record field v _ _ Hin). reflexivity.
  - apply lookup_singleton_eq.
  - apply NumFacts.add_zero_l_eq, Hnan.
  - apply NumFacts.add_zero_l.
Qed.

(** One record makes one group when it has a combined instant, and none
    otherwise. *)
Lemma aggregateData_one (record : InverterRecord.t)
    (options : AggregationOptions.t) :
  aggregateData [record] options
  = if dated record
    then [aggregateGroup options
            (periodOf (AggregationOptions.interval options) record, [record])]
    else [].
Proof.
  unfold aggregateData, groupByTimeInterval, dated, periodOf. cbn [fold_left].
  destruct (Timestamp.datetime _) as [datetime |]; [| reflexivity].
  destruct (String.eqb datetime ""); [reflexivity |].
  rewrite pushGroup_first. reflexivity.
Qed.

(** Under a name that is no property of the record and none of the three
    names of the fallback, the walk returns 0, whatever the record
    holds. *)
Lemma aggregateGroup_missed (record : InverterRecord.t) (period field : string)
    (interval : Interval) (method : Method) :
  In field missedFields ->
  aggregateGroup (AggregationOptions.mk interval (Some [field]) method)
    (period, [record])
  = AggregatedData.mk period {[field := Num.zero]} 1.
Proof.
  intros Hfield. unfold aggregateGroup.
  cbn [AggregationOptions.fields AggregationOptions.method fold_left length].
  assert (Hvalues : extractFieldValues [record] field = [Num.zero]).
  { cbn in Hfield.
    repeat (destruct Hfield as [<- | Hfield]; [reflexivity |]).
    contradiction. }
  rewrite Hvalues.
  assert (Hzero : calculateAggregation [Num.zero] method = Num.zero)
    by (destruct method; vm_compute; reflexivity).
  rewrite Hzero.
  assert (Hstored : setValue field Num.zero ∅ = {[field := Num.zero]}).
  { cbn in Hfield.
    repeat (destruct Hfield as [<- | Hfield]; [reflexivity |]).
    contradiction. }
  rewrite Hstored. reflexivity.
Qed.

(** C6. The round trip of a single record breaks on the field names that
    [extractFieldValues] misses. Of the ten names of the declared field
    type the code resolves [powerW], [voltage] and [soc]; under each of
    the seven others, a single record with a combined instant gives, for
    every interval and method, one bucket of count 1 whose value for the
    name is 0, whatever the record holds. The record of the sample row
    holds the battery temperature 27, and its bucket holds 0 for
    [temperature]. *)
Theorem aggregate_single_record_misses_fields (record : InverterRecord.t)
    (interval : Interval) (method : Method) :
  Forall
    (fun field =>
       aggregateData [record]
         (AggregationOptions.mk interval (Some [field]) method)
       = if dated record
         then [AggregatedData.mk (periodOf interval record)
                 {[field := Num.zero]} 1]
         else [])
    missedFields
  /\ aggregateData [sampleRecord]
       (AggregationOptions.mk interval (Some ["temperature"]) method)
     = [AggregatedData.mk (periodOf interval sampleRecord)
          {["temperature" := Num.zero]} 1]
  /\ BatteryData.temperature (InverterRecord.battery sampleRecord)
     = Num.ofZ 27
  /\ Num.eq Num.zero (Num.ofZ 27) = false.
Proof.
  assert (Hall : forall (r : InverterRecord.t) (field : string),
            In field missedFields ->
            aggregateData [r]
              (AggregationOptions.mk interval (Some [field]) method)
            = if dated r
              then [AggregatedData.mk (periodOf interval r)
                      {[field := Num.zero]} 1]
              else []).
  { intros r field Hfield. rewrite aggregateData_one.
    cbn [AggregationOptions.interval].
    destruct (dated r); [| reflexivity].
    rewrite (aggregateGroup_missed r _ field interval method Hfield).
    reflexivity. }
  split; [| split; [| split]].
  - apply List.Forall_forall. intros field Hfield. apply Hall, Hfield.
  - rewrite (Hall sampleRecord "temperature") by (cbn; tauto).
    reflexivity.
  - vm_compute. reflexivity.
  - vm_compute. reflexivity.
Qed.

Lemma pushGroup_nonempty (key : string) (record : InverterRecord.t)
    (groups : list (string * list InverterRecord.t)) :
  Forall (fun g => snd g <> []) groups ->
  Forall (fun g => snd g <> []) (pushGroup key record groups).
Proof.
  intros Hgroups. unfold pushGroup. apply Forall_map.
  assert (Hstep : forall g : string * list InverterRecord.t,
             (snd g <> [] \/ fst g = key) ->
             snd (if String.eqb (fst g) key
                  then (fst g, snd g ++ [record]) else g) <> []).
  { intros g Hg. destruct (String.eqb_spec (fst g) key) as [Heq | Hne]; cbn.
    - intros H. apply app_eq_nil in H as [_ H]. discriminate.
    - destruct Hg as [Hg | Hg]; [exact Hg | contradiction]. }
  destruct (existsb _ groups).
  - eapply List.Forall_impl; [| exact Hgroups]. intros g Hg. apply Hstep. left. exact Hg.
  - apply Forall_app. split.
    + eapply List.Forall_impl; [| exact Hgroups]. intros g Hg. apply Hstep. left. exact Hg.
    + constructor; [| constructor]. apply Hstep. right. reflexivity.
Qed.

Lemma groupByTimeInterval_nonempty (records : list InverterRecord.t)
    (interval : Interval) :
  Forall (fun g => snd g <> []) (groupByTimeInterval records interval).
Proof.
  unfold groupByTimeInterval.
  assert (Hfold : forall groups : list (string * list InverterRecord.t),
             Forall (fun g => snd g <> []) groups ->
             Forall (fun g => snd g <> [])
               (fold_left
                  (fun groups record =>
                     match Timestamp.datetime
                             (UserRecord.timestamp
                                (InverterRecord.userRecord record)) with
                     | Some datetime =>
                         if String.eqb datetime "" then groups
                         else pushGroup (intervalKey interval datetime) record
                                groups
                     | None => groups
                     end) records groups)).
  { induction records as [| record records IH]; intros groups Hgroups.
    - exact Hgroups.
    - cbn [fold_left]. apply IH.
      destruct (Timestamp.datetime _) as [datetime |]; [| exact Hgroups].
      destruct (String.eqb datetime ""); [exact Hgroups |].
      apply pushGroup_nonempty, Hgroups. }
  apply Hfold. constructor.
Qed.

(** C10. No record, no bucket, whatever the options; and a bucket that is
    emitted, for any input, counts at least one record. *)
Theorem aggregateData_nil (options : AggregationOptions.t) :
  aggregateData [] options = []
  /\ forall records : list InverterRecord.t,
      Forall (fun bucket => (0 < AggregatedData.count bucket)%nat)
        (aggregateData records options).
Proof.
  split; [reflexivity |].
  intros records. unfold aggregateData.
  destruct records as [| record records]; [constructor |].
  apply Forall_map.
  eapply List.Forall_impl;
    [| apply (groupByTimeInterval_nonempty (record :: records))].
  intros [period groupRecords] Hne. cbn in *.
  destruct groupRecords; [contradiction | cbn; lia].
Qed.

(** C5. The sample record under the default fields, for any interval
    and method: the bucket has three values, not five; the name
    [voltage] stands for the battery voltage, and neither the inverter
    voltage nor the grid voltage is reduced. *)
Theorem aggregateData_default_fields_collide (interval : Interval)
    (method : Method) :
  exists (period : string) (values : gmap string number),
    aggregateData [sampleRecord] (AggregationOptions.mk interval None method)
    = [AggregatedData.mk period values 1]
    /\ values
       = <["powerW" := Num.Number "0"]>
           (<["voltage" := Num.Number "25.9"]>
              (<["soc" := Num.Number "98"]> ∅))
    /\ size values = 3%nat
    /\ values !! "voltage"
       = Some (BatteryData.voltage (InverterRecord.battery sampleRecord))
    /\ Num.eq (BatteryData.voltage (InverterRecord.battery sampleRecord))
         (InverterData.voltage (InverterRecord.inverter sampleRecord)) = false
    /\ Num.eq (BatteryData.voltage (InverterRecord.battery sampleRecord))
         (GridData.voltage (InverterRecord.grid sampleRecord)) = false.
Proof.
  eexists _, _. split.
  - rewrite (aggregateData_single sampleRecord "2025-09-28T21:05:00.000Z" _
               eq_refl ltac:(discriminate)).
    unfold aggregateGroup. cbn [AggregationOptions.fields]. reflexivity.
  - cbn [AggregationOptions.method].
    destruct method; vm_compute; repeat split; reflexivity.
Qed.

End AggregationFacts.

(** ** Field Validator: more properties *)

Section MoreValidatorFacts.
Context {numberFormat : NumberFormat} {dateHost : DateHost}.

(** A validation of a number with no error gives 0 for a blank cell and a
    number within the bounds otherwise. *)
Lemma validateNumber_clean (value fieldName : string) (min max : number)
    (rowIndex : Z) :
  Num.le min max = true ->
  Validated.error (validateNumber value fieldName min max rowIndex) = None ->
  let v := Validated.value (validateNumber value fieldName min max rowIndex) in
  ((value = "" \/ value = "-") /\ v = Num.zero)
  \/ (v = Num.Number value /\ within v min max = true).
Proof.
  intros Hle. unfold validateNumber.
  destruct (String.eqb_spec value "") as [-> | Hne1]; [left; split; auto |].
  destruct (String.eqb_spec value "-") as [-> | Hne2]; [left; split; auto |].
  cbn [orb]. destruct (Num.isNaN (Num.Number value)) eqn:Hnan; [discriminate |].
  rewrite (outside_not_within _ min max Hnan Hle).
  destruct (within (Num.Number value) min max) eqn:Hin; [| discriminate].
  intros _. right. split; [reflexivity | exact Hin].
Qed.

Lemma validateNumber_not_NaN (value fieldName : string) (min max : number)
    (rowIndex : Z) :
  Num.isNaN (Validated.value (validateNumber value fieldName min max rowIndex))
  = false.
Proof.
  unfold validateNumber.
  destruct (String.eqb value "" || String.eqb value "-")%bool; [reflexivity |].
  destruct (Num.isNaN (Num.Number value)) eqn:Hnan; [reflexivity |].
  destruct (Num.lt _ min || Num.gt _ max)%bool; exact Hnan.
Qed.

(** X1. Whatever the cell holds, [validateNumber] never returns NaN; and
    when it reports no error, for bounds [min <= max], the value is 0 for
    a blank cell (empty or a dash) and lies within [[min, max]]
    otherwise. *)
Theorem validateNumber_value_sound (value fieldName : string)
    (min max : number) (rowIndex : Z) :
  Num.le min max = true ->
  let result := validateNumber value fieldName min max rowIndex in
  Num.isNaN (Validated.value result) = false
  /\ (Validated.error result = None ->
      ((value = "" \/ value = "-") /\ Validated.value result = Num.zero)
      \/ (Validated.value result = Num.Number value
          /\ within (Validated.value result) min max = true)).
Proof.
  intros Hle result. split.
  - apply validateNumber_not_NaN.
  - apply validateNumber_clean, Hle.
Qed.

Lemma isDigit_code (c : ascii) :
  Str.isDigit c = true <-> (48 <= Str.code c <= 57)%N.
Proof. unfold Str.isDigit. rewrite andb_true_iff, !N.leb_le. tauto. Qed.

Lemma inRange_code (lo hi c : ascii) (l h : N) :
  Str.code lo = l -> Str.code hi = h ->
  Str.inRange lo hi c = true <-> (l <= Str.code c <= h)%N.
Proof.
  intros <- <-. unfold Str.inRange. rewrite andb_true_iff, !N.leb_le. tauto.
Qed.

Lemma inRange_0_5 (c : ascii) :
  Str.inRange "0" "5" c = true <-> (48 <= Str.code c <= 53)%N.
Proof. apply inRange_code; reflexivity. Qed.

Lemma inRange_0_1 (c : ascii) :
  Str.inRange "0" "1" c = true <-> (48 <= Str.code c <= 49)%N.
Proof. apply inRange_code; reflexivity. Qed.

Lemma inRange_0_3 (c : ascii) :
  Str.inRange "0" "3" c = true <-> (48 <= Str.code c <= 51)%N.
Proof. apply inRange_code; reflexivity. Qed.

Lemma code_inj (a b : ascii) : Str.code a = Str.code b -> a = b.
Proof.
  unfold Str.code. intros H.
  rewrite <- (ascii_N_embedding a), <- (ascii_N_embedding b), H. reflexivity.
Qed.

Lemma digitVal_digit (c : ascii) :
  Str.isDigit c = true -> Num.digitVal c = Z.of_N (Str.code c) - 48.
Proof. intros H. unfold Num.digitVal. rewrite H. reflexivity. Qed.

Lemma timeRegex_shape (value : string) : timeRegex value = true <-> timeShape value.
Proof.
  unfold timeRegex, timeShape. split.
  - intros H.
    rewrite <- (string_of_list_ascii_of_string value).
    destruct (list_ascii_of_string value) as [| a [| b [| c [| d [| e [| f l]]]]]];
      try discriminate.
    + (* H:MM *)
      cbv beta zeta in H.
      apply andb_true_iff in H as [Ha H]. apply andb_true_iff in H as [H Hd].
      apply andb_true_iff in H as [Hcolon Hc].
      exists [a], [c; d]. cbn [app length forallb].
      apply Ascii.eqb_eq in Hcolon as ->.
      apply inRange_0_5 in Hc.
      assert (Hc' : Str.isDigit c = true) by (apply isDigit_code; lia).
      rewrite Ha, Hc', Hd. repeat split; auto.
      * unfold Num.digitsVal. cbn [fold_left]. rewrite (digitVal_digit a Ha).
        apply isDigit_code in Ha. lia.
      * unfold Num.digitsVal. cbn [fold_left].
        rewrite (digitVal_digit c Hc'), (digitVal_digit d Hd).
        apply isDigit_code in Hd. lia.
    + (* HH:MM *)
      cbv beta zeta in H.
      apply andb_true_iff in H as [Hab H]. apply andb_true_iff in H as [H He].
      apply andb_true_iff in H as [Hcolon Hd].
      exists [a; b], [d; e]. cbn [app length forallb].
      apply Ascii.eqb_eq in Hcolon as ->.
      apply inRange_0_5 in Hd.
      assert (Hd' : Str.isDigit d = true) by (apply isDigit_code; lia).
      assert (Hhour : Str.isDigit a = true /\ Str.isDigit b = true
                      /\ Num.digitsVal 10 [a; b] <= 23).
      { apply orb_true_iff in Hab as [Hab | Hab];
          apply andb_true_iff in Hab as [Ha Hb].
        - apply inRange_0_1 in Ha.
          assert (Ha' : Str.isDigit a = true) by (apply isDigit_code; lia).
          repeat split; auto.
          unfold Num.digitsVal. cbn [fold_left].
          rewrite (digitVal_digit a Ha'), (digitVal_digit b Hb).
          apply isDigit_code in Hb. lia.
        - apply Ascii.eqb_eq in Ha as ->. apply inRange_0_3 in Hb.
          assert (Hb' : Str.isDigit b = true) by (apply isDigit_code; lia).
          repeat split; auto.
          unfold Num.digitsVal. cbn [fold_left].
          rewrite (digitVal_digit b Hb'). change (Num.digitVal "2") with 2. lia. }
      destruct Hhour as (Ha & Hb & Hhour).
      rewrite Ha, Hb, Hd', He. repeat split; auto.
      unfold Num.digitsVal. cbn [fold_left].
      rewrite (digitVal_digit d Hd'), (digitVal_digit e He).
      apply isDigit_code in He. lia.
  - intros (hs & ms & -> & Hh & Hm & Hdigits & Hhour & Hminute).
    rewrite list_ascii_of_string_of_list_ascii.
    destruct ms as [| c [| d [| ? ?]]]; try discriminate.
    assert (Hmin : Str.isDigit c = true -> Str.isDigit d = true ->
               (Ascii.eqb ":" ":" && Str.inRange "0" "5" c && Str.isDigit d)%bool
               = true).
    { intros Hc Hd. rewrite Hd, andb_true_r. cbn [Ascii.eqb andb].
      apply inRange_0_5.
      unfold Num.digitsVal in Hminute. cbn [fold_left] in Hminute.
      rewrite (digitVal_digit c Hc), (digitVal_digit d Hd) in Hminute.
      apply isDigit_code in Hc, Hd. lia. }
    destruct Hh as [Hh | Hh].
    + destruct hs as [| a [| ? ?]]; try discriminate.
      cbn [app forallb] in *.
      apply andb_prop in Hdigits as [Ha Hdigits].
      apply andb_prop in Hdigits as [Hc Hdigits].
      apply andb_prop in Hdigits as [Hd _].
      rewrite Ha. apply (Hmin Hc Hd).
    + destruct hs as [| a [| b [| ? ?]]]; try discriminate.
      cbn [app forallb] in *.
      apply andb_prop in Hdigits as [Ha Hdigits].
      apply andb_prop in Hdigits as [Hb Hdigits].
      apply andb_prop in Hdigits as [Hc Hdigits].
      apply andb_prop in Hdigits as [Hd _].
      rewrite (Hmin Hc Hd), andb_true_r, Hb.
      unfold Num.digitsVal in Hhour. cbn [fold_left] in Hhour.
      rewrite (digitVal_digit a Ha), (digitVal_digit b Hb) in Hhour.
      apply isDigit_code in Ha, Hb.
      destruct (N.eq_dec (Str.code a) 50%N) as [Ha2 | Ha2].
      * apply orb_true_iff. right.
        assert (a = "2"%char) as -> by (apply code_inj; exact Ha2).
        cbn [Ascii.eqb andb]. apply inRange_0_3.
        change (Str.code "2") with 50%N in Hhour. lia.
      * apply orb_true_iff. left. rewrite andb_true_r.
        apply inRange_0_1. lia.
Qed.

(** X2. [validateTime] reports no error exactly for a text of the shape
    [H:MM] or [HH:MM] whose hour reads at most 23 and whose minute reads at
    most 59; and whatever it reports, it returns the text as it was
    given. *)
Theorem validateTime_accepts (value fieldName : string) (rowIndex : Z) :
  (Validated.error (validateTime value fieldName rowIndex) = None
   <-> timeShape value)
  /\ Validated.value (validateTime value fieldName rowIndex) = value.
Proof.
  unfold validateTime. destruct (String.eqb_spec value "") as [-> | Hne].
  - split; [| reflexivity]. split; [discriminate |].
    intros (hs & ms & H & _). destruct hs; discriminate.
  - rewrite <- timeRegex_shape.
    destruct (timeRegex value); cbn; split; try reflexivity;
      split; congruence.
Qed.

Lemma toLowerCase_empty (value : string) :
  Str.toLowerCase value = "" <-> value = "".
Proof. destruct value; cbn; split; congruence. Qed.

Lemma lowerChar_dash (c : ascii) : Str.lowerChar c = "-"%char <-> c = "-"%char.
Proof.
  split; [| intros ->; reflexivity].
  unfold Str.lowerChar.
  destruct ((65 <=? Str.code c) && (Str.code c <=? 90))%N eqn:Hupper;
    [| tauto].
  apply andb_true_iff in Hupper as [Hlo Hhi].
  apply N.leb_le in Hlo, Hhi. intros H.
  apply (f_equal N_of_ascii) in H.
  rewrite N_ascii_embedding in H by lia.
  change (N_of_ascii "-") with 45%N in H. lia.
Qed.

Lemma toLowerCase_dash (value : string) :
  Str.toLowerCase value = "-" <-> value = "-".
Proof.
  destruct value as [| c [| d value]]; unfold Str.toLowerCase;
    cbn [Str.mapChars]; split; try discriminate.
  - intros H. assert (Hc : Str.lowerChar c = "-"%char) by congruence.
    apply (proj1 (lowerChar_dash c)) in Hc. rewrite Hc. reflexivity.
  - intros H. assert (Hc : c = "-"%char) by congruence.
    rewrite Hc. reflexivity.
Qed.

Lemma validateBlackout_value (value fieldName : string) (rowIndex : Z) :
  Validated.value (validateBlackout value fieldName rowIndex)
  = blackoutOf (Str.toLowerCase value).
Proof.
  unfold validateBlackout.
  destruct (String.eqb_spec value "") as [-> | Hne1]; [reflexivity |].
  destruct (String.eqb_spec value "-") as [-> | Hne2]; [reflexivity |].
  cbn [orb]. unfold blackoutOf, trueWords, falseWords. cbn [existsb].
  rewrite !orb_false_r.
  repeat match goal with
    | |- context [String.eqb ?a ?b] =>
        destruct (String.eqb a b); cbn [orb]; try reflexivity
    end.
Qed.

Lemma validateBlackout_error (value fieldName : string) (rowIndex : Z) :
  Validated.error (validateBlackout value fieldName rowIndex) = None
  <-> value = "" \/ value = "-" \/ blackoutOf (Str.toLowerCase value) <> None.
Proof.
  unfold validateBlackout.
  destruct (String.eqb_spec value "") as [-> | Hne1]; [cbn; tauto |].
  destruct (String.eqb_spec value "-") as [-> | Hne2]; [cbn; tauto |].
  cbn [orb]. unfold blackoutOf, trueWords, falseWords. cbn [existsb].
  rewrite !orb_false_r.
  repeat match goal with
    | |- context [String.eqb ?a ?b] =>
        destruct (String.eqb a b); cbn [orb];
        try (split; [intros _; right; right; discriminate | reflexivity])
    end.
  cbn. split; [discriminate |].
  intros [H | [H | H]]; [contradiction | contradiction |].
  exfalso. apply H. reflexivity.
Qed.

(** X3. [validateBlackout] reads a cell by its lower-cased text alone:
    true for [true], [1], [yes], false for [false], [0], [no], unknown
    otherwise; so texts that differ only in the case of their letters are
    read alike. An unknown value comes with an error unless the cell is
    empty or a dash. *)
Theorem validateBlackout_reads (value other fieldName : string)
    (rowIndex : Z) :
  let result := validateBlackout value fieldName rowIndex in
  Validated.value result = blackoutOf (Str.toLowerCase value)
  /\ (Validated.error result = None
      <-> value = "" \/ value = "-" \/ Validated.value result <> None)
  /\ (Str.toLowerCase other = Str.toLowerCase value ->
      Validated.value (validateBlackout other fieldName rowIndex)
      = Validated.value result
      /\ (Validated.error (validateBlackout other fieldName rowIndex) = None
          <-> Validated.error result = None)).
Proof.
  cbv zeta.
  pose proof (validateBlackout_value value fieldName rowIndex) as Hv.
  pose proof (validateBlackout_error value fieldName rowIndex) as He.
  pose proof (validateBlackout_value other fieldName rowIndex) as Hv'.
  pose proof (validateBlackout_error other fieldName rowIndex) as He'.
  split; [exact Hv |]. split; [rewrite Hv; exact He |].
  intros Hsame. rewrite Hv, Hv', Hsame. split; [reflexivity |].
  rewrite Hsame in He'.
  assert (Hempty : other = "" <-> value = "").
  { split; intros H; apply toLowerCase_empty;
      [rewrite <- Hsame | rewrite Hsame]; apply toLowerCase_empty, H. }
  assert (Hdash : other = "-" <-> value = "-").
  { split; intros H; apply toLowerCase_dash;
      [rewrite <- Hsame | rewrite Hsame]; apply toLowerCase_dash, H. }
  split; intros H.
  - apply He. apply He' in H. tauto.
  - apply He'. apply He in H. tauto.
Qed.

Lemma dateRegex_shape (value : string) : dateRegex value = true <-> dateShape value.
Proof.
  unfold dateRegex, dateShape. split.
  - intros H. rewrite <- (string_of_list_ascii_of_string value).
    destruct (list_ascii_of_string value)
      as [| y1 [| y2 [| y3 [| y4 [| d1 [| m1 [| m2 [| d2 [| a1 [| a2 [| ? ?]]]]]]]]]]];
      try discriminate.
    apply andb_true_iff in H as [H Hd2]. apply andb_true_iff in H as [H Hd1].
    apply Ascii.eqb_eq in Hd1 as ->. apply Ascii.eqb_eq in Hd2 as ->.
    exists [y1; y2; y3; y4], [m1; m2], [a1; a2]. repeat split; auto.
  - intros (ys & ms & ds & -> & Hy & Hm & Hd & Hdigits).
    rewrite list_ascii_of_string_of_list_ascii.
    destruct ys as [| y1 [| y2 [| y3 [| y4 [| ? ?]]]]]; try discriminate.
    destruct ms as [| m1 [| m2 [| ? ?]]]; try discriminate.
    destruct ds as [| a1 [| a2 [| ? ?]]]; try discriminate.
    cbn [app] in *. rewrite Hdigits. reflexivity.
Qed.

(** X4. [validateDate] returns the text as it was given, whatever it
    reports. It reports a missing date exactly for the empty text, a
    format error exactly for a text that is not empty and not of the shape
    [dddd-dd-dd], a validation error exactly for a text of that shape that
    the host does not read as a date, and nothing otherwise: the shape sets
    no bound on the month or the day. *)
Theorem validateDate_reports (value fieldName : string) (rowIndex : Z) :
  let result := validateDate value fieldName rowIndex in
  let reported := option_map ParseError.type (Validated.error result) in
  Validated.value result = value
  /\ (reported = Some missing <-> value = "")
  /\ (reported = Some format <-> value <> "" /\ ~ dateShape value)
  /\ (reported = Some validation
      <-> dateShape value /\ Date_getTime value = None)
  /\ (reported = None <-> dateShape value /\ Date_getTime value <> None).
Proof.
  cbv zeta. unfold validateDate.
  assert (Hshape_ne : dateShape "" -> False).
  { intros (ys & ms & ds & H & Hy & _). destruct ys; discriminate. }
  destruct (String.eqb_spec value "") as [-> | Hne].
  - cbn. repeat split; try tauto; try discriminate;
      intros [H _]; try contradiction; exfalso; auto.
  - rewrite <- dateRegex_shape.
    destruct (dateRegex value) eqn:Hre; cbn [negb].
    + destruct (Date_getTime value) eqn:Ht; cbn;
        repeat split; try tauto; try discriminate; try congruence;
        intros [? ?]; congruence.
    + cbn. repeat split; try tauto; try discriminate; try congruence;
        intros [? ?]; congruence.
Qed.

(** X5. An empty cell gives the status code [0x00], with no error. A
    status code that [validateHex] passes with no error matches the
    pattern [0x] and hex digits, that default included; a cell that is
    not empty passes exactly when it matches, and is returned as it was
    given either way. *)
Theorem validateHex_wellformed (value fieldName : string) (rowIndex : Z) :
  let result := validateHex value fieldName rowIndex in
  (value = "" -> result = ok "0x00")
  /\ (Validated.error result = None -> hexRegex (Validated.value result) = true)
  /\ (Validated.error result = None <-> value = "" \/ hexRegex value = true)
  /\ (value <> "" -> Validated.value result = value).
Proof.
  cbv zeta. unfold validateHex.
  destruct (String.eqb_spec value "") as [-> | Hne].
  - cbn. repeat split; auto. contradiction.
  - destruct (hexRegex value) eqn:Hre; cbn; repeat split; auto;
      try discriminate; try contradiction. intros [H | H]; congruence.
Qed.

End MoreValidatorFacts.

(** ** Row Assembler: more properties *)

Section MoreRowFacts.
Context {numberFormat : NumberFormat} {dateHost : DateHost}.

Lemma validateDate_value (value fieldName : string) (rowIndex : Z) :
  Validated.value (validateDate value fieldName rowIndex) = value.
Proof.
  unfold validateDate. destruct (String.eqb_spec value "") as [-> | _];
    [reflexivity |].
  destruct (negb (dateRegex value)); [reflexivity |].
  destruct (Date_getTime value); reflexivity.
Qed.

Lemma validateTime_value (value fieldName : string) (rowIndex : Z) :
  Validated.value (validateTime value fieldName rowIndex) = value.
Proof.
  unfold validateTime. destruct (String.eqb_spec value "") as [-> | _];
    [reflexivity |].
  destruct (negb (timeRegex value)); reflexivity.
Qed.

(** An error of a validator carries the row number the validator was
    given. *)
Lemma validateNumber_row value fieldName min max rowIndex e :
  Validated.error (validateNumber value fieldName min max rowIndex) = Some e ->
  ParseError.row e = rowIndex.
Proof.
  unfold validateNumber.
  repeat match goal with
    | |- context [if ?c then _ else _] => destruct c
    end; simpl; intros H; inversion H; reflexivity.
Qed.

Lemma validateDate_row value fieldName rowIndex e :
  Validated.error (validateDate value fieldName rowIndex) = Some e ->
  ParseError.row e = rowIndex.
Proof.
  unfold validateDate.
  repeat match goal with
    | |- context [if ?c then _ else _] => destruct c
    | |- context [match Date_getTime ?v with _ => _ end] =>
        destruct (Date_getTime v)
    end; simpl; intros H; inversion H; reflexivity.
Qed.

Lemma validateTime_row value fieldName rowIndex e :
  Validated.error (validateTime value fieldName rowIndex) = Some e ->
  ParseError.row e = rowIndex.
Proof.
  unfold validateTime.
  repeat match goal with
    | |- context [if ?c then _ else _] => destruct c
    end; simpl; intros H; inversion H; reflexivity.
Qed.

Lemma validateBlackout_row value fieldName rowIndex e :
  Validated.error (validateBlackout value fieldName rowIndex) = Some e ->
  ParseError.row e = rowIndex.
Proof.
  unfold validateBlackout.
  repeat match goal with
    | |- context [if ?c then _ else _] => destruct c
    end; simpl; intros H; inversion H; reflexivity.
Qed.

Lemma validateHex_row value fieldName rowIndex e :
  Validated.error (validateHex value fieldName rowIndex) = Some e ->
  ParseError.row e = rowIndex.
Proof.
  unfold validateHex.
  repeat match goal with
    | |- context [if ?c then _ else _] => destruct c
    end; simpl; intros H; inversion H; reflexivity.
Qed.

Lemma validateHex_clean (value fieldName : string) (rowIndex : Z) :
  Validated.error (validateHex value fieldName rowIndex) = None ->
  hexRegex (Validated.value (validateHex value fieldName rowIndex)) = true.
Proof.
  unfold validateHex. destruct (String.eqb value ""); [reflexivity |].
  destruct (hexRegex value) eqn:Hre; cbn; [auto | discriminate].
Qed.

Lemma pushError_Forall {T} (P : ParseError.t -> Prop)
    (errors : list ParseError.t) (v : Validated.t T) :
  (forall e, Validated.error v = Some e -> P e) ->
  Forall P errors -> Forall P (pushError errors v).
Proof.
  intros Hv Herrors. unfold pushError.
  destruct (Validated.error v) as [e |]; [| exact Herrors].
  apply Forall_app. split; [exact Herrors |].
  constructor; [apply Hv; reflexivity | constructor].
Qed.

Lemma pushError_length {T} (errors : list ParseError.t) (v : Validated.t T)
    (n : nat) :
  (length errors <= n)%nat -> (length (pushError errors v) <= S n)%nat.
Proof.
  intros H. unfold pushError. destruct (Validated.error v); [| lia].
  rewrite length_app. cbn. lia.
Qed.

Lemma pushError_nil {T} (errors : list ParseError.t) (v : Validated.t T) :
  pushError errors v = [] -> errors = [] /\ Validated.error v = None.
Proof.
  unfold pushError. destruct (Validated.error v); [| auto].
  intros H. apply app_eq_nil in H as [_ H]. discriminate.
Qed.

(** The three ways [createTimestamp] ends. *)
Lemma createTimestamp_cases (date time : string) (rowIndex : Z) :
  let dateValidation := validateDate date "Date" rowIndex in
  let timeValidation := validateTime time "Time" rowIndex in
  let pushed := pushError (pushError [] dateValidation) timeValidation in
  (exists t,
      Date_getTime (date +:+ "T" +:+ time +:+ ":00") = Some t
      /\ pushed = []
      /\ createTimestamp date time rowIndex
         = (Timestamp.mk date time (Some (Date_toISOString t)), []))
  \/ (Date_getTime (date +:+ "T" +:+ time +:+ ":00") = None
      /\ pushed = []
      /\ createTimestamp date time rowIndex
         = (Timestamp.mk date time None,
            [ParseError.mk rowIndex "datetime" (date +:+ " " +:+ time)
               "Failed to create valid datetime" conversion]))
  \/ (pushed <> []
      /\ createTimestamp date time rowIndex
         = (Timestamp.mk date time None, pushed)).
Proof.
  cbv zeta. unfold createTimestamp.
  rewrite !validateDate_value, !validateTime_value.
  unfold pushError.
  destruct (Validated.error (validateDate date "Date" rowIndex)) as [ed |];
    destruct (Validated.error (validateTime time "Time" rowIndex)) as [et |];
    cbn [app].
  - right. right. split; [discriminate | reflexivity].
  - right. right. split; [discriminate | reflexivity].
  - right. right. split; [discriminate | reflexivity].
  - destruct (Date_getTime _) as [t |] eqn:Ht.
    + left. exists t. auto.
    + right. left. auto.
Qed.

(** X6. [createTimestamp] keeps the date and the time as they were given.
    The combined instant is present exactly when no error is reported; it
    is then the ISO form of the instant the host reads from the date, a
    [T], the time and [:00]. At most two errors are reported. *)
Theorem createTimestamp_datetime (date time : string) (rowIndex : Z) :
  let timestamp := fst (createTimestamp date time rowIndex) in
  let errors := snd (createTimestamp date time rowIndex) in
  Timestamp.date timestamp = date
  /\ Timestamp.time timestamp = time
  /\ (is_Some (Timestamp.datetime timestamp) <-> errors = [])
  /\ (forall datetime, Timestamp.datetime timestamp = Some datetime ->
      exists t,
        Date_getTime (date +:+ "T" +:+ time +:+ ":00") = Some t
        /\ datetime = Date_toISOString t)
  /\ (length errors <= 2)%nat.
Proof.
  cbv zeta.
  destruct (createTimestamp_cases date time rowIndex)
    as [(t & Ht & Hp & ->) | [(Ht & Hp & ->) | (Hp & ->)]];
    cbn [fst snd Timestamp.date Timestamp.time Timestamp.datetime length].
  - split; [reflexivity |]. split; [reflexivity |]. split; [| split].
    + split; [reflexivity | eexists; reflexivity].
    + intros datetime [= <-]. exists t. auto.
    + lia.
  - split; [reflexivity |]. split; [reflexivity |]. split; [| split].
    + split; [intros [? H]; discriminate H | discriminate].
    + discriminate.
    + lia.
  - split; [reflexivity |]. split; [reflexivity |]. split; [| split].
    + split; [intros [? H]; discriminate H | contradiction].
    + discriminate.
    + apply (pushError_length _ _ 1), (pushError_length _ _ 0). cbn. lia.
Qed.

Lemma createTimestamp_clean (date time : string) (rowIndex : Z) :
  snd (createTimestamp date time rowIndex) = [] ->
  is_Some (Timestamp.datetime (fst (createTimestamp date time rowIndex)))
  /\ Validated.error (validateDate date "Date" rowIndex) = None.
Proof.
  destruct (createTimestamp_cases date time rowIndex)
    as [(t & Ht & Hp & ->) | [(Ht & Hp & ->) | (Hp & ->)]]; cbn [fst snd].
  - intros _. split; [eexists; reflexivity |].
    apply pushError_nil in Hp as [Hp _]. apply pushError_nil in Hp as [_ Hp].
    exact Hp.
  - discriminate.
  - intros H. contradiction.
Qed.

Lemma createTimestamp_rows (date time : string) (rowIndex : Z) :
  Forall (fun e => ParseError.row e = rowIndex)
    (snd (createTimestamp date time rowIndex)).
Proof.
  assert (Hpushed :
    Forall (fun e => ParseError.row e = rowIndex)
      (pushError (pushError [] (validateDate date "Date" rowIndex))
         (validateTime time "Time" rowIndex))).
  { apply pushError_Forall; [apply validateTime_row |].
    apply pushError_Forall; [apply validateDate_row | constructor]. }
  destruct (createTimestamp_cases date time rowIndex)
    as [(t & Ht & Hp & ->) | [(Ht & Hp & ->) | (Hp & ->)]]; cbn [snd].
  - constructor.
  - constructor; [reflexivity | constructor].
  - exact Hpushed.
Qed.

Lemma createTimestamp_length (date time : string) (rowIndex : Z) :
  (length (snd (createTimestamp date time rowIndex)) <= 2)%nat.
Proof.
  destruct (createTimestamp_cases date time rowIndex)
    as [(t & Ht & Hp & ->) | [(Ht & Hp & ->) | (Hp & ->)]]; cbn [snd length];
    try lia.
  apply (pushError_length _ _ 1), (pushError_length _ _ 0). cbn. lia.
Qed.

Ltac validator_row :=
  first [ apply validateNumber_row | apply validateDate_row
        | apply validateTime_row | apply validateBlackout_row
        | apply validateHex_row ].

Lemma assembleRow_rows (row : Papa.Row) (rowIndex : Z) :
  Forall (fun e => ParseError.row e = rowIndex) (snd (assembleRow row rowIndex)).
Proof.
  unfold assembleRow. cbv zeta. cbn [snd fold_left app].
  repeat (apply pushError_Forall; [solve [validator_row] |]).
  apply createTimestamp_rows.
Qed.

Lemma assembleRow_length (row : Papa.Row) (rowIndex : Z) :
  (length (snd (assembleRow row rowIndex)) <= 22)%nat.
Proof.
  unfold assembleRow. cbv zeta. cbn [snd fold_left app].
  do 20 apply pushError_length.
  apply createTimestamp_length.
Qed.

(** X7. Every error of a row carries the number of that row, and a row
    raises at most 23 errors; the bound is reached by a row with no id, no
    date and a rejected text in every other cell. *)
Theorem parseRow_errors_bounded (row : Papa.Row) (rowIndex : Z) :
  Forall (fun e => ParseError.row e = rowIndex)
    (RowResult.errors (parseRow row rowIndex))
  /\ (length (RowResult.errors (parseRow row rowIndex)) <= 23)%nat
  /\ length (RowResult.errors (parseRow worstRow rowIndex)) = 23%nat.
Proof.
  split; [| split].
  - rewrite parseRow_unfold. destruct (dropped row); cbn [RowResult.errors].
    + apply Forall_app. split; [apply assembleRow_rows |].
      constructor; [reflexivity | constructor].
    + apply assembleRow_rows.
  - pose proof (assembleRow_length row rowIndex) as Hlen.
    rewrite parseRow_unfold. destruct (dropped row); cbn [RowResult.errors].
    + rewrite length_app. cbn [length]. lia.
    + lia.
  - rewrite parseRow_unfold. reflexivity.
Qed.

Lemma validateNumber_zeroOrWithin (value fieldName : string)
    (range : ValidationRules.range) (rowIndex : Z) :
  Num.le (ValidationRules.min range) (ValidationRules.max range) = true ->
  Validated.error
    (validateNumber value fieldName (ValidationRules.min range)
       (ValidationRules.max range) rowIndex) = None ->
  zeroOrWithin
    (Validated.value
       (validateNumber value fieldName (ValidationRules.min range)
          (ValidationRules.max range) rowIndex), range).
Proof.
  intros Hle Herr.
  destruct (validateNumber_clean value fieldName _ _ rowIndex Hle Herr)
    as [[_ H] | [_ H]]; [left | right]; exact H.
Qed.

(** X8. A row that raises no error yields a record; its combined instant
    is present, its status code matches the hex pattern, and each of its
    numbers is 0 (a blank cell) or within the range of its validator. *)
Theorem parseRow_clean (row : Papa.Row) (rowIndex : Z) :
  RowResult.errors (parseRow row rowIndex) = [] ->
  exists record,
    RowResult.record (parseRow row rowIndex) = Some record
    /\ is_Some
         (Timestamp.datetime
            (UserRecord.timestamp (InverterRecord.userRecord record)))
    /\ hexRegex (SystemStatus.hex (InverterRecord.status record)) = true
    /\ Forall zeroOrWithin (fieldRanges record).
Proof.
  rewrite parseRow_unfold. destruct (dropped row); cbn [RowResult.errors].
  { intros H. apply app_eq_nil in H as [_ H]. discriminate. }
  intros Herrors. exists (fst (assembleRow row rowIndex)).
  split; [reflexivity |].
  revert Herrors. unfold assembleRow. cbv zeta. cbn [snd fold_left app fst].
  intros Herrors.
  repeat match type of Herrors with
    | pushError _ _ = [] =>
        let H := fresh "Hv" in apply pushError_nil in Herrors as [Herrors H]
    end.
  split; [apply createTimestamp_clean, Herrors |].
  split.
  - cbn [InverterRecord.status SystemStatus.hex].
    apply (validateHex_clean _ _ _ Hv).
  - unfold fieldRanges.
    cbn [InverterRecord.pv InverterRecord.battery InverterRecord.inverter
         InverterRecord.grid InverterRecord.inverterSupply
         InverterSupply.totalKWh PVData.voltage PVData.current PVData.powerW
         PVData.dailyWh PVData.monthlyWd PVData.yearlyWm PVData.totalKWh
         BatteryData.voltage BatteryData.current BatteryData.temperature
         BatteryData.soc InverterData.voltage InverterData.current
         InverterData.frequency GridData.voltage GridData.current
         GridData.frequency].
    repeat (constructor;
            [apply validateNumber_zeroOrWithin; [reflexivity | assumption] |]).
    constructor.
Qed.

Lemma assembleRow_no_NaN (row : Papa.Row) (rowIndex : Z) :
  Forall (fun fv => Num.isNaN (snd fv) = false)
    (numericFields (fst (assembleRow row rowIndex))).
Proof.
  unfold numericFields, assembleRow. cbv zeta.
  cbn [fst InverterRecord.pv InverterRecord.battery InverterRecord.inverter
       InverterRecord.grid InverterRecord.inverterSupply
       InverterSupply.totalKWh PVData.voltage PVData.current PVData.powerW
       PVData.dailyWh PVData.monthlyWd PVData.yearlyWm PVData.totalKWh
       BatteryData.voltage BatteryData.current BatteryData.temperature
       BatteryData.soc InverterData.voltage InverterData.current
       InverterData.frequency GridData.voltage GridData.current
       GridData.frequency].
  repeat (constructor; [apply validateNumber_not_NaN |]).
  constructor.
Qed.

(** X9. No number of a record built by [parseRow] is NaN. *)
Theorem parseRow_no_NaN (row : Papa.Row) (rowIndex : Z)
    (record : InverterRecord.t) :
  RowResult.record (parseRow row rowIndex) = Some record ->
  Forall (fun fv => Num.isNaN (snd fv) = false) (numericFields record).
Proof.
  rewrite parseRow_unfold. destruct (dropped row); [discriminate |].
  cbn [RowResult.record]. intros H.
  assert (Hr : record = fst (assembleRow row rowIndex)) by congruence.
  rewrite Hr. apply assembleRow_no_NaN.
Qed.

End MoreRowFacts.

(** ** Grouping in insertion order *)

Section Grouping.
Context {A B : Type} (key : B -> A) (eqb : A -> A -> bool).
Hypothesis eqb_spec : forall x y, eqb x y = true <-> x = y.

Lemma existsb_eqb_In (x : A) (l : list A) : existsb (eqb x) l = true <-> In x l.
Proof.
  rewrite existsb_exists. split.
  - intros (y & Hy & Heq). apply eqb_spec in Heq. subst. exact Hy.
  - intros H. exists x. split; [exact H | apply eqb_spec; reflexivity].
Qed.

Lemma distinct_snoc (l : list A) (x : A) :
  distinct eqb (l ++ [x])
  = if existsb (eqb x) (distinct eqb l) then distinct eqb l
    else distinct eqb l ++ [x].
Proof. unfold distinct. rewrite fold_left_app. reflexivity. Qed.

Lemma distinct_In (l : list A) (x : A) : In x (distinct eqb l) <-> In x l.
Proof.
  revert x. induction l as [| y l IH] using rev_ind; intros x; [reflexivity |].
  rewrite distinct_snoc.
  destruct (existsb (eqb y) (distinct eqb l)) eqn:Hy.
  - apply existsb_eqb_In, IH in Hy. rewrite IH, in_app_iff. cbn [In].
    split; [tauto |]. intros [H | [<- | []]]; assumption.
  - rewrite !in_app_iff, IH. reflexivity.
Qed.

Lemma distinct_NoDup (l : list A) : NoDup (distinct eqb l).
Proof.
  induction l as [| y l IH] using rev_ind; [constructor |].
  rewrite distinct_snoc.
  destruct (existsb (eqb y) (distinct eqb l)) eqn:Hy; [exact IH |].
  apply NoDup_app. split; [exact IH |]. split.
  - intros x Hx Hxy. apply list_elem_of_In in Hx, Hxy.
    destruct Hxy as [<- | []].
    apply existsb_eqb_In in Hx. congruence.
  - apply NoDup_singleton.
Qed.

Lemma existsb_fst_groupsOf (x : A) (l : list B) :
  existsb (fun g => eqb (fst g) x) (groupsOf key eqb l)
  = existsb (eqb x) (distinct eqb (map key l)).
Proof.
  unfold groupsOf. generalize (distinct eqb (map key l)) as keys.
  induction keys as [| a keys IH]; [reflexivity |].
  cbn [map existsb fst]. rewrite IH. f_equal.
  destruct (eqb a x) eqn:H1, (eqb x a) eqn:H2; try reflexivity.
  - apply eqb_spec in H1. subst. rewrite (proj2 (eqb_spec x x) eq_refl) in H2.
    discriminate.
  - apply eqb_spec in H2. subst. rewrite (proj2 (eqb_spec a a) eq_refl) in H1.
    discriminate.
Qed.

Lemma filter_key_absent (a : A) (l : list B) :
  ~ In a (map key l) -> List.filter (fun b => eqb a (key b)) l = [].
Proof.
  induction l as [| b l IH]; [reflexivity |]. cbn [map In List.filter].
  intros H. destruct (eqb a (key b)) eqn:Hab.
  - apply eqb_spec in Hab. exfalso. apply H. left. symmetry. exact Hab.
  - apply IH. tauto.
Qed.

(** Pushing the elements one by one builds the groups of the closed
    form. *)
Lemma fold_pushBy (l : list B) :
  fold_left (pushBy key eqb) l [] = groupsOf key eqb l.
Proof.
  induction l as [| b l IH] using rev_ind; [reflexivity |].
  rewrite fold_left_app, IH. cbn [fold_left]. unfold pushBy.
  rewrite existsb_fst_groupsOf.
  unfold groupsOf. rewrite (List.map_app key). cbn [map]. rewrite distinct_snoc.
  destruct (existsb (eqb (key b)) (distinct eqb (map key l))) eqn:Hseen.
  - rewrite List.map_map. apply List.map_ext.
    intros a. cbn [fst snd]. rewrite List.filter_app. cbn [List.filter].
    destruct (eqb a (key b)); [reflexivity | rewrite app_nil_r; reflexivity].
  - rewrite !List.map_app. cbn [map]. f_equal.
    + rewrite List.map_map. apply List.map_ext_in.
      intros a Ha. cbn [fst snd]. rewrite List.filter_app. cbn [List.filter].
      destruct (eqb a (key b)) eqn:Hab; [| rewrite app_nil_r; reflexivity].
      apply eqb_spec in Hab. subst a.
      apply existsb_eqb_In in Ha. congruence.
    + cbn [fst snd]. rewrite (proj2 (eqb_spec (key b) (key b)) eq_refl).
      rewrite List.filter_app. cbn [List.filter].
      rewrite (proj2 (eqb_spec (key b) (key b)) eq_refl).
      rewrite filter_key_absent; [reflexivity |].
      intros Hin. apply distinct_In, existsb_eqb_In in Hin. congruence.
Qed.

Lemma sum_indicator (x : A) (keys : list A) :
  NoDup keys ->
  total (map (fun a => if eqb a x then 1 else 0)%nat keys)
  = (if existsb (eqb x) keys then 1 else 0)%nat.
Proof.
  intros Hnd. induction Hnd as [| a keys Ha Hnd IH]; [reflexivity |].
  cbn [map total existsb]. rewrite IH.
  destruct (eqb a x) eqn:Hax.
  - apply eqb_spec in Hax. subst a.
    rewrite (proj2 (eqb_spec x x) eq_refl). cbn [orb].
    destruct (existsb (eqb x) keys) eqn:Hin; [| reflexivity].
    apply existsb_eqb_In, list_elem_of_In in Hin. contradiction.
  - destruct (eqb x a) eqn:Hxa; [| reflexivity].
    apply eqb_spec in Hxa. subst a.
    rewrite (proj2 (eqb_spec x x) eq_refl) in Hax. discriminate.
Qed.

Lemma total_plus {K : Type} (f g : K -> nat) (keys : list K) :
  total (map (fun a => f a + g a)%nat keys)
  = (total (map f keys) + total (map g keys))%nat.
Proof.
  induction keys as [| a keys IH]; [reflexivity |].
  cbn [map total]. rewrite IH. lia.
Qed.

(** The sizes of the groups under keys that differ add up to the number
    of elements under one of the keys. *)
Lemma sizes_by_keys (l : list B) (keys : list A) :
  NoDup keys ->
  total (map (fun a => length (List.filter (fun b => eqb a (key b)) l)) keys)
  = length (List.filter (fun b => existsb (eqb (key b)) keys) l).
Proof.
  intros Hnd. induction l as [| b l IH].
  - cbn [List.filter length]. induction keys; [reflexivity |].
    cbn [map total]. apply IHkeys.
    apply NoDup_cons in Hnd. tauto.
  - cbn [List.filter].
    rewrite (List.map_ext
               (fun a =>
                  length (if eqb a (key b)
                          then b :: List.filter (fun b0 => eqb a (key b0)) l
                          else List.filter (fun b0 => eqb a (key b0)) l))
               (fun a =>
                  (if eqb a (key b) then 1 else 0)
                  + length (List.filter (fun b0 => eqb a (key b0)) l))%nat)
      by (intros a; destruct (eqb a (key b)); reflexivity).
    rewrite total_plus, IH, (sum_indicator _ _ Hnd).
    destruct (existsb (eqb (key b)) keys); reflexivity.
Qed.

(** The groups hold every element once: their sizes add up to the size
    of the list. *)
Lemma groupsOf_sizes (l : list B) :
  total (map (fun g => length (snd g)) (groupsOf key eqb l)) = length l.
Proof.
  unfold groupsOf. rewrite List.map_map. cbn [snd].
  rewrite (sizes_by_keys _ _ (distinct_NoDup (map key l))).
  f_equal. apply forallb_filter_id. apply forallb_forall. intros b Hb.
  apply existsb_eqb_In, distinct_In, in_map, Hb.
Qed.

End Grouping.

Section GroupingMore.
Context {A B : Type} (key : B -> A) (eqb : A -> A -> bool).
Hypothesis eqb_spec : forall x y, eqb x y = true <-> x = y.

Lemma groupsOf_keys (l : list B) :
  map fst (groupsOf key eqb l) = distinct eqb (map key l).
Proof.
  unfold groupsOf. rewrite List.map_map. cbn [fst]. apply List.map_id.
Qed.

Lemma groupsOf_nonempty (l : list B) :
  Forall (fun g => snd g <> []) (groupsOf key eqb l).
Proof.
  unfold groupsOf. apply Forall_map. apply List.Forall_forall.
  intros a Ha. cbn [snd].
  apply (distinct_In eqb eqb_spec), in_map_iff in Ha as (b & <- & Hb).
  intros Hnil.
  assert (Hin : In b (List.filter (fun b0 => eqb (key b) (key b0)) l)).
  { apply filter_In. split; [exact Hb | apply eqb_spec; reflexivity]. }
  rewrite Hnil in Hin. destruct Hin.
Qed.

Lemma fold_left_skip (p : B -> bool) (f : list (A * list B) -> B -> list (A * list B))
    (l : list B) :
  forall groups,
    fold_left (fun groups b => if p b then f groups b else groups) l groups
    = fold_left f (List.filter p l) groups.
Proof.
  induction l as [| b l IH]; intros groups; [reflexivity |].
  cbn [fold_left List.filter]. destruct (p b); apply IH.
Qed.

End GroupingMore.

Lemma fold_left_pointwise {S T : Type} (f g : S -> T -> S) (l : list T) :
  (forall s t, f s t = g s t) ->
  forall s, fold_left f l s = fold_left g l s.
Proof.
  intros Hfg. induction l as [| t l IH]; intros s; [reflexivity |].
  cbn [fold_left]. rewrite Hfg. apply IH.
Qed.

(** ** Error Formatter: more properties *)

Lemma ErrorType_eqb_spec (x y : ErrorType) : ErrorType_eqb x y = true <-> x = y.
Proof. destruct x, y; cbn; split; congruence. Qed.

Lemma errorsByType_groupsOf (errors : list ParseError.t) :
  fold_left groupError errors []
  = groupsOf ParseError.type ErrorType_eqb errors.
Proof.
  rewrite <- (fold_pushBy ParseError.type ErrorType_eqb ErrorType_eqb_spec).
  apply fold_left_pointwise. intros acc e. reflexivity.
Qed.

Lemma append_nil_r (s : string) : s +:+ "" = s.
Proof.
  induction s as [| c s IH]; [reflexivity |].
  change (String c (s +:+ "") = String c s). f_equal. exact IH.
Qed.

Lemma append_assoc (s t u : string) : (s +:+ t) +:+ u = s +:+ (t +:+ u).
Proof.
  induction s as [| c s IH]; [reflexivity |].
  change (String c ((s +:+ t) +:+ u) = String c (s +:+ (t +:+ u))).
  f_equal. exact IH.
Qed.

Lemma concat_cons (s : string) (l : list string) :
  Str.concat (s :: l) = s +:+ Str.concat l.
Proof.
  unfold Str.concat. cbn [String.concat]. destruct l as [| t l].
  - cbn [String.concat]. symmetry. apply append_nil_r.
  - reflexivity.
Qed.

Lemma fold_left_append {T : Type} (f : T -> string) (l : list T) :
  forall init : string,
    fold_left (fun message g => message +:+ f g) l init
    = init +:+ Str.concat (map f l).
Proof.
  induction l as [| g l IH]; intros init.
  - cbn. symmetry. apply append_nil_r.
  - cbn [fold_left map]. rewrite IH, concat_cons, append_assoc.
    reflexivity.
Qed.

(** X10. The summary of a list of errors that is not empty: the line of
    the total, then one block for each type that occurs, in the order the
    types first occur, each made from the errors of that type in the order
    of the list. No type has two blocks, no block is empty, and the counts
    of the blocks add up to the total. *)
Theorem formatParseErrors_blocks (errors : list ParseError.t) :
  errors <> [] ->
  let groups := groupsOf ParseError.type ErrorType_eqb errors in
  formatParseErrors errors
  = ("Found " +:+ Str.ofNat (length errors) +:+ " error(s):" +:+ newline)
    +:+ Str.concat (map formatGroup groups)
  /\ NoDup (map fst groups)
  /\ Forall (fun g => snd g <> []) groups
  /\ total (map (fun g => length (snd g)) groups) = length errors.
Proof.
  intros Hne groups. split; [| split; [| split]].
  - unfold formatParseErrors. destruct errors as [| e errors]; [contradiction |].
    rewrite errorsByType_groupsOf. apply fold_left_append.
  - unfold groups. rewrite groupsOf_keys.
    apply (distinct_NoDup _ ErrorType_eqb_spec).
  - apply (groupsOf_nonempty _ _ ErrorType_eqb_spec).
  - apply (groupsOf_sizes _ _ ErrorType_eqb_spec).
Qed.

(** ** Parse Orchestrator: more properties *)

Section MoreParseFacts.
Context {numberFormat : NumberFormat} {dateHost : DateHost}
        {tokenizer : Tokenizer}.

Lemma parseRow_rows_bound (row : Papa.Row) (rowIndex : Z) :
  Forall (fun e => ParseError.row e = rowIndex)
    (RowResult.errors (parseRow row rowIndex))
  /\ (length (RowResult.errors (parseRow row rowIndex)) <= 23)%nat.
Proof.
  pose proof (assembleRow_length row rowIndex) as Hlen.
  rewrite parseRow_unfold. destruct (dropped row); cbn [RowResult.errors].
  - split.
    + apply Forall_app. split; [apply assembleRow_rows |].
      constructor; [reflexivity | constructor].
    + rewrite length_app. cbn [length]. lia.
  - split; [apply assembleRow_rows | lia].
Qed.

(** The loop over the rows, in closed form. *)
Lemma parseRows_closed (rows : list Papa.Row) :
  forall (index : nat) records allErrors,
    parseRows rows index records allErrors
    = (records
       ++ omap RowResult.record
            (imap (fun i row => parseRow row (Z.of_nat (index + i) + 2)) rows),
       allErrors
       ++ concat
            (map RowResult.errors
               (imap (fun i row => parseRow row (Z.of_nat (index + i) + 2)) rows))).
Proof.
  induction rows as [| row rows IH]; intros index records allErrors.
  - cbn. rewrite !app_nil_r. reflexivity.
  - cbn [parseRows]. cbv zeta. rewrite IH. rewrite imap_cons.
    cbn [omap list_omap map concat]. rewrite Nat.add_0_r.
    rewrite (imap_ext
               ((fun i row0 => parseRow row0 (Z.of_nat (index + i) + 2)) ∘ S)
               (fun i row0 => parseRow row0 (Z.of_nat (S index + i) + 2)))
      by (intros i x _; unfold compose; f_equal; lia).
    destruct (RowResult.record (parseRow row (Z.of_nat index + 2)));
      rewrite <- ?app_assoc; reflexivity.
Qed.

Lemma parseCSV_closed (csvContent : string) (results : Papa.ParseResult) :
  Papa_parse csvContent transformHeader = Papa.complete results ->
  parseCSV csvContent
  = ParseResult.mk
      (omap RowResult.record (rowResults (Papa.data results)))
      (concat (map RowResult.errors (rowResults (Papa.data results)))
       ++ map papaError (Papa.errors results))
      (length (Papa.data results))
      (length (omap RowResult.record (rowResults (Papa.data results)))).
Proof.
  intros Hparse. unfold parseCSV. rewrite Hparse, parseRows_closed.
  reflexivity.
Qed.

(** X11. When the tokenizer completes, [parseCSV] is the row-by-row parse
    put together: row [i] (from 0) is parsed under the row number [i + 2];
    [data] holds the records of the accepted rows in row order; [errors]
    holds the errors of the rows in row order, followed by the errors of
    the tokenizer; [totalRows] counts the rows. *)
Theorem parseCSV_by_rows (csvContent : string) (results : Papa.ParseResult) :
  Papa_parse csvContent transformHeader = Papa.complete results ->
  let parsed :=
    imap (fun index row => parseRow row (Z.of_nat index + 2))
      (Papa.data results) in
  ParseResult.data (parseCSV csvContent) = omap RowResult.record parsed
  /\ ParseResult.errors (parseCSV csvContent)
     = concat (map RowResult.errors parsed)
       ++ map papaError (Papa.errors results)
  /\ ParseResult.totalRows (parseCSV csvContent) = length (Papa.data results).
Proof.
  intros Hparse parsed. rewrite (parseCSV_closed _ _ Hparse).
  repeat split.
Qed.

Lemma StronglySorted_const_app (a : Z) (xs ys : list Z) :
  Forall (fun x => x = a) xs -> Forall (fun y => a <= y) ys ->
  StronglySorted Z.le ys -> StronglySorted Z.le (xs ++ ys).
Proof.
  intros Hxs Hys Hsorted.
  induction Hxs as [| x xs -> Hxs IH]; [exact Hsorted |].
  cbn [app]. constructor; [exact IH |].
  apply Forall_app. split; [| exact Hys].
  eapply List.Forall_impl; [| exact Hxs]. cbn. intros y ->. lia.
Qed.

Lemma rowResults_rows (rows : list Papa.Row) (from : nat) :
  let errors :=
    concat (map RowResult.errors
              (imap (fun i row => parseRow row (Z.of_nat (from + i) + 2)) rows)) in
  Forall (fun e => Z.of_nat from + 2 <= ParseError.row e
                   < Z.of_nat from + 2 + Z.of_nat (length rows)) errors
  /\ StronglySorted Z.le (map ParseError.row errors).
Proof.
  revert from. induction rows as [| row rows IH]; intros from; cbv zeta.
  - cbn. split; constructor.
  - rewrite imap_cons. cbn [map concat length].
    rewrite (imap_ext
               ((fun i row0 => parseRow row0 (Z.of_nat (from + i) + 2)) ∘ S)
               (fun i row0 => parseRow row0 (Z.of_nat (S from + i) + 2)))
      by (intros i x _; unfold compose; f_equal; lia).
    destruct (IH (S from)) as [Hbounds Hsorted]. cbv zeta in Hbounds, Hsorted.
    rewrite Nat.add_0_r.
    pose proof (proj1 (parseRow_rows_bound row (Z.of_nat from + 2))) as Hrow.
    split.
    + apply Forall_app. split.
      * eapply List.Forall_impl; [| exact Hrow]. cbn. intros e ->. lia.
      * eapply List.Forall_impl; [| exact Hbounds]. cbn. intros e He. lia.
    + rewrite List.map_app.
      apply (StronglySorted_const_app (Z.of_nat from + 2)).
      * apply Forall_map. exact Hrow.
      * apply Forall_map. eapply List.Forall_impl; [| exact Hbounds].
        cbn. intros e He. lia.
      * exact Hsorted.
Qed.

(** X12. In the result of a completed parse, the errors of the rows come
    first, in ascending order of row number, each with a row number from 2
    to [totalRows + 1]; the errors of the tokenizer follow, each under the
    field [parsing] and never under row 1. *)
Theorem parseCSV_error_rows (csvContent : string) (results : Papa.ParseResult) :
  Papa_parse csvContent transformHeader = Papa.complete results ->
  exists rowErrors,
    ParseResult.errors (parseCSV csvContent)
    = rowErrors ++ map papaError (Papa.errors results)
    /\ Forall (fun e => 2 <= ParseError.row e
                        <= Z.of_nat (ParseResult.totalRows (parseCSV csvContent)) + 1)
         rowErrors
    /\ StronglySorted Z.le (map ParseError.row rowErrors)
    /\ Forall (fun e => ParseError.field e = "parsing" /\ ParseError.row e <> 1)
         (map papaError (Papa.errors results)).
Proof.
  intros Hparse. rewrite (parseCSV_closed _ _ Hparse).
  cbn [ParseResult.errors ParseResult.totalRows].
  exists (concat (map RowResult.errors (rowResults (Papa.data results)))).
  destruct (rowResults_rows (Papa.data results) 0) as [Hbounds Hsorted].
  cbv zeta in Hbounds, Hsorted. cbn [Nat.add] in Hbounds, Hsorted.
  split; [reflexivity |]. split; [| split].
  - eapply List.Forall_impl; [| exact Hbounds]. cbn. intros e He. lia.
  - exact Hsorted.
  - apply Forall_map. apply List.Forall_forall. intros e _.
    unfold papaError. cbn [ParseError.field ParseError.row].
    split; [reflexivity |].
    destruct (Papa.row e) as [r |]; [| discriminate].
    destruct (Z.eqb_spec r 0); [discriminate | lia].
Qed.

End MoreParseFacts.

(** ** Aggregation Engine: more properties *)

Section MoreAggregationFacts.
Context {dateHost : DateHost}.

Lemma string_eqb_spec (x y : string) : String.eqb x y = true <-> x = y.
Proof. apply String.eqb_eq. Qed.

(** The groups of [groupByTimeInterval], in closed form. *)
Lemma groupByTimeInterval_groupsOf (records : list InverterRecord.t)
    (interval : Interval) :
  groupByTimeInterval records interval
  = groupsOf (periodOf interval) String.eqb (List.filter dated records).
Proof.
  rewrite <- (fold_pushBy (periodOf interval) String.eqb string_eqb_spec).
  rewrite <- (fold_left_skip dated).
  unfold groupByTimeInterval. apply fold_left_pointwise.
  intros groups record. unfold dated, periodOf, pushBy, pushGroup.
  destruct (Timestamp.datetime _) as [datetime |]; [| reflexivity].
  destruct (String.eqb datetime ""); reflexivity.
Qed.

Lemma aggregateData_groupsOf (records : list InverterRecord.t)
    (options : AggregationOptions.t) :
  aggregateData records options
  = map (aggregateGroup options)
      (groupsOf (periodOf (AggregationOptions.interval options)) String.eqb
         (List.filter dated records)).
Proof.
  unfold aggregateData. destruct records as [| record records];
    [reflexivity |].
  rewrite groupByTimeInterval_groupsOf. reflexivity.
Qed.

Lemma aggregateGroup_period options g :
  AggregatedData.period (aggregateGroup options g) = fst g.
Proof. destruct g. reflexivity. Qed.

Lemma aggregateGroup_count options g :
  AggregatedData.count (aggregateGroup options g) = length (snd g).
Proof. destruct g. reflexivity. Qed.

Lemma aggregateData_total (records : list InverterRecord.t)
    (options : AggregationOptions.t) :
  total (map AggregatedData.count (aggregateData records options))
  = length (List.filter dated records).
Proof.
  rewrite aggregateData_groupsOf, List.map_map.
  rewrite (List.map_ext _ (fun g => length (snd g)))
    by (intros g; apply aggregateGroup_count).
  apply (groupsOf_sizes _ _ string_eqb_spec).
Qed.

(** X13. The buckets of [aggregateData]: one for each period that a
    record with a combined instant falls in, in the order the periods
    first occur and with no period twice; the count of a bucket is the
    number of such records in its period, and the counts add up to the
    number of records with a combined instant. Records without one are in
    no bucket. *)
Theorem aggregateData_buckets (records : list InverterRecord.t)
    (options : AggregationOptions.t) :
  let interval := AggregationOptions.interval options in
  let buckets := aggregateData records options in
  map AggregatedData.period buckets
  = distinct String.eqb (map (periodOf interval) (List.filter dated records))
  /\ NoDup (map AggregatedData.period buckets)
  /\ Forall
       (fun bucket =>
          AggregatedData.count bucket
          = length
              (List.filter
                 (fun record =>
                    String.eqb (AggregatedData.period bucket)
                      (periodOf interval record))
                 (List.filter dated records)))
       buckets
  /\ total (map AggregatedData.count buckets)
     = length (List.filter dated records).
Proof.
  cbv zeta. pose proof (aggregateData_total records options) as Htotal.
  rewrite aggregateData_groupsOf in Htotal |- *.
  set (interval := AggregationOptions.interval options) in *.
  set (datedRecords := List.filter dated records).
  assert (Hperiods :
    map AggregatedData.period
      (map (aggregateGroup options)
         (groupsOf (periodOf interval) String.eqb datedRecords))
    = distinct String.eqb (map (periodOf interval) datedRecords)).
  { rewrite List.map_map.
    rewrite (List.map_ext _ fst) by (intros g; apply aggregateGroup_period).
    apply groupsOf_keys. }
  split; [exact Hperiods |]. split; [| split].
  - rewrite Hperiods. apply (distinct_NoDup _ string_eqb_spec).
  - apply Forall_map. unfold groupsOf. apply Forall_map.
    apply List.Forall_forall. intros a _. reflexivity.
  - exact Htotal.
Qed.

Lemma fold_setValue (f : string -> number) (fields : list string) :
  forall (values : gmap string number) (field : string),
    fold_left (fun values field => setValue field (f field) values) fields values
    !! field
    = if (existsb (String.eqb field) fields
          && negb (String.eqb field "__proto__"))%bool
      then Some (f field) else values !! field.
Proof.
  induction fields as [| g fields IH]; intros values field; [reflexivity |].
  cbn [fold_left existsb]. rewrite IH.
  destruct (existsb (String.eqb field) fields) eqn:Hin; cbn [orb andb].
  - rewrite orb_true_r. cbn [andb].
    destruct (negb (String.eqb field "__proto__")) eqn:Hproto; [reflexivity |].
    unfold setValue. destruct (String.eqb_spec g "__proto__") as [-> | Hg];
      [reflexivity |].
    apply negb_false_iff, String.eqb_eq in Hproto. subst field.
    apply lookup_insert_ne. exact Hg.
  - rewrite orb_false_r. unfold setValue.
    destruct (String.eqb_spec field g) as [-> | Hne].
    + cbn [andb].
      destruct (String.eqb g "__proto__"); cbn [negb]; [reflexivity |].
      apply lookup_insert_eq.
    + cbn [andb]. destruct (String.eqb g "__proto__"); [reflexivity |].
      apply lookup_insert_ne. congruence.
Qed.

(** X14. The values of a bucket: for a requested field (other than
    [__proto__]) the reduction, by the requested method, of the values
    that field has in the records of the bucket's period; for any other
    name, nothing. *)
Theorem aggregateData_values (records : list InverterRecord.t)
    (options : AggregationOptions.t) (bucket : AggregatedData.t)
    (field : string) :
  In bucket (aggregateData records options) ->
  AggregatedData.values bucket !! field
  = if (existsb (String.eqb field) (fieldsOf options)
        && negb (String.eqb field "__proto__"))%bool
    then
      Some
        (calculateAggregation
           (extractFieldValues
              (List.filter
                 (fun record =>
                    String.eqb (AggregatedData.period bucket)
                      (periodOf (AggregationOptions.interval options) record))
                 (List.filter dated records))
              field)
           (AggregationOptions.method options))
    else None.
Proof.
  rewrite aggregateData_groupsOf. intros Hin.
  apply in_map_iff in Hin as (g & <- & Hg).
  unfold groupsOf in Hg. apply in_map_iff in Hg as (a & <- & _).
  unfold aggregateGroup. cbn [AggregatedData.values AggregatedData.period].
  fold (fieldsOf options).
  rewrite (fold_setValue
             (fun field =>
                calculateAggregation
                  (extractFieldValues
                     (List.filter
                        (fun b => String.eqb a
                                    (periodOf (AggregationOptions.interval options) b))
                        (List.filter dated records)) field)
                  (AggregationOptions.method options))).
  rewrite lookup_empty. reflexivity.
Qed.

End MoreAggregationFacts.

(** ** The order of the numbers, and the smallest and the largest value *)

Lemma le_rank (x y : number) :
  Num.isNaN x = false -> Num.isNaN y = false ->
  (Num.le x y = true <-> lexle (rank x) (rank y)).
Proof.
  unfold Num.le, SFleb, lexle.
  destruct x as [sx | sx | | sx mx ex], y as [sy | sy | | sy my ey];
    try discriminate; intros _ _;
    repeat match goal with s : bool |- _ => destruct s end;
    cbn [SFcompare rank];
    try (split; [intros _; lia | reflexivity]);
    try (split; [discriminate | intros; exfalso; lia]).
  - destruct (Z.compare_spec ex ey) as [-> | Hlt | Hgt].
    + change (Pos.compare_cont Eq mx my) with (Pos.compare mx my).
      destruct (Pos.compare_spec mx my) as [-> | H | H]; cbn [CompOpp];
        (split; [intros; try discriminate; lia | intros; try reflexivity; exfalso; lia]).
    + split; [discriminate | intros; exfalso; lia].
    + split; [intros _; lia | reflexivity].
  - destruct (Z.compare_spec ex ey) as [-> | Hlt | Hgt].
    + change (Pos.compare_cont Eq mx my) with (Pos.compare mx my).
      destruct (Pos.compare_spec mx my) as [-> | H | H];
        (split; [intros; try discriminate; lia | intros; try reflexivity; exfalso; lia]).
    + split; [intros _; lia | reflexivity].
    + split; [discriminate | intros; exfalso; lia].
Qed.

Lemma lt_rank (x y : number) :
  Num.isNaN x = false -> Num.isNaN y = false ->
  (Num.lt x y = true <-> lexlt (rank x) (rank y)).
Proof.
  unfold Num.lt, SFltb, lexlt.
  destruct x as [sx | sx | | sx mx ex], y as [sy | sy | | sy my ey];
    try discriminate; intros _ _;
    repeat match goal with s : bool |- _ => destruct s end;
    cbn [SFcompare rank];
    try (split; [intros _; lia | reflexivity]);
    try (split; [discriminate | intros; exfalso; lia]).
  - destruct (Z.compare_spec ex ey) as [-> | Hlt | Hgt].
    + change (Pos.compare_cont Eq mx my) with (Pos.compare mx my).
      destruct (Pos.compare_spec mx my) as [-> | H | H]; cbn [CompOpp];
        (split; [intros; try discriminate; lia | intros; try reflexivity; exfalso; lia]).
    + split; [discriminate | intros; exfalso; lia].
    + split; [intros _; lia | reflexivity].
  - destruct (Z.compare_spec ex ey) as [-> | Hlt | Hgt].
    + change (Pos.compare_cont Eq mx my) with (Pos.compare mx my).
      destruct (Pos.compare_spec mx my) as [-> | H | H];
        (split; [intros; try discriminate; lia | intros; try reflexivity; exfalso; lia]).
    + split; [intros _; lia | reflexivity].
    + split; [discriminate | intros; exfalso; lia].
Qed.

Lemma lexle_trans (p q r : Z * Z * Z) : lexle p q -> lexle q r -> lexle p r.
Proof.
  destruct p as [[a b] c], q as [[a' b'] c'], r as [[a'' b''] c''].
  unfold lexle. lia.
Qed.

Lemma lexle_refl (p : Z * Z * Z) : lexle p p.
Proof. destruct p as [[a b] c]. unfold lexle. lia. Qed.

Lemma lexlt_lexle (p q : Z * Z * Z) : lexlt p q -> lexle p q.
Proof.
  destruct p as [[a b] c], q as [[a' b'] c']. unfold lexlt, lexle. lia.
Qed.

Lemma lexle_total (p q : Z * Z * Z) : ~ lexlt q p -> lexle p q.
Proof.
  destruct p as [[a b] c], q as [[a' b'] c']. unfold lexlt, lexle. lia.
Qed.

Lemma le_trans (x y z : number) :
  Num.isNaN x = false -> Num.isNaN y = false -> Num.isNaN z = false ->
  Num.le x y = true -> Num.le y z = true -> Num.le x z = true.
Proof.
  intros Hx Hy Hz Hxy Hyz.
  apply le_rank in Hxy; [| assumption ..].
  apply le_rank in Hyz; [| assumption ..].
  apply le_rank; [assumption .. |].
  exact (lexle_trans _ _ _ Hxy Hyz).
Qed.

Lemma le_self (x : number) : Num.isNaN x = false -> Num.le x x = true.
Proof. intros Hx. apply le_rank; [assumption .. |]. apply lexle_refl. Qed.

Lemma lt_le (x y : number) :
  Num.isNaN x = false -> Num.isNaN y = false ->
  Num.lt x y = true -> Num.le x y = true.
Proof.
  intros Hx Hy H. apply le_rank; [assumption .. |].
  apply lexlt_lexle, lt_rank; assumption.
Qed.

Lemma not_lt_le (x y : number) :
  Num.isNaN x = false -> Num.isNaN y = false ->
  Num.lt y x = false -> Num.le x y = true.
Proof.
  intros Hx Hy H. apply le_rank; [assumption .. |].
  apply lexle_total. intros Hlt. apply lt_rank in Hlt; [| assumption ..].
  congruence.
Qed.

(** [Math.min] and [Math.max] of two numbers give one of the two, which
    bounds both. *)
Lemma min2_spec (a b : number) :
  Num.isNaN a = false -> Num.isNaN b = false ->
  (min2 a b = a \/ min2 a b = b)
  /\ Num.le (min2 a b) a = true /\ Num.le (min2 a b) b = true.
Proof.
  intros Ha Hb. unfold min2. rewrite Ha, Hb. cbn [orb].
  destruct (Num.lt b a) eqn:Hba.
  { split; [right; reflexivity |].
    split; [apply lt_le; assumption | apply le_self; assumption]. }
  destruct (Num.lt a b) eqn:Hab.
  { split; [left; reflexivity |].
    split; [apply le_self; assumption | apply lt_le; assumption]. }
  pose proof (not_lt_le a b Ha Hb Hba) as Hle.
  pose proof (not_lt_le b a Hb Ha Hab) as Hge.
  destruct a as [[|] | | |], b as [[|] | | |];
    (split; [first [left; reflexivity | right; reflexivity] |]);
    (split; first [assumption | apply le_self; assumption]).
Qed.

Lemma max2_spec (a b : number) :
  Num.isNaN a = false -> Num.isNaN b = false ->
  (max2 a b = a \/ max2 a b = b)
  /\ Num.le a (max2 a b) = true /\ Num.le b (max2 a b) = true.
Proof.
  intros Ha Hb. unfold max2. rewrite Ha, Hb. cbn [orb].
  destruct (Num.lt a b) eqn:Hab.
  { split; [right; reflexivity |].
    split; [apply lt_le; assumption | apply le_self; assumption]. }
  destruct (Num.lt b a) eqn:Hba.
  { split; [left; reflexivity |].
    split; [apply le_self; assumption | apply lt_le; assumption]. }
  pose proof (not_lt_le a b Ha Hb Hba) as Hle.
  pose proof (not_lt_le b a Hb Ha Hab) as Hge.
  destruct a as [[|] | | |], b as [[|] | | |];
    (split; [first [left; reflexivity | right; reflexivity] |]);
    (split; first [assumption | apply le_self; assumption]).
Qed.

Lemma fold_min2 (values : list number) :
  forall acc : number,
    Num.isNaN acc = false ->
    Forall (fun v => Num.isNaN v = false) values ->
    let lo := fold_left min2 values acc in
    Num.isNaN lo = false
    /\ (lo = acc \/ In lo values)
    /\ Num.le lo acc = true
    /\ Forall (fun v => Num.le lo v = true) values.
Proof.
  induction values as [| v values IH]; intros acc Hacc Hvalues; cbn [fold_left].
  { cbv zeta. repeat split; [assumption | left; reflexivity
                            | apply le_self; assumption | constructor]. }
  apply List.Forall_cons_iff in Hvalues as [Hv Hvalues].
  destruct (min2_spec acc v Hacc Hv) as (Hor & Hle1 & Hle2).
  assert (Hm : Num.isNaN (min2 acc v) = false)
    by (destruct Hor as [-> | ->]; assumption).
  destruct (IH (min2 acc v) Hm Hvalues) as (Hlo & Hin & Hle & Hall).
  cbv zeta. split; [assumption |]. split; [| split].
  - destruct Hin as [-> | Hin]; [| right; right; exact Hin].
    destruct Hor as [-> | ->]; [left; reflexivity | right; left; reflexivity].
  - apply (le_trans _ (min2 acc v)); assumption.
  - constructor; [| assumption].
    apply (le_trans _ (min2 acc v)); assumption.
Qed.

Lemma fold_max2 (values : list number) :
  forall acc : number,
    Num.isNaN acc = false ->
    Forall (fun v => Num.isNaN v = false) values ->
    let hi := fold_left max2 values acc in
    Num.isNaN hi = false
    /\ (hi = acc \/ In hi values)
    /\ Num.le acc hi = true
    /\ Forall (fun v => Num.le v hi = true) values.
Proof.
  induction values as [| v values IH]; intros acc Hacc Hvalues; cbn [fold_left].
  { cbv zeta. repeat split; [assumption | left; reflexivity
                            | apply le_self; assumption | constructor]. }
  apply List.Forall_cons_iff in Hvalues as [Hv Hvalues].
  destruct (max2_spec acc v Hacc Hv) as (Hor & Hle1 & Hle2).
  assert (Hm : Num.isNaN (max2 acc v) = false)
    by (destruct Hor as [-> | ->]; assumption).
  destruct (IH (max2 acc v) Hm Hvalues) as (Hhi & Hin & Hle & Hall).
  cbv zeta. split; [assumption |]. split; [| split].
  - destruct Hin as [-> | Hin]; [| right; right; exact Hin].
    destruct Hor as [-> | ->]; [left; reflexivity | right; left; reflexivity].
  - apply (le_trans _ (max2 acc v)); assumption.
  - constructor; [| assumption].
    apply (le_trans _ (max2 acc v)); assumption.
Qed.

Lemma le_Infinity (v : number) :
  Num.isNaN v = false -> Num.le Num.Infinity v = true -> v = Num.Infinity.
Proof. destruct v as [s | [|] | | s m e]; (discriminate || reflexivity). Qed.

Lemma le_minus_Infinity (v : number) :
  Num.isNaN v = false -> Num.le v (S754_infinity true) = true ->
  v = S754_infinity true.
Proof.
  destruct v as [s | [|] | | [|] m e]; (discriminate || reflexivity).
Qed.

Lemma extractFieldValues_no_NaN (records : list InverterRecord.t)
    (field : string) :
  Forall (fun v => Num.isNaN v = false) (extractFieldValues records field).
Proof.
  unfold extractFieldValues. apply List.Forall_forall. intros v Hv.
  apply filter_In in Hv as [_ Hv]. apply negb_true_iff. exact Hv.
Qed.

(** X15. The smallest and the largest value of a field: when a field has
    a value in some record, the reductions by [min] and by [max] are
    values of the field, and every value of the field lies between
    them. *)
Theorem calculateAggregation_min_max (records : list InverterRecord.t)
    (field : string) :
  let values := extractFieldValues records field in
  values <> [] ->
  let lo := calculateAggregation values min in
  let hi := calculateAggregation values max in
  In lo values /\ In hi values
  /\ Forall (fun v => Num.le lo v = true /\ Num.le v hi = true) values.
Proof.
  cbv zeta. pose proof (extractFieldValues_no_NaN records field) as Hnan.
  destruct (extractFieldValues records field) as [| v values] eqn:Hvalues;
    [congruence |].
  intros _. unfold calculateAggregation.
  destruct (fold_min2 (v :: values) Num.Infinity eq_refl Hnan)
    as (_ & Hlo & _ & Hlow).
  destruct (fold_max2 (v :: values) (S754_infinity true) eq_refl Hnan)
    as (_ & Hhi & _ & Hhigh).
  cbv zeta in Hlo, Hlow, Hhi, Hhigh.
  split; [| split].
  - destruct Hlo as [Hlo | Hlo]; [| exact Hlo].
    left. rewrite Hlo in Hlow |- *.
    apply List.Forall_cons_iff in Hlow as [Hv _].
    apply List.Forall_cons_iff in Hnan as [Hn _].
    apply le_Infinity; assumption.
  - destruct Hhi as [Hhi | Hhi]; [| exact Hhi].
    left. rewrite Hhi in Hhigh |- *.
    apply List.Forall_cons_iff in Hhigh as [Hv _].
    apply List.Forall_cons_iff in Hnan as [Hn _].
    apply le_minus_Infinity; assumption.
  - apply List.Forall_forall. intros w Hw.
    rewrite List.Forall_forall in Hlow, Hhigh. split; auto.
Qed.

(** ** Field paths: what a path can read *)

Lemma getProp_numbersIn (part : string) (props : list (string * JsValue))
    (v : JsValue) (n : number) :
  getProp part props = Some v -> In n (numbersIn v) ->
  In n (numbersIn (JObject props)).
Proof.
  induction props as [| [k w] props IH]; [discriminate |].
  cbn [getProp]. intros Hget Hin. cbn [numbersIn]. apply in_or_app.
  destruct (String.eqb k part).
  - left. congruence.
  - right. exact (IH Hget Hin).
Qed.

Lemma numbersIn_flags (flags : list (string * bool)) :
  numbersIn (JObject (map (fun kv => (fst kv, JBoolean (snd kv))) flags)) = [].
Proof.
  induction flags as [| [k b] flags IH]; [reflexivity |].
  cbn [numbersIn map fst snd app] in *. exact IH.
Qed.

Lemma numbersIn_jsRecord (record : InverterRecord.t) :
  numbersIn (jsRecord record) = firstn 18 (map snd (numericFields record)).
Proof.
  unfold jsRecord, numericFields. cbv zeta.
  destruct (SystemStatus.flags (InverterRecord.status record)) as [flags |].
  - pose proof (numbersIn_flags (map_to_list flags)) as Hflags.
    cbn [numbersIn app map snd firstn jsDatetime jsBlackout] in *.
    destruct (Timestamp.datetime _), (UserRecord.blackout _);
      cbn [numbersIn app jsDatetime jsBlackout]; rewrite Hflags; reflexivity.
  - cbn [numbersIn app map snd firstn].
    destruct (Timestamp.datetime _), (UserRecord.blackout _); reflexivity.
Qed.

Lemma directAccess_sound (record : InverterRecord.t) (fieldPath : string) :
  directAccess record fieldPath = Returned Num.zero
  \/ exists n, directAccess record fieldPath = Value (JNumber n)
               /\ In n (map snd (numericFields record)).
Proof.
  unfold directAccess.
  destruct (String.eqb fieldPath "powerW");
    [right; eexists; split; [reflexivity |]; cbn; tauto |].
  destruct (String.eqb fieldPath "voltage");
    [right; eexists; split; [reflexivity |]; cbn; tauto |].
  destruct (String.eqb fieldPath "soc");
    [right; eexists; split; [reflexivity |]; cbn; tauto |].
  left. reflexivity.
Qed.

Lemma walkPath_sound (record : InverterRecord.t) (fieldPath : string)
    (parts : list string) :
  forall (value : JsValue) (n : number),
    walkPath record fieldPath parts value = Value (JNumber n) ->
    In n (numbersIn value) \/ In n (map snd (numericFields record)).
Proof.
  induction parts as [| part parts IH]; intros value n; cbn [walkPath].
  { intros [= ->]. left. cbn. tauto. }
  assert (Hdirect : directAccess record fieldPath = Value (JNumber n) ->
                    In n (map snd (numericFields record))).
  { intros H. destruct (directAccess_sound record fieldPath)
      as [H0 | (m & Hm & Hin)]; congruence. }
  destruct value as [| | | | | props]; try (intros H; right; exact (Hdirect H)).
  destruct (getProp part props) as [v |] eqn:Hget;
    [| intros H; right; exact (Hdirect H)].
  intros H. destruct (IH v n H) as [Hin | Hin]; [left | right; exact Hin].
  exact (getProp_numbersIn part props v n Hget Hin).
Qed.

(** A field path reads a number of the record, or [0]. *)
Lemma fieldValue_sound (fieldPath : string) (record : InverterRecord.t) :
  fieldValue fieldPath record = Num.zero
  \/ In (fieldValue fieldPath record) (map snd (numericFields record)).
Proof.
  unfold fieldValue.
  destruct (walkPath record fieldPath (splitDots fieldPath) (jsRecord record))
    as [n | value] eqn:Hwalk.
  - clear -Hwalk. revert Hwalk.
    generalize (jsRecord record). generalize (splitDots fieldPath).
    intros parts. induction parts as [| part parts IH]; intros value;
      cbn [walkPath]; [discriminate |].
    assert (Hdirect : directAccess record fieldPath = Returned n ->
                      n = Num.zero \/ In n (map snd (numericFields record))).
    { intros H. destruct (directAccess_sound record fieldPath)
        as [H0 | (m & Hm & Hin)]; [left | ]; congruence. }
    destruct value as [| | | | | props]; try exact Hdirect.
    destruct (getProp part props) as [v |]; [apply IH | exact Hdirect].
  - destruct value as [n | | | | |]; try (left; reflexivity).
    right. apply walkPath_sound in Hwalk as [Hin | Hin]; [| exact Hin].
    rewrite numbersIn_jsRecord in Hin.
    revert Hin. generalize (map snd (numericFields record)) 18%nat.
    intros l k. revert l. induction k as [| k IHk]; intros [| x l];
      cbn [firstn In]; try tauto.
    intros [-> | H]; [left; reflexivity | right; exact (IHk l H)].
Qed.

Lemma fieldValue_no_NaN (fieldPath : string) (record : InverterRecord.t) :
  Forall (fun fv => Num.isNaN (snd fv) = false) (numericFields record) ->
  Num.isNaN (fieldValue fieldPath record) = false.
Proof.
  intros Hrecord. destruct (fieldValue_sound fieldPath record) as [-> | Hin];
    [reflexivity |].
  apply in_map_iff in Hin as (fv & <- & Hin).
  rewrite List.Forall_forall in Hrecord. exact (Hrecord fv Hin).
Qed.

Lemma extractFieldValues_all (records : list InverterRecord.t)
    (fieldPath : string) :
  Forall
    (fun record =>
       Forall (fun fv => Num.isNaN (snd fv) = false) (numericFields record))
    records ->
  extractFieldValues records fieldPath = map (fieldValue fieldPath) records.
Proof.
  unfold extractFieldValues. induction 1 as [| record records Hrecord _ IH];
    [reflexivity |].
  cbn [map List.filter]. rewrite (fieldValue_no_NaN _ _ Hrecord). cbn [negb].
  f_equal. exact IH.
Qed.

Section ParsedAggregation.
Context {numberFormat : NumberFormat} {dateHost : DateHost}
  {tokenizer : Tokenizer}.

Lemma parseCSV_data_no_NaN (csvContent : string) :
  Forall
    (fun record =>
       Forall (fun fv => Num.isNaN (snd fv) = false) (numericFields record))
    (ParseResult.data (parseCSV csvContent)).
Proof.
  destruct (Papa_parse csvContent transformHeader) as [results | message]
    eqn:Hparse.
  - rewrite (parseCSV_closed _ _ Hparse). cbn [ParseResult.data].
    apply List.Forall_forall. intros record Hin.
    apply list_elem_of_In, list_elem_of_omap in Hin as (result & Hin & Hrecord).
    unfold rowResults in Hin.
    apply elem_of_lookup_imap in Hin as (i & row & -> & _).
    rewrite parseRow_unfold in Hrecord.
    destruct (dropped row); [discriminate |].
    cbn [RowResult.record] in Hrecord.
    assert (Hr : record = fst (assembleRow row (Z.of_nat i + 2)))
      by congruence.
    rewrite Hr. apply assembleRow_no_NaN.
  - unfold parseCSV. rewrite Hparse. constructor.
Qed.

(** X16. Aggregation after parsing drops nothing: over the records that
    [parseCSV] returns, every field path has a value for every record
    (the value read along the path), so the NaN filter of
    [extractFieldValues] removes none and the number of values is the
    number of successful rows. *)
Theorem extractFieldValues_parsed (csvContent fieldPath : string) :
  let parsed := parseCSV csvContent in
  extractFieldValues (ParseResult.data parsed) fieldPath
  = map (fieldValue fieldPath) (ParseResult.data parsed)
  /\ length (extractFieldValues (ParseResult.data parsed) fieldPath)
     = ParseResult.successfulRows parsed.
Proof.
  cbv zeta.
  rewrite (extractFieldValues_all _ _ (parseCSV_data_no_NaN csvContent)).
  split; [reflexivity |]. rewrite length_map.
  unfold parseCSV. destruct (Papa_parse csvContent transformHeader);
    [| reflexivity].
  destruct (parseRows _ _ _ _). reflexivity.
Qed.

End ParsedAggregation.

(** ** Record selection *)

Lemma NoDup_filter_list {A : Type} (p : A -> bool) (l : list A) :
  NoDup l -> NoDup (List.filter p l).
Proof.
  induction 1 as [| x l Hx Hl IH]; cbn [List.filter]; [constructor |].
  destruct (p x); [| exact IH]. constructor; [| exact IH].
  rewrite list_elem_of_In, filter_In, <- list_elem_of_In. tauto.
Qed.

Lemma filter_nonempty_In {A : Type} (p : A -> bool) (l : list A) :
  List.filter p l <> [] <-> exists x, In x l /\ p x = true.
Proof.
  split.
  - destruct (List.filter p l) as [| x l'] eqn:H; [congruence |].
    intros _. exists x. apply filter_In. rewrite H. left. reflexivity.
  - intros (x & Hx). apply filter_In in Hx.
    destruct (List.filter p l); [destruct Hx | discriminate].
Qed.

Lemma filter_comm {A : Type} (p q : A -> bool) (l : list A) :
  List.filter p (List.filter q l) = List.filter q (List.filter p l).
Proof.
  induction l as [| x l IH]; [reflexivity |].
  cbn [List.filter]. destruct (p x) eqn:Hp, (q x) eqn:Hq; cbn [List.filter];
    rewrite ?Hp, ?Hq, IH; reflexivity.
Qed.

Lemma filter_idem {A : Type} (p : A -> bool) (l : list A) :
  List.filter p (List.filter p l) = List.filter p l.
Proof.
  induction l as [| x l IH]; [reflexivity |].
  cbn [List.filter]. destruct (p x) eqn:Hp; cbn [List.filter];
    rewrite ?Hp, IH; reflexivity.
Qed.

Lemma filter_implied {A : Type} (p q : A -> bool) (l : list A) :
  (forall x, p x = true -> q x = true) ->
  List.filter q (List.filter p l) = List.filter p l.
Proof.
  intros Himp. induction l as [| x l IH]; [reflexivity |].
  cbn [List.filter]. destruct (p x) eqn:Hp; cbn [List.filter];
    rewrite ?(Himp x Hp), IH; reflexivity.
Qed.

(** X17. The device ids of [getUniqueDeviceIds]: each non-empty id of a
    record once (the empty id is left out), so an id is listed exactly
    when [filterByDeviceId] finds a record for it; the records with an id
    are split among the listed ids, each going to one. *)
Theorem getUniqueDeviceIds_spec (records : list InverterRecord.t) :
  let ids := getUniqueDeviceIds records in
  NoDup ids
  /\ (forall id : string,
        In id ids <-> id <> "" /\ filterByDeviceId records id <> [])
  /\ total (map (fun id => length (filterByDeviceId records id)) ids)
     = length
         (List.filter
            (fun record =>
               negb (String.eqb
                       (UserRecord.id (InverterRecord.userRecord record)) ""))
            records).
Proof.
  cbv zeta. unfold getUniqueDeviceIds.
  set (idOf := fun record : InverterRecord.t =>
                 UserRecord.id (InverterRecord.userRecord record)).
  pose proof (distinct_NoDup String.eqb string_eqb_spec (map idOf records))
    as Hnd.
  assert (Hin : forall id : string,
            In id (List.filter (fun id => negb (String.eqb id ""))
                     (distinct String.eqb (map idOf records)))
            <-> id <> "" /\ In id (map idOf records)).
  { intros id. rewrite filter_In, (distinct_In String.eqb string_eqb_spec).
    rewrite negb_true_iff. destruct (String.eqb_spec id ""); split;
      intros [H1 H2]; split; congruence. }
  split; [apply NoDup_filter_list, Hnd |]. split.
  - intros id. rewrite Hin. unfold filterByDeviceId.
    rewrite filter_nonempty_In, in_map_iff.
    split; intros [Hid (record & H1 & H2)]; (split; [exact Hid |]);
      exists record.
    + split; [exact H2 |]. apply String.eqb_eq. exact H1.
    + apply String.eqb_eq in H2. split; assumption.
  - unfold filterByDeviceId.
    rewrite (List.map_ext
               (fun id =>
                  length (List.filter
                            (fun record => String.eqb (idOf record) id) records))
               (fun id =>
                  length (List.filter
                            (fun record => String.eqb id (idOf record)) records)))
      by (intros id; f_equal; apply List.filter_ext; intros record;
          apply String.eqb_sym).
    rewrite (sizes_by_keys idOf String.eqb string_eqb_spec)
      by (apply NoDup_filter_list, Hnd).
    f_equal. apply List.filter_ext_in. intros record Hrecord.
    change (UserRecord.id (InverterRecord.userRecord record))
      with (idOf record).
    destruct (String.eqb_spec (idOf record) "") as [He | Hne]; cbn [negb].
    + apply not_true_is_false. intros H.
      apply (existsb_eqb_In String.eqb string_eqb_spec), Hin in H.
      tauto.
    + apply (existsb_eqb_In String.eqb string_eqb_spec), Hin.
      split; [exact Hne | apply in_map, Hrecord].
Qed.

Section SelectionFacts.
Context {dateHost : DateHost}.

Lemma filterByDateRange_dated (records : list InverterRecord.t)
    (startDate endDate : string) :
  List.filter dated (filterByDateRange records startDate endDate)
  = filterByDateRange records startDate endDate.
Proof.
  unfold filterByDateRange. apply filter_implied. intros record.
  unfold dated. destruct (Timestamp.datetime _) as [datetime |];
    [| discriminate].
  destruct (String.eqb datetime ""); [discriminate | reflexivity].
Qed.

(** X18. The records of [filterByDateRange]: each has a combined instant;
    there is none when a bound is not a date or when the end is before the
    start; filtering again by the same bounds changes nothing; and the
    filter by device id can be applied before or after. *)
Theorem filterByDateRange_spec (records : list InverterRecord.t)
    (startDate endDate : string) :
  let kept := filterByDateRange records startDate endDate in
  Forall (fun record => dated record = true) kept
  /\ (Date_getTime startDate = None \/ Date_getTime endDate = None ->
      kept = [])
  /\ (forall s e : Z,
        Date_getTime startDate = Some s -> Date_getTime endDate = Some e ->
        (e < s)%Z -> kept = [])
  /\ filterByDateRange kept startDate endDate = kept
  /\ forall deviceId : string,
       filterByDeviceId kept deviceId
       = filterByDateRange (filterByDeviceId records deviceId)
           startDate endDate.
Proof.
  cbv zeta. split; [| split; [| split; [| split]]].
  - rewrite <- filterByDateRange_dated. apply List.Forall_forall.
    intros record H. apply filter_In in H. tauto.
  - intros Hbound. unfold filterByDateRange.
    induction records as [| record records IH]; [reflexivity |].
    cbn [List.filter]. rewrite IH.
    destruct (Timestamp.datetime _) as [datetime |]; [| reflexivity].
    destruct (String.eqb datetime ""); [reflexivity |]. cbv zeta.
    destruct Hbound as [-> | ->]; unfold dateLe;
      [reflexivity |].
    destruct (Date_getTime startDate), (Date_getTime datetime);
      rewrite ?andb_false_r; reflexivity.
  - intros s e Hs He Hlt. unfold filterByDateRange. rewrite Hs, He.
    induction records as [| record records IH]; [reflexivity |].
    cbn [List.filter]. rewrite IH.
    destruct (Timestamp.datetime _) as [datetime |]; [| reflexivity].
    destruct (String.eqb datetime ""); [reflexivity |]. cbv zeta.
    unfold dateLe. destruct (Date_getTime datetime) as [t |]; [| reflexivity].
    destruct (Z.leb_spec s t), (Z.leb_spec t e); try reflexivity. lia.
  - unfold filterByDateRange. apply filter_idem.
  - intros deviceId. unfold filterByDeviceId, filterByDateRange.
    apply filter_comm.
Qed.

(** X19. Aggregation over a date range counts every record of the range
    once: the counts of the buckets add up to the number of records that
    [filterByDateRange] keeps. *)
Theorem aggregateData_in_range (records : list InverterRecord.t)
    (startDate endDate : string) (options : AggregationOptions.t) :
  let kept := filterByDateRange records startDate endDate in
  total (map AggregatedData.count (aggregateData kept options)) = length kept.
Proof.
  cbv zeta. rewrite aggregateData_total, filterByDateRange_dated. reflexivity.
Qed.

End SelectionFacts.

(** ** Export and import *)

Section ExportFacts.
Context {numberFormat : NumberFormat} {dateHost : DateHost}.

Lemma export_absent (row : Papa.Row) (column : string) :
  dom row ⊆ exportColumns ->
  existsb (String.eqb column) (map transformHeader csvHeaders) = false ->
  row !! column = None.
Proof.
  intros Hdom Hcolumn. apply not_elem_of_dom. intros Hin.
  apply Hdom in Hin. unfold exportColumns in Hin.
  apply elem_of_list_to_set, list_elem_of_In in Hin.
  apply (existsb_eqb_In String.eqb string_eqb_spec) in Hin. congruence.
Qed.

Ltac absent Hdom := apply (export_absent _ _ Hdom); vm_compute; reflexivity.

Lemma pushError_clean {T} (errors : list ParseError.t) (value : T) :
  pushError errors (Validated.mk value None) = errors.
Proof. reflexivity. Qed.

Lemma createTimestamp_fields (date time : string) (rowIndex : Z) :
  Forall (fun e => In (ParseError.field e) reimportedFields)
    (snd (createTimestamp date time rowIndex)).
Proof.
  assert (Hpushed :
    Forall (fun e => In (ParseError.field e) reimportedFields)
      (pushError (pushError [] (validateDate date "Date" rowIndex))
         (validateTime time "Time" rowIndex))).
  { apply pushError_Forall.
    - intros e He. apply validateTime_field in He. rewrite He. cbn. tauto.
    - apply pushError_Forall; [| constructor].
      intros e He. apply validateDate_field in He. rewrite He. cbn. tauto. }
  destruct (createTimestamp_cases date time rowIndex)
    as [(t & Ht & Hp & ->) | [(Ht & Hp & ->) | (Hp & ->)]]; cbn [snd].
  - constructor.
  - constructor; [cbn; tauto | constructor].
  - exact Hpushed.
Qed.

Lemma validateNumber_blank (fieldName : string) (min max : number)
    (rowIndex : Z) :
  validateNumber "" fieldName min max rowIndex = Validated.mk Num.zero None.
Proof. reflexivity. Qed.

(** What [assembleRow] makes of a row of an export. *)
Lemma assembleRow_of_export (row : Papa.Row) (rowIndex : Z) :
  dom row ⊆ exportColumns ->
  let record := fst (assembleRow row rowIndex) in
  InverterRecord.inverterSupply record = InverterSupply.mk Num.zero
  /\ PVData.powerW (InverterRecord.pv record) = Num.zero
  /\ PVData.dailyWh (InverterRecord.pv record) = Num.zero
  /\ PVData.monthlyWd (InverterRecord.pv record) = Num.zero
  /\ PVData.yearlyWm (InverterRecord.pv record) = Num.zero
  /\ PVData.totalKWh (InverterRecord.pv record) = Num.zero
  /\ InverterRecord.battery record
     = BatteryData.mk Num.zero Num.zero Num.zero Num.zero
  /\ InverterRecord.inverter record = InverterData.mk Num.zero Num.zero Num.zero
  /\ InverterRecord.grid record = GridData.mk Num.zero Num.zero Num.zero
  /\ InverterRecord.status record = SystemStatus.mk "0x00" None
  /\ Forall (fun e => In (ParseError.field e) reimportedFields)
       (snd (assembleRow row rowIndex)).
Proof.
  intros Hdom.
  assert (H01 : row !! "InvSupply_TotalKWh" = None) by absent Hdom.
  assert (H02 : row !! "Total kWh" = None) by absent Hdom.
  assert (H03 : row !! "PV_PowerW" = None) by absent Hdom.
  assert (H04 : row !! "Power W" = None) by absent Hdom.
  assert (H05 : row !! "PV_DailyWh" = None) by absent Hdom.
  assert (H06 : row !! "Daily Wh" = None) by absent Hdom.
  assert (H07 : row !! "PV_MonthlyWd" = None) by absent Hdom.
  assert (H08 : row !! "Monthly Wd" = None) by absent Hdom.
  assert (H09 : row !! "PV_YearlyWm" = None) by absent Hdom.
  assert (H10 : row !! "Yearly Wm" = None) by absent Hdom.
  assert (H11 : row !! "PV_TotalKWh" = None) by absent Hdom.
  assert (H12 : row !! "Voltage_1" = None) by absent Hdom.
  assert (H13 : row !! "Current_1" = None) by absent Hdom.
  assert (H14 : row !! "Temp" = None) by absent Hdom.
  assert (H15 : row !! "SOC" = None) by absent Hdom.
  assert (H16 : row !! "Voltage_2" = None) by absent Hdom.
  assert (H17 : row !! "Current_2" = None) by absent Hdom.
  assert (H18 : row !! "Hz" = None) by absent Hdom.
  assert (H19 : row !! "Voltage_3" = None) by absent Hdom.
  assert (H20 : row !! "Current_3" = None) by absent Hdom.
  assert (H21 : row !! "Hz_1" = None) by absent Hdom.
  assert (H22 : row !! "Hex" = None) by absent Hdom.
  unfold assembleRow. cbv zeta.
  rewrite H01, H02, H03, H04, H05, H06, H07, H08, H09, H10, H11, H12, H13,
    H14, H15, H16, H17, H18, H19, H20, H21, H22.
  cbn [fst snd InverterRecord.inverterSupply InverterRecord.pv
       InverterRecord.battery InverterRecord.inverter InverterRecord.grid
       InverterRecord.status PVData.powerW PVData.dailyWh PVData.monthlyWd
       PVData.yearlyWm PVData.totalKWh].
  repeat (split; [reflexivity |]).
  cbn [fold_left app].
  change (orEmpty (orElse None None)) with "".
  change (orEmpty None) with "".
  unfold validateEnergy, validatePower, validateVoltage, validateCurrent,
    validateTemperature, validateSOC, validateFrequency.
  rewrite !validateNumber_blank.
  change (validateHex "" "Status_Hex" rowIndex) with (Validated.mk "0x00" None).
  rewrite !pushError_clean.
  apply pushError_Forall.
  { intros e He. apply validateNumber_field in He. rewrite He. cbn. tauto. }
  apply pushError_Forall.
  { intros e He. apply validateNumber_field in He. rewrite He. cbn. tauto. }
  apply pushError_Forall.
  { intros e He. apply validateBlackout_field in He. rewrite He. cbn. tauto. }
  apply createTimestamp_fields.
Qed.

(** X20. An export does not read back. A row under the column names that
    [recordsToCSV] writes is parsed, whatever its cells hold, to a record
    whose inverter total, PV power and PV energies, battery, inverter and
    grid values are all [0] and whose status is [0x00]; and no error tells
    so: the errors of the row are on the date, the time, the blackout
    flag, the PV voltage, the PV current or the row as a whole. *)
Theorem parseRow_of_export (row : Papa.Row) (rowIndex : Z) :
  dom row ⊆ exportColumns ->
  (forall record : InverterRecord.t,
     RowResult.record (parseRow row rowIndex) = Some record ->
     InverterRecord.inverterSupply record = InverterSupply.mk Num.zero
     /\ PVData.powerW (InverterRecord.pv record) = Num.zero
     /\ PVData.dailyWh (InverterRecord.pv record) = Num.zero
     /\ PVData.monthlyWd (InverterRecord.pv record) = Num.zero
     /\ PVData.yearlyWm (InverterRecord.pv record) = Num.zero
     /\ PVData.totalKWh (InverterRecord.pv record) = Num.zero
     /\ InverterRecord.battery record
        = BatteryData.mk Num.zero Num.zero Num.zero Num.zero
     /\ InverterRecord.inverter record
        = InverterData.mk Num.zero Num.zero Num.zero
     /\ InverterRecord.grid record = GridData.mk Num.zero Num.zero Num.zero
     /\ InverterRecord.status record = SystemStatus.mk "0x00" None)
  /\ Forall (fun e => In (ParseError.field e) reimportedFields)
       (RowResult.errors (parseRow row rowIndex)).
Proof.
  intros Hdom. pose proof (assembleRow_of_export row rowIndex Hdom) as H.
  cbv zeta in H. rewrite parseRow_unfold. destruct (dropped row).
  - split; [discriminate |]. cbn [RowResult.errors].
    apply Forall_app. split; [tauto |].
    constructor; [cbn; tauto | constructor].
  - cbn [RowResult.record RowResult.errors]. split; [| tauto].
    intros record Hrecord.
    assert (Hr : record = fst (assembleRow row rowIndex)) by congruence.
    rewrite Hr. tauto.
Qed.

End ExportFacts.

(** ** Date range and statistics *)

Lemma insertTime_In (t : Z) (sorted : list Z) (x : Z) :
  In x (insertTime t sorted) <-> x = t \/ In x sorted.
Proof.
  induction sorted as [| y sorted IH]; cbn [insertTime In]; [intuition |].
  destruct (t <? y)%Z; cbn [In]; [intuition |]. rewrite IH. intuition.
Qed.

Lemma insertTime_sorted (t : Z) (sorted : list Z) :
  StronglySorted Z.le sorted -> StronglySorted Z.le (insertTime t sorted).
Proof.
  induction 1 as [| y sorted Hsorted IH Hy]; cbn [insertTime].
  { constructor; constructor. }
  destruct (Z.ltb_spec t y) as [Hlt | Hge].
  - constructor; [constructor; assumption |].
    constructor; [lia |].
    eapply List.Forall_impl; [| exact Hy]. cbn. intros a Ha. lia.
  - constructor; [exact IH |].
    apply List.Forall_forall. intros x Hx. apply insertTime_In in Hx as [-> | Hx];
      [exact Hge |].
    rewrite List.Forall_forall in Hy. exact (Hy x Hx).
Qed.

Lemma sortTimes_spec (times : list Z) :
  StronglySorted Z.le (sortTimes times)
  /\ forall x, In x (sortTimes times) <-> In x times.
Proof.
  unfold sortTimes.
  assert (Hgen : forall acc,
             StronglySorted Z.le acc ->
             StronglySorted Z.le
               (fold_left (fun sorted t => insertTime t sorted) times acc)
             /\ forall x,
                 In x (fold_left (fun sorted t => insertTime t sorted) times acc)
                 <-> In x acc \/ In x times).
  { induction times as [| t times IH]; intros acc Hacc; cbn [fold_left In].
    - split; [exact Hacc | intuition].
    - destruct (IH (insertTime t acc) (insertTime_sorted t acc Hacc))
        as [Hsorted Hin].
      split; [exact Hsorted |]. intros x. rewrite Hin, insertTime_In.
      intuition. }
  destruct (Hgen [] (SSorted_nil _)) as [Hsorted Hin].
  split; [exact Hsorted |]. intros x. rewrite Hin. cbn [In]. intuition.
Qed.

Lemma last_In {A : Type} (l : list A) (x d : A) : In (List.last (x :: l) d) (x :: l).
Proof.
  revert x. induction l as [| y l IH]; intros x; [left; reflexivity |].
  right. exact (IH y).
Qed.

Lemma last_indep {A : Type} (l : list A) (x d d' : A) :
  List.last (x :: l) d = List.last (x :: l) d'.
Proof.
  revert x. induction l as [| y l IH]; intros x; [reflexivity |].
  change (List.last (y :: l) d = List.last (y :: l) d'). apply IH.
Qed.

Lemma sorted_extremes (first : Z) (rest : list Z) :
  StronglySorted Z.le (first :: rest) ->
  Forall (fun t => (first <= t <= List.last (first :: rest) first)%Z)
    (first :: rest).
Proof.
  revert first. induction rest as [| y rest IH]; intros first Hsorted.
  { constructor; [cbn; lia | constructor]. }
  apply StronglySorted_inv in Hsorted as [Hrest Hfirst].
  specialize (IH y Hrest).
  change (List.last (first :: y :: rest) first)
    with (List.last (y :: rest) first).
  rewrite (last_indep rest y first y).
  assert (Hle : (first <= List.last (y :: rest) y)%Z).
  { rewrite List.Forall_forall in Hfirst. apply Hfirst, last_In. }
  constructor; [lia |].
  rewrite List.Forall_forall in Hfirst.
  apply List.Forall_forall. intros t Ht. split; [exact (Hfirst t Ht) |].
  rewrite List.Forall_forall in IH. exact (proj2 (IH t Ht)).
Qed.

Lemma timeValues_Some (times : list Z) : timeValues (map Some times) = Some times.
Proof.
  induction times as [| t times IH]; [reflexivity |].
  cbn [map timeValues]. rewrite IH. reflexivity.
Qed.

Lemma timeValues_None (dates : list (option Z)) :
  timeValues dates = None <-> In None dates.
Proof.
  induction dates as [| [t |] dates IH]; cbn [timeValues In].
  - split; [discriminate | tauto].
  - destruct (timeValues dates); cbn [option_map].
    + split; [discriminate |]. intros [H | H]; [discriminate |].
      apply IH in H. discriminate.
    + split; [intros _; right; apply IH; reflexivity | reflexivity].
  - split; [intros _; left; reflexivity | reflexivity].
Qed.

Section RangeFacts.
Context {dateHost : DateHost}.

Lemma getDateRange_unfold (records : list InverterRecord.t) :
  getDateRange records
  = match timeValues (map Date_getTime (datetimes records)) with
    | Some times =>
        match sortTimes times with
        | [] => Returns (None, None)
        | (first :: _) as sorted =>
            Returns
              (Some (Date_toISOString first),
               Some (Date_toISOString (List.last sorted first)))
        end
    | None => Unspecified
    end.
Proof.
  unfold getDateRange. destruct records as [| record records]; [reflexivity |].
  destruct (map Date_getTime (datetimes (record :: records))); reflexivity.
Qed.

(** X21. The date range of [getDateRange]. With a combined instant that
    does not read as a date, and only then, the result is not fixed.
    Otherwise it goes from the earliest to the latest of the instants of
    the records, and both ends are null when no record has an instant. *)
Theorem getDateRange_extremes (records : list InverterRecord.t) :
  (getDateRange records = Unspecified
   <-> In None (map Date_getTime (datetimes records)))
  /\ forall times : list Z,
       map Date_getTime (datetimes records) = map Some times ->
       match times with
       | [] => getDateRange records = Returns (None, None)
       | _ =>
           exists lo hi : Z,
             In lo times /\ In hi times
             /\ Forall (fun t => (lo <= t <= hi)%Z) times
             /\ getDateRange records
                = Returns
                    (Some (Date_toISOString lo), Some (Date_toISOString hi))
       end.
Proof.
  rewrite getDateRange_unfold. split.
  - rewrite <- timeValues_None.
    destruct (timeValues (map Date_getTime (datetimes records))) as [times |].
    + split; [| discriminate]. destruct (sortTimes times); discriminate.
    + split; reflexivity.
  - intros times Htimes. rewrite Htimes, timeValues_Some.
    destruct (sortTimes_spec times) as [Hsorted Hin].
    destruct times as [| t times]; [reflexivity |].
    destruct (sortTimes (t :: times)) as [| first rest] eqn:Hsort.
    { exfalso. apply (Hin t). left. reflexivity. }
    exists first, (List.last (first :: rest) first).
    pose proof (sorted_extremes first rest Hsorted) as Hext.
    split; [apply Hin; left; reflexivity |].
    split; [apply Hin, last_In |].
    split; [| reflexivity].
    apply List.Forall_forall. intros x Hx. apply Hin in Hx.
    rewrite List.Forall_forall in Hext. exact (Hext x Hx).
Qed.

Lemma lt_not_NaN (x y : number) :
  Num.lt x y = true -> Num.isNaN x = false /\ Num.isNaN y = false.
Proof. destruct x, y; simpl; (discriminate || (split; reflexivity)). Qed.

(** X22. The statistics of [calculateStatistics], for records whose date
    range is fixed: all records are counted and the devices are those of
    [getUniqueDeviceIds]; the largest power is not negative and no power
    of a record is above it; the smallest state of charge is not negative
    and not above the largest, and every state of charge that is not
    negative lies between the two. *)
Theorem calculateStatistics_spec (records : list InverterRecord.t)
    (range : option string * option string) :
  records <> [] ->
  getDateRange records = Returns range ->
  exists stats : Statistics.t,
    calculateStatistics records = Returns (Some stats)
    /\ Statistics.totalRecords stats = length records
    /\ Statistics.dateRange stats = range
    /\ Statistics.devices stats = getUniqueDeviceIds records
    /\ Num.le Num.zero (Statistics.powerMax stats) = true
    /\ Forall
         (fun record =>
            let power := PVData.powerW (InverterRecord.pv record) in
            Num.isNaN power = false ->
            Num.le power (Statistics.powerMax stats) = true)
         records
    /\ Num.le Num.zero (Statistics.minSOC stats) = true
    /\ Num.le (Statistics.minSOC stats) (Statistics.maxSOC stats) = true
    /\ Forall
         (fun record =>
            let soc := BatteryData.soc (InverterRecord.battery record) in
            Num.le Num.zero soc = true ->
            Num.le (Statistics.minSOC stats) soc = true
            /\ Num.le soc (Statistics.maxSOC stats) = true)
         records.
Proof.
  intros Hrecords Hrange. unfold calculateStatistics. rewrite Hrange.
  destruct records as [| record records]; [congruence |].
  set (all := record :: records).
  eexists. split; [reflexivity |].
  cbn [Statistics.totalRecords Statistics.dateRange Statistics.devices
       Statistics.powerMax Statistics.minSOC Statistics.maxSOC].
  do 3 (split; [reflexivity |]).
  set (powerValues :=
         List.filter (fun v => Num.gt v Num.zero)
           (map (fun r => PVData.powerW (InverterRecord.pv r)) all)).
  set (batterySOC :=
         List.filter (fun v => Num.le Num.zero v)
           (map (fun r => BatteryData.soc (InverterRecord.battery r)) all)).
  assert (Hpower : Forall (fun v => Num.lt Num.zero v = true) powerValues).
  { apply List.Forall_forall. intros v Hv. apply filter_In in Hv. tauto. }
  assert (Hsoc : Forall (fun v => Num.le Num.zero v = true) batterySOC).
  { apply List.Forall_forall. intros v Hv. apply filter_In in Hv. tauto. }
  assert (HpowerNaN : Forall (fun v => Num.isNaN v = false) powerValues).
  { eapply List.Forall_impl; [| exact Hpower]. cbn. intros v Hv.
    apply lt_not_NaN in Hv. tauto. }
  assert (HsocNaN : Forall (fun v => Num.isNaN v = false) batterySOC).
  { eapply List.Forall_impl; [| exact Hsoc]. cbn. intros v Hv.
    apply NumFacts.le_not_NaN in Hv. tauto. }
  destruct (fold_max2 powerValues (S754_infinity true) eq_refl HpowerNaN)
    as (HmaxNaN & _ & _ & Hmax).
  destruct (fold_min2 batterySOC Num.Infinity eq_refl HsocNaN)
    as (HloNaN & Hlo & _ & Hlow).
  destruct (fold_max2 batterySOC (S754_infinity true) eq_refl HsocNaN)
    as (HhiNaN & _ & _ & Hhigh).
  cbv zeta in HmaxNaN, Hmax, HloNaN, Hlo, Hlow, HhiNaN, Hhigh.
  assert (Hmax0 :
    Num.le Num.zero
      match powerValues with
      | [] => Num.zero
      | _ => fold_left max2 powerValues (S754_infinity true)
      end = true).
  { destruct powerValues as [| v values] eqn:Hvalues; [reflexivity |].
    apply List.Forall_cons_iff in Hpower as [Hv _].
    apply List.Forall_cons_iff in Hmax as [Hvmax _].
    apply List.Forall_cons_iff in HpowerNaN as [Hvn _].
    apply (le_trans _ v); try assumption; [reflexivity |].
    apply lt_le; [reflexivity | assumption | assumption]. }
  split; [exact Hmax0 |]. split; [| split; [| split]].
  - apply List.Forall_forall. intros r Hr. cbv zeta. intros Hnan.
    destruct (Num.gt (PVData.powerW (InverterRecord.pv r)) Num.zero) eqn:Hgt.
    + assert (Hin : In (PVData.powerW (InverterRecord.pv r)) powerValues).
      { apply filter_In. split; [| exact Hgt].
        apply (in_map (fun r => PVData.powerW (InverterRecord.pv r))), Hr. }
      destruct powerValues as [| v values]; [destruct Hin |].
      rewrite List.Forall_forall in Hmax. exact (Hmax _ Hin).
    + apply (le_trans _ Num.zero); try assumption; try reflexivity.
      * destruct powerValues; [reflexivity | exact HmaxNaN].
      * apply not_lt_le; [assumption | reflexivity | exact Hgt].
  - destruct batterySOC as [| v values] eqn:Hvalues; [reflexivity |].
    destruct Hlo as [-> | Hin]; [reflexivity |].
    rewrite List.Forall_forall in Hsoc. exact (Hsoc _ Hin).
  - destruct batterySOC as [| v values] eqn:Hvalues; [reflexivity |].
    apply List.Forall_cons_iff in Hlow as [Hv1 _].
    apply List.Forall_cons_iff in Hhigh as [Hv2 _].
    apply List.Forall_cons_iff in HsocNaN as [Hvn _].
    apply (le_trans _ v); assumption.
  - apply List.Forall_forall. intros r Hr. cbv zeta. intros Hge.
    assert (Hin : In (BatteryData.soc (InverterRecord.battery r)) batterySOC).
    { apply filter_In. split; [| exact Hge].
      apply (in_map (fun r => BatteryData.soc (InverterRecord.battery r))), Hr. }
    destruct batterySOC as [| v values]; [destruct Hin |].
    rewrite List.Forall_forall in Hlow, Hhigh. split; auto.
Qed.

End RangeFacts.

(** ** Live data *)

Section LiveFacts.
Context {A : Type}.

Lemma lastN_snoc (n : nat) (l : list A) (x : A) :
  (0 < n)%nat ->
  lastN n (l ++ [x])
  = if (n <? length (lastN n l ++ [x]))%nat
    then tl (lastN n l ++ [x]) else lastN n l ++ [x].
Proof.
  intros Hn. unfold lastN. rewrite !length_app, length_skipn. cbn [length].
  destruct (Nat.ltb_spec n (length l - (length l - n) + 1)) as [Hlt | Hge].
  - assert (Hl : (n <= length l)%nat) by lia.
    replace (length l + 1 - n)%nat with (S (length l - n)) by lia.
    rewrite skipn_app.
    replace (S (length l - n) - length l)%nat with 0%nat by lia.
    cbn [skipn].
    destruct (skipn (length l - n) l) as [| y rest] eqn:Hskip.
    + apply (f_equal (@length A)) in Hskip. rewrite length_skipn in Hskip.
      cbn [length] in Hskip. lia.
    + change (S (length l - n)) with (1 + (length l - n))%nat.
      rewrite <- skipn_skipn, Hskip. reflexivity.
  - replace (length l + 1 - n)%nat with 0%nat by lia.
    replace (length l - n)%nat with 0%nat by lia. reflexivity.
Qed.

Lemma slice_lastN (n : nat) (l : list A) :
  (0 < n)%nat -> slice (- Z.of_nat n) l = lastN n l.
Proof.
  intros Hn. unfold slice, lastN. cbv zeta.
  destruct (Z.ltb_spec (- Z.of_nat n) 0) as [_ | H]; [| lia].
  f_equal. lia.
Qed.

Lemma cacheAfter_lastN (records : list A) :
  cacheAfter records = lastN maxCacheSize records.
Proof.
  unfold cacheAfter.
  induction records as [| record records IH] using rev_ind; [reflexivity |].
  rewrite fold_left_app. cbn [fold_left]. rewrite IH.
  unfold addToCache. cbv zeta. symmetry. apply lastN_snoc.
  unfold maxCacheSize. lia.
Qed.

Lemma lastN_lastN (n m : nat) (l : list A) :
  lastN n (lastN m l) = lastN (Nat.min n m) l.
Proof.
  unfold lastN. rewrite length_skipn, skipn_skipn. f_equal. lia.
Qed.

Lemma lastN_again (n : nat) (l : list A) (x : A) :
  (0 < n)%nat -> lastN n (lastN n l ++ [x]) = lastN n (l ++ [x]).
Proof.
  intros Hn. unfold lastN.
  rewrite !length_app, length_skipn. cbn [length].
  rewrite !skipn_app, skipn_skipn, length_skipn.
  f_equal; f_equal; lia.
Qed.

Lemma historyAfter_lastN (records : list A) :
  historyAfter records = lastN 100 records.
Proof.
  unfold historyAfter.
  induction records as [| record records IH] using rev_ind; [reflexivity |].
  rewrite fold_left_app. cbn [fold_left]. rewrite IH.
  unfold handleData. cbv zeta. rewrite (slice_lastN 100) by lia.
  apply lastN_again. lia.
Qed.

(** X23. The cache of the service keeps the newest records: after any
    run of records from the empty cache it holds the last 1000 of them,
    in order, so never more than 1000; the latest datum is the last
    record of the run; a positive limit gives that many of the newest
    records, and the limit [0] gives the whole cache. *)
Theorem cache_keeps_newest (records : list A) :
  let dataCache := cacheAfter records in
  dataCache = lastN maxCacheSize records
  /\ length dataCache = Nat.min (length records) maxCacheSize
  /\ getLatestData dataCache = List.last (map Some records) None
  /\ (forall limit : nat,
        (0 < limit)%nat ->
        getCachedData (Some (Z.of_nat limit)) dataCache
        = lastN (Nat.min limit maxCacheSize) records)
  /\ getCachedData (Some 0%Z) dataCache = dataCache.
Proof.
  cbv zeta. rewrite cacheAfter_lastN.
  split; [reflexivity |]. split; [| split; [| split]].
  - unfold lastN. rewrite length_skipn. lia.
  - unfold getLatestData.
    induction records as [| record records _] using rev_ind; [reflexivity |].
    rewrite List.map_app. cbn [map]. rewrite last_last.
    assert (Hlen : (0 < length (lastN maxCacheSize (records ++ [record])))%nat).
    { unfold lastN. rewrite length_skipn, length_app. cbn [length].
      unfold maxCacheSize. lia. }
    destruct (Nat.ltb_spec 0 (length (lastN maxCacheSize (records ++ [record]))))
      as [_ | H]; [| lia].
    unfold lastN in *. rewrite length_skipn in *. rewrite nth_error_skipn.
    rewrite length_app in *. cbn [length] in *.
    replace (length records + 1 - maxCacheSize
             + (length records + 1 - (length records + 1 - maxCacheSize) - 1))%nat
      with (length records) by lia.
    rewrite nth_error_app2 by lia. rewrite Nat.sub_diag. reflexivity.
  - intros limit Hlimit. unfold getCachedData.
    destruct (Z.eqb_spec (Z.of_nat limit) 0) as [H | _]; [lia |].
    rewrite slice_lastN by exact Hlimit. apply lastN_lastN.
  - reflexivity.
Qed.

(** X24. The history of the page keeps the newest 100 records of a run,
    in order, and is what the service gives for the limit 100 after the
    same run. *)
Theorem history_keeps_newest (records : list A) :
  historyAfter records = lastN 100 records
  /\ length (historyAfter records) = Nat.min (length records) 100
  /\ historyAfter records = getCachedData (Some 100%Z) (cacheAfter records).
Proof.
  rewrite historyAfter_lastN, cacheAfter_lastN.
  split; [reflexivity |]. split.
  - unfold lastN. rewrite length_skipn. lia.
  - change (Some 100%Z) with (Some (Z.of_nat 100)). unfold getCachedData.
    destruct (Z.eqb_spec (Z.of_nat 100) 0) as [H | _]; [lia |].
    rewrite slice_lastN by lia. rewrite lastN_lastN. reflexivity.
Qed.

End LiveFacts.

(** ** Bucket keys: coarser intervals *)

Lemma occurs_app (c : ascii) (s t : string) :
  occurs c (s +:+ t) = (occurs c s || occurs c t)%bool.
Proof.
  induction s as [| a s IH]; [reflexivity |].
  change (occurs c (String a (s +:+ t))
          = (occurs c (String a s) || occurs c t)%bool).
  cbn [occurs]. rewrite IH, orb_assoc. reflexivity.
Qed.

Lemma beforeLast_app (c : ascii) (s t : string) :
  occurs c t = false -> beforeLast c (s +:+ String c t) = s.
Proof.
  intros Ht. induction s as [| a s IH].
  - change (beforeLast c (String c t) = ""). cbn [beforeLast].
    rewrite Ht, Ascii.eqb_refl. reflexivity.
  - change (beforeLast c (String a (s +:+ String c t)) = String a s).
    cbn [beforeLast]. rewrite occurs_app. cbn [occurs].
    rewrite Ascii.eqb_refl, orb_true_r, IH. reflexivity.
Qed.

(** A text of numeral characters holds no other character. *)
Lemma occurs_numeral (c : ascii) (s : string) :
  numeral c = false ->
  forallb numeral (list_ascii_of_string s) = true ->
  occurs c s = false.
Proof.
  intros Hc. induction s as [| a s IH]; [reflexivity |].
  cbn [list_ascii_of_string forallb occurs]. intros H.
  apply andb_true_iff in H as [Ha Hs]. rewrite (IH Hs), orb_false_r.
  destruct (Ascii.eqb_spec a c) as [-> | _]; [congruence | reflexivity].
Qed.

Lemma string_of_uint_numeral (u : Decimal.uint) :
  forallb numeral (list_ascii_of_string (NilEmpty.string_of_uint u)) = true.
Proof. induction u; cbn [NilEmpty.string_of_uint list_ascii_of_string forallb]; auto. Qed.

Lemma ofZ_numeral (z : Z) :
  forallb numeral (list_ascii_of_string (Str.ofZ z)) = true.
Proof.
  unfold Str.ofZ, NilZero.string_of_int.
  destruct (Z.to_int z) as [u | u]; unfold NilZero.string_of_uint.
  - destruct u; try reflexivity; apply string_of_uint_numeral.
  - cbn [list_ascii_of_string forallb].
    destruct u; try reflexivity; apply string_of_uint_numeral.
Qed.

Lemma dateText_numeral (date : option Z) (getter : Z -> Z) (offset : Z) :
  forallb numeral (list_ascii_of_string (dateText date getter offset)) = true.
Proof.
  unfold dateText. destruct date; [apply ofZ_numeral | reflexivity].
Qed.

Lemma padStart2_numeral (s : string) :
  forallb numeral (list_ascii_of_string s) = true ->
  forallb numeral (list_ascii_of_string (Str.padStart2 s)) = true.
Proof.
  intros Hs. unfold Str.padStart2.
  destruct s as [| a [| b s]]; cbn [String.length]; [reflexivity | | exact Hs].
  exact Hs.
Qed.

Section KeyFacts.
Context {dateHost : DateHost}.

(** The key of the hour and the key of the day, read off the key of the
    minute. *)
Lemma intervalKey_hour (datetime : string) :
  intervalKey hour datetime
  = beforeLast ":" (intervalKey minute datetime) +:+ ":00".
Proof.
  unfold intervalKey. cbv zeta.
  set (date := Date_getTime datetime).
  set (minutes := Str.padStart2 (dateText date Date_getMinutes 0)).
  assert (Hm : occurs ":" minutes = false).
  { apply occurs_numeral; [reflexivity |].
    apply padStart2_numeral, dateText_numeral. }
  change (":" +:+ minutes) with (String ":" minutes).
  rewrite <- !append_assoc.
  rewrite (beforeLast_app ":" _ minutes Hm). reflexivity.
Qed.

Lemma intervalKey_day (datetime : string) :
  intervalKey day datetime = beforeLast " " (intervalKey hour datetime).
Proof.
  unfold intervalKey. cbv zeta.
  set (date := Date_getTime datetime).
  set (hours := Str.padStart2 (dateText date Date_getHours 0)).
  assert (Hh : occurs " " (hours +:+ ":00") = false).
  { rewrite occurs_app. apply orb_false_iff. split; [| reflexivity].
    apply occurs_numeral; [reflexivity |].
    apply padStart2_numeral, dateText_numeral. }
  change (" " +:+ hours +:+ ":00") with (String " " (hours +:+ ":00")).
  rewrite <- !append_assoc.
  rewrite (beforeLast_app " " _ _ Hh). reflexivity.
Qed.

Lemma intervalKey_nonempty (interval : Interval) (datetime : string) :
  intervalKey interval datetime <> "".
Proof.
  unfold intervalKey. cbv zeta.
  assert (H : forall s t : string, s +:+ "-" +:+ t <> "").
  { intros [| a s] t; discriminate. }
  destruct interval; apply H.
Qed.

Lemma distinct_length_le {A B C : Type} (eqbB : B -> B -> bool)
    (eqbC : C -> C -> bool) (f : A -> B) (g : A -> C) (h : C -> B)
    (l : list A) :
  (forall x y, eqbB x y = true <-> x = y) ->
  (forall x y, eqbC x y = true <-> x = y) ->
  (forall x, In x l -> f x = h (g x)) ->
  (length (distinct eqbB (map f l)) <= length (distinct eqbC (map g l)))%nat.
Proof.
  intros HB HC Hfg.
  rewrite <- (length_map h (distinct eqbC (map g l))).
  apply List.NoDup_incl_length.
  - apply NoDup_ListNoDup, (distinct_NoDup eqbB HB).
  - intros y Hy. apply (distinct_In eqbB HB), in_map_iff in Hy as (x & <- & Hx).
    rewrite (Hfg x Hx). apply in_map, (distinct_In eqbC HC), in_map, Hx.
Qed.

Lemma aggregateData_length (records : list InverterRecord.t)
    (options : AggregationOptions.t) :
  length (aggregateData records options)
  = length
      (distinct String.eqb
         (map (periodOf (AggregationOptions.interval options))
            (List.filter dated records))).
Proof.
  rewrite aggregateData_groupsOf. unfold groupsOf. rewrite !length_map.
  reflexivity.
Qed.

(** X25. Coarser intervals give coarser buckets. Two instants that share
    the key of a minute share the key of the hour, and two that share the
    key of an hour share the key of the day; so, over the same records,
    aggregation by day gives at most as many buckets as by hour, and by
    hour at most as many as by minute. *)
Theorem coarser_intervals (records : list InverterRecord.t)
    (fields : option (list string)) (method : Method) :
  (forall d1 d2 : string,
     intervalKey minute d1 = intervalKey minute d2 ->
     intervalKey hour d1 = intervalKey hour d2)
  /\ (forall d1 d2 : string,
        intervalKey hour d1 = intervalKey hour d2 ->
        intervalKey day d1 = intervalKey day d2)
  /\ (length (aggregateData records (AggregationOptions.mk day fields method))
      <= length (aggregateData records (AggregationOptions.mk hour fields method))
      <= length
           (aggregateData records (AggregationOptions.mk minute fields method)))%nat.
Proof.
  split; [| split].
  - intros d1 d2 H. rewrite !intervalKey_hour, H. reflexivity.
  - intros d1 d2 H. rewrite !intervalKey_day, H. reflexivity.
  - rewrite !aggregateData_length. cbn [AggregationOptions.interval].
    split.
    + apply (distinct_length_le String.eqb String.eqb _ _
               (fun key => if String.eqb key "" then "" else beforeLast " " key)
               _ string_eqb_spec string_eqb_spec).
      intros record _. unfold periodOf.
      destruct (Timestamp.datetime _) as [datetime |]; [| reflexivity].
      destruct (String.eqb_spec (intervalKey hour datetime) "") as [H | _];
        [destruct (intervalKey_nonempty _ _ H) | apply intervalKey_day].
    + apply (distinct_length_le String.eqb String.eqb _ _
               (fun key =>
                  if String.eqb key "" then ""
                  else beforeLast ":" key +:+ ":00")
               _ string_eqb_spec string_eqb_spec).
      intros record _. unfold periodOf.
      destruct (Timestamp.datetime _) as [datetime |]; [| reflexivity].
      destruct (String.eqb_spec (intervalKey minute datetime) "") as [H | _];
        [destruct (intervalKey_nonempty _ _ H) | apply intervalKey_hour].
Qed.

End KeyFacts.

(** ** The properties at work on the sample *)

Section Examples.
Import ExampleHost.

Example parseRow_sampleRow :
  parseRow sampleRow 2 = RowResult.mk (Some sampleRecord) [].
Proof. vm_compute. reflexivity. Qed.

(** The end-to-end sample: two rows, one record, and a missing date
    reported for the dropped row. *)
Example parseCSV_sample :
  let result := parseCSV (tokenizer := sampleTokenizer) "" in
  ParseResult.totalRows result = 2%nat
  /\ ParseResult.successfulRows result = 1%nat
  /\ ParseResult.data result = [sampleRecord]
  /\ In (ParseError.mk 3 "Date" "" "Date is required" missing)
       (ParseResult.errors result).
Proof. vm_compute. repeat split. left. reflexivity. Qed.

Lemma parseRow_acceptance_witness :
  (exists record, RowResult.record (parseRow sampleRow 2) = Some record)
  /\ RowResult.record (parseRow sampleDroppedRow 3) = None
  /\ RowResult.errors (parseRow sampleDroppedRow 3) <> [].
Proof.
  split.
  - apply (proj1 (parseRow_acceptance sampleRow 2)).
    left. vm_compute. discriminate.
  - apply (proj2 (parseRow_acceptance sampleDroppedRow 3)).
    split; vm_compute; reflexivity.
Defined.

Lemma validateNumber_spec_witness :
  validateNumber "150" "Battery_SOC" (Num.ofZ 0) (Num.ofZ 100) 2
  = failed (Num.ofZ 150)
      (ParseError.mk 2 "Battery_SOC" "150"
         "Value 150 is outside valid range [0, 100]" validation)
  /\ validateNumber "abc" "Battery_SOC" (Num.ofZ 0) (Num.ofZ 100) 2
     = failed Num.zero
         (ParseError.mk 2 "Battery_SOC" "abc"
            ("Invalid number format: " +:+ quote +:+ "abc" +:+ quote)
            conversion)
  /\ validateNumber "" "Battery_SOC" (Num.ofZ 0) (Num.ofZ 100) 2 = ok Num.zero
  /\ validateNumber "-" "Battery_SOC" (Num.ofZ 0) (Num.ofZ 100) 2 = ok Num.zero
  /\ validateNumber "98" "Battery_SOC" (Num.ofZ 0) (Num.ofZ 100) 2
     = ok (Num.ofZ 98).
Proof.
  pose proof (fun value =>
                validateNumber_spec value "Battery_SOC" (Num.ofZ 0)
                  (Num.ofZ 100) 2 eq_refl) as H.
  cbv zeta in H.
  split; [| split; [| split; [| split]]].
  - apply (proj1 (proj2 (proj2 (H "150"))));
      first [discriminate | reflexivity].
  - apply (proj1 (proj2 (H "abc"))); first [discriminate | reflexivity].
  - apply (proj1 (H "")). left. reflexivity.
  - apply (proj1 (H "-")). right. reflexivity.
  - apply (proj2 (proj2 (proj2 (H "98")))); first [discriminate | reflexivity].
Defined.

Lemma aggregate_single_record_witness :
  exists (period : string) (values : gmap string number) (v' : number),
    aggregateData [sampleRecord]
      (AggregationOptions.mk hour (Some ["battery.soc"]) average)
    = [AggregatedData.mk period values 1]
    /\ values !! "battery.soc" = Some v'
    /\ Num.eq v' (Num.Number "98") = true
    /\ (Num.Number "98" <> S754_zero true -> v' = Num.Number "98").
Proof.
  apply (aggregate_single_record sampleRecord "2025-09-28T21:05:00.000Z"
           hour average "battery.soc" (Num.Number "98")).
  - reflexivity.
  - discriminate.
  - right. reflexivity.
  - cbn. do 11 right. left. reflexivity.
  - reflexivity.
  - reflexivity.
Defined.

Lemma formatParseErrors_spec_witness :
  formatParseErrors [] = "No errors"
  /\ formatParseErrors sevenErrors
     = ("Found 7 error(s):" +:+ newline)
       +:+ (newline +:+ "MISSING errors (7):" +:+ newline
            +:+ ("  Row 2, Date: Date is required" +:+ newline)
            +:+ ("  Row 3, Date: Date is required" +:+ newline)
            +:+ ("  Row 4, Date: Date is required" +:+ newline)
            +:+ ("  Row 5, Date: Date is required" +:+ newline)
            +:+ ("  Row 6, Date: Date is required" +:+ newline)
            +:+ "  ... and 2 more" +:+ newline).
Proof.
  destruct (formatParseErrors_spec sevenErrors missing eq_refl) as [H0 H7].
  - repeat constructor.
  - split; [exact H0 |]. rewrite H7. vm_compute. reflexivity.
Defined.

Lemma parseRow_drop_reports_incomplete_witness :
  RowResult.errors (parseRow sampleDroppedRow 3)
  = [ParseError.mk 3 "Date" "" "Date is required" missing;
     ParseError.mk 3 "record" "incomplete"
       "Row missing required ID or date information" validation].
Proof.
  destruct (parseRow_drop_reports_incomplete sampleDroppedRow 3)
    as (H & _).
  - vm_compute. reflexivity.
  - rewrite H. vm_compute. reflexivity.
Defined.

Lemma validateHex_invalid_verbatim_witness :
  validateHex "03" "Status_Hex" 2
  = failed "03"
      (ParseError.mk 2 "Status_Hex" "03"
         ("Invalid hex format: " +:+ quote +:+ "03" +:+ quote) format)
  /\ forall record : InverterRecord.t,
      RowResult.record (parseRow (<["Hex" := "03"]> sampleRow) 2) = Some record ->
      SystemStatus.hex (InverterRecord.status record) = "03".
Proof.
  destruct (validateHex_invalid_verbatim "03" "Status_Hex" 2) as [Hv Hrow].
  - discriminate.
  - reflexivity.
  - split; [exact Hv |].
    intros record. apply Hrow. apply lookup_insert_eq.
Defined.

End Examples.

(** ** More properties at work on the sample *)

Section MoreExamples.
Import ExampleHost.

Lemma validateNumber_value_sound_witness :
  Num.isNaN
    (Validated.value
       (validateNumber "abc" "Battery_SOC" (Num.ofZ 0) (Num.ofZ 100) 2))
  = false.
Proof.
  exact (proj1 (validateNumber_value_sound "abc" "Battery_SOC" (Num.ofZ 0)
                  (Num.ofZ 100) 2 eq_refl)).
Defined.

Lemma parseRow_clean_witness :
  exists record,
    RowResult.record (parseRow sampleRow 2) = Some record
    /\ is_Some
         (Timestamp.datetime
            (UserRecord.timestamp (InverterRecord.userRecord record)))
    /\ hexRegex (SystemStatus.hex (InverterRecord.status record)) = true
    /\ Forall zeroOrWithin (fieldRanges record).
Proof. apply (parseRow_clean sampleRow 2). vm_compute. reflexivity. Defined.

Lemma parseRow_no_NaN_witness :
  Forall (fun fv => Num.isNaN (snd fv) = false) (numericFields sampleRecord).
Proof.
  apply (parseRow_no_NaN sampleRow 2 sampleRecord). vm_compute. reflexivity.
Defined.

Lemma formatParseErrors_blocks_witness :
  NoDup (map fst (groupsOf ParseError.type ErrorType_eqb sevenErrors))
  /\ total
       (map (fun g => length (snd g))
          (groupsOf ParseError.type ErrorType_eqb sevenErrors))
     = 7%nat.
Proof.
  destruct (formatParseErrors_blocks sevenErrors) as (_ & Hkeys & _ & Hsizes).
  - discriminate.
  - split; [exact Hkeys | exact Hsizes].
Defined.

Lemma parseCSV_by_rows_witness :
  ParseResult.data (parseCSV (tokenizer := sampleTokenizer) "")
  = omap RowResult.record [parseRow sampleRow 2; parseRow sampleDroppedRow 3]
  /\ ParseResult.totalRows (parseCSV (tokenizer := sampleTokenizer) "") = 2%nat.
Proof.
  destruct (parseCSV_by_rows (tokenizer := sampleTokenizer) ""
              (Papa.mkResult [sampleRow; sampleDroppedRow] []) eq_refl)
    as (Hdata & _ & Hrows).
  split; [exact Hdata | exact Hrows].
Defined.

Lemma parseCSV_error_rows_witness :
  exists rowErrors,
    ParseResult.errors (parseCSV (tokenizer := sampleTokenizer) "")
    = rowErrors ++ []
    /\ StronglySorted Z.le (map ParseError.row rowErrors).
Proof.
  destruct (parseCSV_error_rows (tokenizer := sampleTokenizer) ""
              (Papa.mkResult [sampleRow; sampleDroppedRow] []) eq_refl)
    as (rowErrors & Herrors & _ & Hsorted & _).
  exists rowErrors. split; [exact Herrors | exact Hsorted].
Defined.

Lemma aggregateData_values_witness :
  AggregatedData.values
    (AggregatedData.mk "2025-09-28 21:00" {["frequency" := Num.zero]} 1)
  !! "pv.powerW" = None.
Proof.
  apply (aggregateData_values [sampleRecord]
           (AggregationOptions.mk hour (Some ["frequency"]) sum)
           (AggregatedData.mk "2025-09-28 21:00" {["frequency" := Num.zero]} 1)
           "pv.powerW").
  left. vm_compute. reflexivity.
Defined.

Lemma calculateAggregation_min_max_witness :
  In (calculateAggregation (extractFieldValues [sampleRecord] "battery.soc") min)
    (extractFieldValues [sampleRecord] "battery.soc").
Proof.
  refine (proj1 (calculateAggregation_min_max [sampleRecord] "battery.soc" _)).
  vm_compute. discriminate.
Defined.

Lemma parseRow_of_export_witness :
  Forall (fun e => In (ParseError.field e) reimportedFields)
    (RowResult.errors (parseRow exportedRow 2))
  /\ forall record : InverterRecord.t,
      RowResult.record (parseRow exportedRow 2) = Some record ->
      InverterRecord.battery record
      = BatteryData.mk Num.zero Num.zero Num.zero Num.zero.
Proof.
  assert (Hcolumns : dom exportedRow ⊆ exportColumns).
  { refine (bool_decide_unpack (dom exportedRow ⊆ exportColumns) _).
    vm_compute. exact I. }
  destruct (parseRow_of_export exportedRow 2 Hcolumns) as [Hrecord Herrors].
  split; [exact Herrors |].
  intros record H.
  destruct (Hrecord record H) as (_ & _ & _ & _ & _ & _ & Hbattery & _).
  exact Hbattery.
Defined.

Lemma calculateStatistics_spec_witness :
  exists stats : Statistics.t,
    calculateStatistics [sampleRecord] = Returns (Some stats)
    /\ Statistics.totalRecords stats = 1%nat.
Proof.
  destruct (calculateStatistics_spec [sampleRecord]
              (Some "2025-09-28T21:05:00.000Z",
               Some "2025-09-28T21:05:00.000Z"))
    as (stats & Hstats & Htotal & _).
  - discriminate.
  - vm_compute. reflexivity.
  - exists stats. split; [exact Hstats | exact Htotal].
Defined.

End MoreExamples.
